(** * FIT-Sec: the tool-call security runtime of nanobot-fitsec

    A shallow embedding of [nanobot/fitsec] (types, policy, gate, emptiness,
    audit, runtime) and of the secure registry facade in
    [nanobot/agent/tools/secure_registry.py], followed by the properties
    that hold of it.

    Conventions.
    - A Python class becomes a module holding a record [t] of its fields
      and one function per method; a method that mutates [self] returns
      the new object next to its result.
    - Python floats are binary64 and are modelled as Rocq's primitive
      floats; comparisons are the IEEE ones.
    - Dicts are [gmap], sets are [gset], lists are [list].
    - What a call reads from outside the program (the wall clock, the UUID
      generator, the interpreter's float printer) and what it leaves outside
      (the durable audit sink, the calls that reached a native tool) lives
      in a [World.t] that is threaded through the effectful methods.
    - A raised exception is the [Raise] result; the objects mutated before
      the raise are returned with it. An exception is either an
      [Exception], which [except Exception] catches, or a [BaseException]
      that is none (KeyboardInterrupt, SystemExit, task cancellation).
    - A write to the durable sink can fail with an [OSError]; whether the
      next write fails is the world's to say. *)

From Stdlib Require Import ZArith String.
From Stdlib Require Import Floats.
From stdpp Require Import gmap strings list pretty.

Set Warnings "-inexact-float,-register-all".
#[local] Open Scope string_scope.

(* ===================================================================== *)
(** ** fitsec/types.py                                                    *)
(* ===================================================================== *)

(** [typing.Any]: the JSON-like values that flow through tool arguments and
    tool results. *)
Inductive PyVal : Type :=
| VNone
| VBool (b : bool)
| VInt (z : Z)
| VFloat (f : float)
| VStr (s : string)
| VList (l : list PyVal)
| VDict (d : gmap string PyVal).

(** Truthiness of a value, as [if v:] tests it. *)
Definition truthy (v : PyVal) : bool :=
  match v with
  | VNone => false
  | VBool b => b
  | VInt z => negb (z =? 0)%Z
  | VFloat f => negb (PrimFloat.eqb f 0%float)
  | VStr s => negb (String.eqb s "")
  | VList l => match l with [] => false | _ => true end
  | VDict d => negb (bool_decide (d = ∅))
  end.

(** Truthiness of an [Optional[str]]: set and not empty. *)
Definition truthy_str (o : option string) : bool :=
  match o with
  | Some s => negb (String.eqb s "")
  | None => false
  end.

(** [o or d] on an [Optional[str]]. *)
Definition str_or (o : option string) (d : string) : string :=
  match o with
  | Some s => if String.eqb s "" then d else s
  | None => d
  end.

Module OmegaLevel.
Inductive t := OMEGA_0 | OMEGA_1 | OMEGA_2 | UNKNOWN.
#[global] Instance eq_dec : EqDecision t.
Proof. solve_decision. Defined.
Definition value (o : t) : Z :=
  match o with OMEGA_0 => 0 | OMEGA_1 => 1 | OMEGA_2 => 2 | UNKNOWN => 99 end.
Definition name (o : t) : string :=
  match o with
  | OMEGA_0 => "OMEGA_0" | OMEGA_1 => "OMEGA_1"
  | OMEGA_2 => "OMEGA_2" | UNKNOWN => "UNKNOWN"
  end.
End OmegaLevel.

Module Decision.
Inductive t := ALLOW | DENY | REVIEW.
#[global] Instance eq_dec : EqDecision t.
Proof. solve_decision. Defined.
Definition name (d : t) : string :=
  match d with ALLOW => "ALLOW" | DENY => "DENY" | REVIEW => "REVIEW" end.
End Decision.

Module GateStatus.
Inductive t :=
| PASS | FAIL_FPR | FAIL_COVERAGE | FAIL_CALIBRATION | FAIL_LEAD_TIME | UNKNOWN.
#[global] Instance eq_dec : EqDecision t.
Proof. solve_decision. Defined.
Definition name (s : t) : string :=
  match s with
  | PASS => "PASS" | FAIL_FPR => "FAIL_FPR" | FAIL_COVERAGE => "FAIL_COVERAGE"
  | FAIL_CALIBRATION => "FAIL_CALIBRATION" | FAIL_LEAD_TIME => "FAIL_LEAD_TIME"
  | UNKNOWN => "UNKNOWN"
  end.
(** [status in (GateStatus.PASS, GateStatus.UNKNOWN)] *)
Definition in_pass_unknown (s : t) : bool :=
  match s with PASS | UNKNOWN => true | _ => false end.
End GateStatus.

Module EmptinessState.
Inductive t := NORMAL | EMPTINESS.
#[global] Instance eq_dec : EqDecision t.
Proof. solve_decision. Defined.
Definition name (s : t) : string :=
  match s with NORMAL => "NORMAL" | EMPTINESS => "EMPTINESS" end.
End EmptinessState.

Module ToolManifest.
Record t := mk {
  tool_id : string;
  omega_level : OmegaLevel.t;
  description : string;
  capabilities : list string;
  network_domains : list string;
  fs_paths : list string;
  requires_approval : bool;
  hash_sha256 : option string
}.
End ToolManifest.

Module ToolCall.
Record t := mk {
  tool_id : string;
  action : string;
  args : gmap string PyVal;
  context : gmap string PyVal;
  timestamp : float
}.
End ToolCall.

Module GateMetrics.
Record t := mk {
  fpr : option float;
  fpr_target : float;
  coverage_at_fpr : option float;
  coverage_target : float;
  calibration_score : option float;
  calibration_threshold : float;
  lead_time_mean : option float;
  lead_time_std : option float;
  lead_time_cv_max : float
}.
(** The dataclass defaults. *)
Definition default : t :=
  mk None 0.05 None 0.80 None 0.7 None None 0.5.
End GateMetrics.

Module PolicyDecision.
Record t := mk {
  decision : Decision.t;
  omega_level : OmegaLevel.t;
  gate_status : GateStatus.t;
  rationale : string;
  metrics_snapshot : option GateMetrics.t;
  timestamp : float
}.
End PolicyDecision.

Module AuditEntry.
Record t := mk {
  entry_id : string;
  tool_call : ToolCall.t;
  manifest : option ToolManifest.t;
  policy_decision : PolicyDecision.t;
  executed : bool;
  result : option PyVal;
  error : option string;
  timestamp : float
}.
End AuditEntry.

(** The exception classes. [FitSecError] is the base class raised as such;
    [OtherException] is any other subclass of [Exception] (an [OSError]
    from a file write is one); [OtherBaseException] is a [BaseException]
    that is not an [Exception]: [KeyboardInterrupt], [SystemExit],
    [asyncio.CancelledError]. Each carries its message, which is what
    [str(e)] returns. *)
Inductive Exc :=
| FitSecError (msg : string)
| ToolNotRegisteredError (msg : string)
| PolicyDeniedError (msg : string)
| GateFailedError (msg : string)
| EmptinessActiveError (msg : string)
| OtherException (msg : string)
| OtherBaseException (msg : string).

Definition str_exc (e : Exc) : string :=
  match e with
  | FitSecError m | ToolNotRegisteredError m | PolicyDeniedError m
  | GateFailedError m | EmptinessActiveError m | OtherException m
  | OtherBaseException m => m
  end.

(** [isinstance(e, Exception)]: what a clause [except Exception] catches. *)
Definition is_Exception (e : Exc) : bool :=
  match e with
  | OtherBaseException _ => false
  | _ => true
  end.

(** The outcome of a call that may raise. *)
Inductive Outcome (A : Type) :=
| Return (a : A)
| Raise (e : Exc).
Arguments Return {A} a.
Arguments Raise {A} e.

(* ===================================================================== *)
(** ** The world outside the program                                      *)
(* ===================================================================== *)

Module World.
Record t := mk {
  (** [clock n] is what the [n]-th call of [time.time()] returns *)
  clock : nat -> float;
  clock_reads : nat;
  (** [uuids n] is what the [n]-th [str(uuid.uuid4())] returns *)
  uuids : nat -> string;
  uuid_draws : nat;
  (** the interpreter's [f"{x:.3f}"] and [str(x)] on floats, and
      [time.strftime("%Y-%m-%dT%H:%M:%SZ", time.gmtime(x))] on the clock's
      readings, which are in the range of [gmtime] *)
  format_3f : float -> string;
  str_float : float -> string;
  strftime_utc : float -> string;
  (** the durable sink: per path, the records appended to it, oldest first
      (each is written as one JSON line) *)
  files : gmap string (list PyVal);
  (** [write_errors n] is the message of the [OSError] that the [n]-th
      attempt to open a file for appending raises, if it raises *)
  write_errors : nat -> option string;
  write_attempts : nat;
  (** the calls that reached a native tool, oldest first *)
  native_calls : list (string * gmap string PyVal)
}.
Definition tick (w : t) : t :=
  mk (clock w) (S (clock_reads w)) (uuids w) (uuid_draws w)
     (format_3f w) (str_float w) (strftime_utc w) (files w)
     (write_errors w) (write_attempts w) (native_calls w).
Definition draw (w : t) : t :=
  mk (clock w) (clock_reads w) (uuids w) (S (uuid_draws w))
     (format_3f w) (str_float w) (strftime_utc w) (files w)
     (write_errors w) (write_attempts w) (native_calls w).
(** One more attempt to write, leaving the files as [f]. *)
Definition wrote (f : gmap string (list PyVal)) (w : t) : t :=
  mk (clock w) (clock_reads w) (uuids w) (uuid_draws w)
     (format_3f w) (str_float w) (strftime_utc w) f
     (write_errors w) (S (write_attempts w)) (native_calls w).
Definition set_native_calls (c : list (string * gmap string PyVal)) (w : t) : t :=
  mk (clock w) (clock_reads w) (uuids w) (uuid_draws w)
     (format_3f w) (str_float w) (strftime_utc w) (files w)
     (write_errors w) (write_attempts w) c.
End World.

(** Computations that read or change the world. *)
Definition Py (A : Type) : Type := World.t -> A * World.t.

#[global] Instance Py_ret : MRet Py := fun A a w => (a, w).
#[global] Instance Py_bind : MBind Py :=
  fun A B f m w => let '(a, w') := m w in f a w'.

(** The world as it stands (to reach the float printer). *)
Definition the_world : Py World.t := fun w => (w, w).

(** [time.time()] *)
Definition time_time : Py float :=
  fun w => (World.clock w (World.clock_reads w), World.tick w).

(** [str(uuid.uuid4())] *)
Definition uuid4_str : Py string :=
  fun w => (World.uuids w (World.uuid_draws w), World.draw w).

(** [PolicyDecision(...)]: the timestamp defaults to [time.time()]. *)
Definition new_PolicyDecision (decision : Decision.t) (omega_level : OmegaLevel.t)
    (gate_status : GateStatus.t) (rationale : string)
    (metrics_snapshot : option GateMetrics.t) : Py PolicyDecision.t :=
  now ← time_time;
  mret (PolicyDecision.mk decision omega_level gate_status rationale
          metrics_snapshot now).

(** [ToolCall(tool_id=..., action=..., args=...)]: empty context, the
    timestamp defaults to [time.time()]. *)
Definition new_ToolCall (tool_id action : string) (args : gmap string PyVal)
    : Py ToolCall.t :=
  now ← time_time;
  mret (ToolCall.mk tool_id action args ∅ now).

(* ===================================================================== *)
(** ** fitsec/policy.py                                                   *)
(* ===================================================================== *)

Module PolicyEngine.
Record t := mk {
  default_omega2_deny : bool;
  _grants : gmap string (gset string);
  _omega2_approvals : gmap string float;
  _blocked_tools : gset string;
  _allowed_network_domains : gset string
}.

(** [PolicyEngine(policy_path=None, default_omega2_deny=...)] *)
Definition init (default_omega2_deny : bool) : t :=
  mk default_omega2_deny ∅ ∅ ∅ ∅.

Definition set_omega2_approvals (a : gmap string float) (self : t) : t :=
  mk (default_omega2_deny self) (_grants self) a (_blocked_tools self)
     (_allowed_network_domains self).

Definition set_blocked_tools (b : gset string) (self : t) : t :=
  mk (default_omega2_deny self) (_grants self) (_omega2_approvals self) b
     (_allowed_network_domains self).

Definition set_allowed_network_domains (d : gset string) (self : t) : t :=
  mk (default_omega2_deny self) (_grants self) (_omega2_approvals self)
     (_blocked_tools self) d.

Definition set_grants (g : gmap string (gset string)) (self : t) : t :=
  mk (default_omega2_deny self) g (_omega2_approvals self) (_blocked_tools self)
     (_allowed_network_domains self).

(** [_load_policy], on the parsed JSON document: its "grants",
    "blocked_tools" and "allowed_network_domains" entries, each read as
    empty when the key is missing. *)
Definition _load_policy (self : t) (grants : gmap string (list string))
    (blocked_tools allowed_network_domains : list string) : t :=
  mk (default_omega2_deny self)
     ((list_to_set <$> grants) ∪ _grants self)
     (_omega2_approvals self)
     (list_to_set blocked_tools)
     (list_to_set allowed_network_domains).

(** The grant-list test of [evaluate]: the tool has grants, and they hold
    ["*"] or the called action. *)
Definition grant_covers (self : t) (tool_call : ToolCall.t) : bool :=
  match _grants self !! ToolCall.tool_id tool_call with
  | Some allowed_actions =>
      bool_decide ("*" ∈ allowed_actions)
      || bool_decide (ToolCall.action tool_call ∈ allowed_actions)
  | None => false
  end.

(** [evaluate], the O2 branch from "Check grant list" on. *)
Definition evaluate_omega2_grants (self : t) (tool_call : ToolCall.t)
    (omega : OmegaLevel.t) (gate_status : GateStatus.t)
    : Py (PolicyDecision.t * t) :=
  if grant_covers self tool_call then
    d ← new_PolicyDecision Decision.ALLOW omega gate_status
          "O2 - granted by policy" None;
    mret (d, self)
  else if default_omega2_deny self then
    d ← new_PolicyDecision Decision.DENY omega gate_status
          "O2 (high risk) - denied by default, requires approval" None;
    mret (d, self)
  else
    d ← new_PolicyDecision Decision.REVIEW omega gate_status
          "O2 (high risk) - requires human review" None;
    mret (d, self).

Definition evaluate (self : t) (tool_call : ToolCall.t)
    (manifest : option ToolManifest.t) (gate_status : GateStatus.t)
    : Py (PolicyDecision.t * t) :=
  match manifest with
  | None =>
      d ← new_PolicyDecision Decision.DENY OmegaLevel.UNKNOWN gate_status
            "Tool not registered (no manifest)" None;
      mret (d, self)
  | Some manifest =>
      let omega := ToolManifest.omega_level manifest in
      if bool_decide (ToolCall.tool_id tool_call ∈ _blocked_tools self) then
        d ← new_PolicyDecision Decision.DENY omega gate_status
              ("Tool '" +:+ ToolCall.tool_id tool_call
                 +:+ "' is blocked by policy") None;
        mret (d, self)
      else
        match omega with
        | OmegaLevel.OMEGA_0 =>
            d ← new_PolicyDecision Decision.ALLOW omega gate_status
                  "O0 (safe) - allowed by default" None;
            mret (d, self)
        | OmegaLevel.OMEGA_1 =>
            if GateStatus.in_pass_unknown gate_status then
              d ← new_PolicyDecision Decision.ALLOW omega gate_status
                    "O1 (medium risk) - allowed with audit" None;
              mret (d, self)
            else
              d ← new_PolicyDecision Decision.DENY omega gate_status
                    ("O1 blocked: gate failed ("
                       +:+ GateStatus.name gate_status +:+ ")") None;
              mret (d, self)
        | OmegaLevel.OMEGA_2 =>
            match _omega2_approvals self !! ToolCall.tool_id tool_call with
            | Some expiry =>
                now ← time_time;
                if PrimFloat.ltb now expiry then
                  d ← new_PolicyDecision Decision.ALLOW omega gate_status
                        "O2 - explicitly approved (time-bounded)" None;
                  mret (d, self)
                else
                  evaluate_omega2_grants
                    (set_omega2_approvals
                       (delete (ToolCall.tool_id tool_call)
                          (_omega2_approvals self)) self)
                    tool_call omega gate_status
            | None => evaluate_omega2_grants self tool_call omega gate_status
            end
        | OmegaLevel.UNKNOWN =>
            d ← new_PolicyDecision Decision.DENY omega gate_status
                  "Unknown O level - denied for safety" None;
            mret (d, self)
        end
  end.

Definition grant_omega2_approval (self : t) (tool_id : string)
    (duration_seconds : float) : Py t :=
  now ← time_time;
  mret (set_omega2_approvals
          (<[tool_id := PrimFloat.add now duration_seconds]>
             (_omega2_approvals self)) self).

Definition revoke_omega2_approval (self : t) (tool_id : string) : t :=
  set_omega2_approvals (delete tool_id (_omega2_approvals self)) self.

Definition block_tool (self : t) (tool_id : string) : t :=
  set_blocked_tools (_blocked_tools self ∪ {[tool_id]}) self.

Definition unblock_tool (self : t) (tool_id : string) : t :=
  set_blocked_tools (_blocked_tools self ∖ {[tool_id]}) self.

Definition add_network_domain (self : t) (domain : string) : t :=
  set_allowed_network_domains (_allowed_network_domains self ∪ {[domain]}) self.

Definition check_network_domain (self : t) (domain : string) : bool :=
  if bool_decide (_allowed_network_domains self = ∅) then true
  else bool_decide (domain ∈ _allowed_network_domains self).
End PolicyEngine.

(* ===================================================================== *)
(** ** fitsec/gate.py                                                     *)
(* ===================================================================== *)

Module MonitorabilityGate.
Record t := mk {
  fpr_target : float;
  coverage_target : float;
  calibration_threshold : float;
  lead_time_cv_max : float;
  _metrics : option GateMetrics.t
}.

Definition init : t := mk 0.05 0.80 0.70 0.50 None.

Definition update_metrics (self : t) (metrics : GateMetrics.t) : t :=
  mk (fpr_target self) (coverage_target self) (calibration_threshold self)
     (lead_time_cv_max self) (Some metrics).

(** [x is not None and test x] *)
Definition present_and (x : option float) (test : float -> bool) : bool :=
  match x with Some v => test v | None => false end.

Definition check (self : t) (metrics : option GateMetrics.t) : GateStatus.t :=
  match (match metrics with Some m => Some m | None => _metrics self end) with
  | None => GateStatus.UNKNOWN
  | Some m =>
      if present_and (GateMetrics.fpr m)
           (fun fpr => PrimFloat.ltb (GateMetrics.fpr_target m) fpr)
      then GateStatus.FAIL_FPR
      else if present_and (GateMetrics.coverage_at_fpr m)
           (fun c => PrimFloat.ltb c (GateMetrics.coverage_target m))
      then GateStatus.FAIL_COVERAGE
      else if present_and (GateMetrics.calibration_score m)
           (fun c => PrimFloat.ltb c (GateMetrics.calibration_threshold m))
      then GateStatus.FAIL_CALIBRATION
      else
        match GateMetrics.lead_time_mean m, GateMetrics.lead_time_std m with
        | Some mean, Some std =>
            if PrimFloat.ltb 0 mean
               && PrimFloat.ltb (GateMetrics.lead_time_cv_max m)
                    (PrimFloat.div std mean)
            then GateStatus.FAIL_LEAD_TIME
            else GateStatus.PASS
        | _, _ => GateStatus.PASS
        end
  end.

Definition get_metrics (self : t) : option GateMetrics.t := _metrics self.

Definition is_operational (self : t) (metrics : option GateMetrics.t) : bool :=
  GateStatus.in_pass_unknown (check self metrics).

Definition opt_3f (w : World.t) (x : option float) : string :=
  match x with Some v => World.format_3f w v | None => "N/A" end.

Definition get_failure_reason (w : World.t) (self : t)
    (metrics : option GateMetrics.t) : option string :=
  let status := check self metrics in
  match status with
  | GateStatus.PASS => None
  | GateStatus.UNKNOWN => None
  | _ =>
      match _metrics self with
      | None =>
          Some ("Gate failed: " +:+ GateStatus.name status +:+ " (no metrics)")
      | Some m =>
          let fpr_str := opt_3f w (GateMetrics.fpr m) in
          let cov_str := opt_3f w (GateMetrics.coverage_at_fpr m) in
          let cal_str := opt_3f w (GateMetrics.calibration_score m) in
          match status with
          | GateStatus.FAIL_FPR =>
              Some ("FPR (" +:+ fpr_str +:+ ") exceeds target ("
                      +:+ World.str_float w (fpr_target self) +:+ ")")
          | GateStatus.FAIL_COVERAGE =>
              Some ("Coverage (" +:+ cov_str +:+ ") below target ("
                      +:+ World.str_float w (coverage_target self) +:+ ")")
          | GateStatus.FAIL_CALIBRATION =>
              Some ("Calibration (" +:+ cal_str +:+ ") below threshold ("
                      +:+ World.str_float w (calibration_threshold self) +:+ ")")
          | GateStatus.FAIL_LEAD_TIME =>
              Some "Lead time coefficient of variation too high"
          | _ => Some ("Gate failed: " +:+ GateStatus.name status)
          end
      end
  end.
End MonitorabilityGate.

Module EmergencyGate.
Record t := mk {
  _emergency_active : bool;
  _reason : string
}.
Definition init : t := mk false "".
Definition activate (self : t) (reason : string) : t := mk true reason.
Definition deactivate (self : t) : t := mk false "".
Definition is_active (self : t) : bool := _emergency_active self.
Definition get_reason (self : t) : string := _reason self.
End EmergencyGate.

(* ===================================================================== *)
(** ** fitsec/emptiness.py                                                *)
(* ===================================================================== *)

Module ReviewPacket.
Record t := mk {
  packet_id : string;
  timestamp : float;
  blocked_calls : list ToolCall.t;
  proposed_plan : option string;
  dry_run_diffs : list (gmap string PyVal);
  context_summary : option string;
  recommendation : option string
}.
End ReviewPacket.

Module EmptinessWindow.
Record t := mk {
  _state : EmptinessState.t;
  _activated_at : option float;
  _activation_reason : string;
  _blocked_calls : list ToolCall.t;
  _review_packets : list ReviewPacket.t
}.

Definition init : t := mk EmptinessState.NORMAL None "" [] [].

Definition state (self : t) : EmptinessState.t := _state self.

Definition is_active (self : t) : bool :=
  bool_decide (_state self = EmptinessState.EMPTINESS).

Definition activate (self : t) (reason : string) : Py t :=
  match _state self with
  | EmptinessState.NORMAL =>
      now ← time_time;
      mret (mk EmptinessState.EMPTINESS (Some now) reason []
              (_review_packets self))
  | EmptinessState.EMPTINESS => mret self
  end.

Definition _generate_review_packet (self : t) : Py (ReviewPacket.t * t) :=
  id ← uuid4_str;
  now ← time_time;
  let packet :=
    ReviewPacket.mk id now (_blocked_calls self) None [] None
      (Some (pretty (length (_blocked_calls self))
               +:+ " action(s) blocked during Emptiness Window")) in
  mret (packet,
        mk (_state self) (_activated_at self) (_activation_reason self)
           (_blocked_calls self) (_review_packets self ++ [packet])%list).

Definition deactivate (self : t) (require_review : bool)
    : Py (option ReviewPacket.t * t) :=
  match _state self with
  | EmptinessState.EMPTINESS =>
      '(packet, self) ←
        (if require_review
            && match _blocked_calls self with [] => false | _ => true end
         then '(p, self') ← _generate_review_packet self; mret (Some p, self')
         else mret (None, self));
      mret (packet,
            mk EmptinessState.NORMAL None "" [] (_review_packets self))
  | EmptinessState.NORMAL => mret (None, self)
  end.

Definition check_allowed (self : t) (omega_level : OmegaLevel.t) : bool :=
  match _state self with
  | EmptinessState.NORMAL => true
  | EmptinessState.EMPTINESS =>
      bool_decide (omega_level = OmegaLevel.OMEGA_0)
  end.

Definition record_blocked_call (self : t) (tool_call : ToolCall.t) : t :=
  match _state self with
  | EmptinessState.EMPTINESS =>
      mk (_state self) (_activated_at self) (_activation_reason self)
         (_blocked_calls self ++ [tool_call])%list (_review_packets self)
  | EmptinessState.NORMAL => self
  end.

Definition get_blocked_calls (self : t) : list ToolCall.t := _blocked_calls self.

Definition get_review_packets (self : t) : list ReviewPacket.t :=
  _review_packets self.
End EmptinessWindow.

(* ===================================================================== *)
(** ** fitsec/audit.py                                                    *)
(* ===================================================================== *)

(** The values of the summary dict: a count, or the count per level name. *)
Inductive SummaryVal :=
| SCount (n : nat)
| SByOmega (d : gmap string nat).

(** [sum(1 for e in l if c(e))] *)
Definition sum_1_if {A : Type} (c : A -> bool) (l : list A) : nat :=
  length (List.filter c l).

(** [type(v).__name__] *)
Definition type_name (v : PyVal) : string :=
  match v with
  | VNone => "NoneType"
  | VBool _ => "bool"
  | VInt _ => "int"
  | VFloat _ => "float"
  | VStr _ => "str"
  | VList _ => "list"
  | VDict _ => "dict"
  end.

(** An [Optional[str]] as a value. *)
Definition opt_str (o : option string) : PyVal :=
  match o with Some s => VStr s | None => VNone end.

(** [ToolManifest.to_dict] *)
Definition ToolManifest_to_dict (m : ToolManifest.t) : PyVal :=
  VDict (list_to_map
    [ ("tool_id", VStr (ToolManifest.tool_id m));
      ("omega_level", VStr (OmegaLevel.name (ToolManifest.omega_level m)));
      ("description", VStr (ToolManifest.description m));
      ("capabilities", VList (VStr <$> ToolManifest.capabilities m));
      ("network_domains", VList (VStr <$> ToolManifest.network_domains m));
      ("fs_paths", VList (VStr <$> ToolManifest.fs_paths m));
      ("requires_approval", VBool (ToolManifest.requires_approval m));
      ("hash_sha256", opt_str (ToolManifest.hash_sha256 m)) ]).

(** [PolicyDecision.to_dict] *)
Definition PolicyDecision_to_dict (d : PolicyDecision.t) : PyVal :=
  VDict (list_to_map
    [ ("decision", VStr (Decision.name (PolicyDecision.decision d)));
      ("omega_level", VStr (OmegaLevel.name (PolicyDecision.omega_level d)));
      ("gate_status", VStr (GateStatus.name (PolicyDecision.gate_status d)));
      ("rationale", VStr (PolicyDecision.rationale d));
      ("timestamp", VFloat (PolicyDecision.timestamp d)) ]).

Module AuditLogger.
Record t := mk {
  _log_path : option string;
  _in_memory : bool;
  _entries : list AuditEntry.t
}.

Definition init (log_path : option string) (in_memory : bool) : t :=
  mk log_path in_memory [].

(** [_entry_to_dict]: the record that is written for an entry. The
    result itself is not in it, only its type's name when the result is
    truthy; the call's context and timestamp and the decision's metrics
    snapshot are not in it either. *)
Definition _entry_to_dict (w : World.t) (entry : AuditEntry.t) : PyVal :=
  VDict (list_to_map
    [ ("entry_id", VStr (AuditEntry.entry_id entry));
      ("timestamp", VFloat (AuditEntry.timestamp entry));
      ("timestamp_iso",
       VStr (World.strftime_utc w (AuditEntry.timestamp entry)));
      ("tool_call",
       VDict (list_to_map
         [ ("tool_id", VStr (ToolCall.tool_id (AuditEntry.tool_call entry)));
           ("action", VStr (ToolCall.action (AuditEntry.tool_call entry)));
           ("args", VDict (ToolCall.args (AuditEntry.tool_call entry))) ]));
      ("manifest",
       match AuditEntry.manifest entry with
       | Some m => ToolManifest_to_dict m
       | None => VNone
       end);
      ("decision", PolicyDecision_to_dict (AuditEntry.policy_decision entry));
      ("executed", VBool (AuditEntry.executed entry));
      ("result_type",
       match AuditEntry.result entry with
       | Some v => if truthy v then VStr (type_name v) else VNone
       | None => VNone
       end);
      ("error", opt_str (AuditEntry.error entry)) ]).

(** [_append_to_file]: the record is built, then [open(path, "a")] and one
    line written. Every [PyVal] serialises, so [json.dumps] returns. The
    attempt either raises an [OSError] at [open], before anything is
    written (a directory that is gone, a permission, a read-only or full
    file system), or appends the record to the file. *)
Definition _append_to_file (path : string) (entry : AuditEntry.t)
    : Py (Outcome unit) :=
  fun w =>
    let record := _entry_to_dict w entry in
    match World.write_errors w (World.write_attempts w) with
    | Some msg => (Raise (OtherException msg), World.wrote (World.files w) w)
    | None =>
        (Return tt,
         World.wrote
           (<[path := (default [] (World.files w !! path) ++ [record])%list]>
              (World.files w)) w)
    end.

(** [log]: the entry is appended to the in-memory entries first; the file
    write comes after, and when it raises the exception leaves [log] with
    the entry already in memory. *)
Definition log (self : t) (tool_call : ToolCall.t)
    (manifest : option ToolManifest.t) (policy_decision : PolicyDecision.t)
    (executed : bool) (result : option PyVal) (error : option string)
    : Py (Outcome AuditEntry.t * t) :=
  id ← uuid4_str;
  now ← time_time;
  let entry :=
    AuditEntry.mk id tool_call manifest policy_decision executed result
      error now in
  let self' :=
    mk (_log_path self) (_in_memory self) (_entries self ++ [entry])%list in
  match _log_path self with
  | Some path =>
      if negb (_in_memory self) then
        r ← _append_to_file path entry;
        match r with
        | Return _ => mret (Return entry, self')
        | Raise e => mret (Raise e, self')
        end
      else mret (Return entry, self')
  | None => mret (Return entry, self')
  end.

Definition decision_name (e : AuditEntry.t) : string :=
  Decision.name (PolicyDecision.decision (AuditEntry.policy_decision e)).

Definition omega_name (e : AuditEntry.t) : string :=
  OmegaLevel.name (PolicyDecision.omega_level (AuditEntry.policy_decision e)).

(** The loop that fills [by_omega]. *)
Definition count_by_omega (entries : list AuditEntry.t) : gmap string nat :=
  foldl (fun by_omega e =>
           <[omega_name e := default 0 (by_omega !! omega_name e) + 1]> by_omega)
        ∅ entries.

Definition get_summary (self : t) : gmap string SummaryVal :=
  let total := length (_entries self) in
  if (total =? 0)%nat then {[ "total" := SCount 0 ]}
  else
    let allowed :=
      sum_1_if (fun e => String.eqb (decision_name e) "ALLOW") (_entries self) in
    let denied :=
      sum_1_if (fun e => String.eqb (decision_name e) "DENY") (_entries self) in
    let executed := sum_1_if AuditEntry.executed (_entries self) in
    let errors :=
      sum_1_if (fun e => truthy_str (AuditEntry.error e)) (_entries self) in
    let by_omega := count_by_omega (_entries self) in
    <["total" := SCount total]>
      (<["allowed" := SCount allowed]>
         (<["denied" := SCount denied]>
            (<["executed" := SCount executed]>
               (<["errors" := SCount errors]>
                  (<["by_omega_level" := SByOmega by_omega]> ∅))))).

Definition clear (self : t) : t := mk (_log_path self) (_in_memory self) [].

(** [get_entries(limit, tool_id, decision_filter)]. Each filter applies
    when its argument is truthy; [entries[-limit:]] keeps the last [limit]
    entries for a positive [limit] and drops the first [-limit] for a
    negative one. *)
Definition get_entries (self : t) (limit : option Z)
    (tool_id decision_filter : option string) : list AuditEntry.t :=
  let entries := _entries self in
  let entries :=
    if truthy_str tool_id then
      List.filter
        (fun e => String.eqb (ToolCall.tool_id (AuditEntry.tool_call e))
                    (default "" tool_id)) entries
    else entries in
  let entries :=
    if truthy_str decision_filter then
      List.filter
        (fun e => String.eqb (decision_name e) (default "" decision_filter))
        entries
    else entries in
  match limit with
  | Some n =>
      if (n =? 0)%Z then entries
      else if (0 <? n)%Z then drop (length entries - Z.to_nat n) entries
      else drop (Z.to_nat (- n)) entries
  | None => entries
  end.
End AuditLogger.

(* ===================================================================== *)
(** ** fitsec/runtime.py                                                  *)
(* ===================================================================== *)

(** An executor callback, called as [executor(action, args)]: it returns
    a value or raises (an [Exception] or another [BaseException]), and acts
    on the world only (it holds no reference to the runtime's own
    objects). *)
Definition Executor : Type := string -> gmap string PyVal -> Py (Outcome PyVal).

Module ToolRegistry.
Record t := mk {
  _tools : gmap string ToolManifest.t;
  _executors : gmap string Executor
}.

Definition init : t := mk ∅ ∅.

Definition register (self : t) (manifest : ToolManifest.t)
    (executor : option Executor) : t :=
  mk (<[ToolManifest.tool_id manifest := manifest]> (_tools self))
     (match executor with
      | Some ex => <[ToolManifest.tool_id manifest := ex]> (_executors self)
      | None => _executors self
      end).

Definition get_manifest (self : t) (tool_id : string) : option ToolManifest.t :=
  _tools self !! tool_id.

Definition get_executor (self : t) (tool_id : string) : option Executor :=
  _executors self !! tool_id.

Definition list_tools (self : t) : gmap string ToolManifest.t := _tools self.
End ToolRegistry.

Module FitSecRuntime.
Record t := mk {
  strict_mode : bool;
  registry : ToolRegistry.t;
  policy : PolicyEngine.t;
  gate : MonitorabilityGate.t;
  emergency_gate : EmergencyGate.t;
  emptiness : EmptinessWindow.t;
  audit : AuditLogger.t
}.

(** [FitSecRuntime(policy_path=None, audit_path=..., strict_mode=...)] *)
Definition init (audit_path : option string) (strict_mode : bool) : t :=
  mk strict_mode ToolRegistry.init (PolicyEngine.init true)
     MonitorabilityGate.init EmergencyGate.init EmptinessWindow.init
     (AuditLogger.init audit_path
        (match audit_path with None => true | Some _ => false end)).

Definition set_registry (r : ToolRegistry.t) (self : t) : t :=
  mk (strict_mode self) r (policy self) (gate self) (emergency_gate self)
     (emptiness self) (audit self).
Definition set_policy (p : PolicyEngine.t) (self : t) : t :=
  mk (strict_mode self) (registry self) p (gate self) (emergency_gate self)
     (emptiness self) (audit self).
Definition set_gate (g : MonitorabilityGate.t) (self : t) : t :=
  mk (strict_mode self) (registry self) (policy self) g (emergency_gate self)
     (emptiness self) (audit self).
Definition set_emergency_gate (g : EmergencyGate.t) (self : t) : t :=
  mk (strict_mode self) (registry self) (policy self) (gate self) g
     (emptiness self) (audit self).
Definition set_emptiness (e : EmptinessWindow.t) (self : t) : t :=
  mk (strict_mode self) (registry self) (policy self) (gate self)
     (emergency_gate self) e (audit self).
Definition set_audit (a : AuditLogger.t) (self : t) : t :=
  mk (strict_mode self) (registry self) (policy self) (gate self)
     (emergency_gate self) (emptiness self) a.

Definition register_tool (self : t) (manifest : ToolManifest.t)
    (executor : option Executor) : t :=
  set_registry (ToolRegistry.register (registry self) manifest executor) self.

(** [self.audit.log(...)] followed by the [return] or [raise] in [out]:
    when [log] raises, its exception leaves instead, and [out] is never
    reached. *)
Definition log_then (self : t) (tool_call : ToolCall.t)
    (manifest : option ToolManifest.t) (decision : PolicyDecision.t)
    (executed : bool) (result : option PyVal) (error : option string)
    (out : Outcome PyVal) : Py (Outcome PyVal * t) :=
  '(logged, audit') ← AuditLogger.log (audit self) tool_call manifest decision
                         executed result error;
  match logged with
  | Return _ => mret (out, set_audit audit' self)
  | Raise e => mret (Raise e, set_audit audit' self)
  end.

(** The body of the [try] of [execute]: the executor runs, its result is
    logged and returned. *)
Definition execute_try (self : t) (tool_call : ToolCall.t)
    (manifest : ToolManifest.t) (decision : PolicyDecision.t)
    (executor : Executor) : Py (Outcome PyVal * t) :=
  r ← executor (ToolCall.action tool_call) (ToolCall.args tool_call);
  match r with
  | Return result =>
      log_then self tool_call (Some manifest) decision true (Some result)
        None (Return result)
  | Raise e => mret (Raise e, self)
  end.

(** [try: ... except Exception as e: self.audit.log(..., error=str(e));
    raise]: an [Exception] that leaves the body, from the executor or from
    the logging of its result, is logged and raised again; any other
    [BaseException] passes through. *)
Definition execute_run (self : t) (tool_call : ToolCall.t)
    (manifest : ToolManifest.t) (decision : PolicyDecision.t)
    (executor : Executor) : Py (Outcome PyVal * t) :=
  '(out, self) ← execute_try self tool_call manifest decision executor;
  match out with
  | Return result => mret (Return result, self)
  | Raise e =>
      if is_Exception e then
        log_then self tool_call (Some manifest) decision true None
          (Some (str_exc e)) (Raise e)
      else mret (Raise e, self)
  end.

(** [execute], steps 5 to 7: policy evaluation, the decision, the executor. *)
Definition execute_policy (self : t) (tool_call : ToolCall.t)
    (manifest : ToolManifest.t) (gate_status : GateStatus.t) (dry_run : bool)
    : Py (Outcome PyVal * t) :=
  '(decision, policy') ←
    PolicyEngine.evaluate (policy self) tool_call (Some manifest) gate_status;
  let self := set_policy policy' self in
  match PolicyDecision.decision decision with
  | Decision.DENY =>
      log_then self tool_call (Some manifest) decision false None
        (Some "PolicyDeniedError")
        (Raise (PolicyDeniedError (PolicyDecision.rationale decision)))
  | Decision.REVIEW =>
      let self :=
        set_emptiness
          (EmptinessWindow.record_blocked_call (emptiness self) tool_call)
          self in
      log_then self tool_call (Some manifest) decision false None
        (Some "RequiresReview")
        (Raise (PolicyDeniedError
                  ("Requires human review: "
                     +:+ PolicyDecision.rationale decision)))
  | Decision.ALLOW =>
      if dry_run then
        log_then self tool_call (Some manifest) decision false
          (Some (VStr "[DRY RUN]")) None
          (Return (VDict (<["dry_run" := VBool true]>
                            (<["would_execute" := VBool true]> ∅))))
      else
        match ToolRegistry.get_executor (registry self)
                (ToolCall.tool_id tool_call) with
        | None =>
            log_then self tool_call (Some manifest) decision false None
              (Some "NoExecutor")
              (Raise (FitSecError
                        ("No executor registered for '"
                           +:+ ToolCall.tool_id tool_call +:+ "'")))
        | Some executor =>
            execute_run self tool_call manifest decision executor
        end
  end.

Definition execute (self : t) (tool_call : ToolCall.t) (dry_run : bool)
    : Py (Outcome PyVal * t) :=
  match ToolRegistry.get_manifest (registry self) (ToolCall.tool_id tool_call) with
  | None =>
      decision ← new_PolicyDecision Decision.DENY OmegaLevel.UNKNOWN
                   GateStatus.UNKNOWN "Tool not registered" None;
      log_then self tool_call None decision false None
        (Some "ToolNotRegisteredError")
        (Raise (ToolNotRegisteredError
                  ("Tool '" +:+ ToolCall.tool_id tool_call
                     +:+ "' not registered")))
  | Some manifest =>
      let omega := ToolManifest.omega_level manifest in
      if negb (EmptinessWindow.check_allowed (emptiness self) omega) then
        let self :=
          set_emptiness
            (EmptinessWindow.record_blocked_call (emptiness self) tool_call)
            self in
        decision ← new_PolicyDecision Decision.DENY omega GateStatus.UNKNOWN
                     "Blocked by Emptiness Window" None;
        log_then self tool_call (Some manifest) decision false None
          (Some "EmptinessActiveError")
          (Raise (EmptinessActiveError
                    ("Action blocked: Emptiness Window active (O"
                       +:+ pretty (OmegaLevel.value omega) +:+ ")")))
      else if EmergencyGate.is_active (emergency_gate self)
              && negb (bool_decide (omega = OmegaLevel.OMEGA_0)) then
        decision ← new_PolicyDecision Decision.DENY omega GateStatus.UNKNOWN
                     ("Emergency gate active: "
                        +:+ EmergencyGate.get_reason (emergency_gate self))
                     None;
        log_then self tool_call (Some manifest) decision false None
          (Some "EmergencyGateActive")
          (Raise (GateFailedError "Emergency gate is active"))
      else
        let gate_status :=
          match omega with
          | OmegaLevel.OMEGA_1 | OmegaLevel.OMEGA_2 =>
              MonitorabilityGate.check (gate self) None
          | _ => GateStatus.PASS
          end in
        if match omega with
           | OmegaLevel.OMEGA_1 | OmegaLevel.OMEGA_2 =>
               negb (GateStatus.in_pass_unknown gate_status)
               && strict_mode self
           | _ => false
           end
        then
          decision ← new_PolicyDecision Decision.DENY omega gate_status
                       ("Monitorability gate failed: "
                          +:+ GateStatus.name gate_status)
                       (MonitorabilityGate.get_metrics (gate self));
          w ← the_world;
          log_then self tool_call (Some manifest) decision false None
            (Some "GateFailedError")
            (Raise (GateFailedError
                      (str_or
                         (MonitorabilityGate.get_failure_reason w
                            (gate self) None)
                         (GateStatus.name gate_status))))
        else execute_policy self tool_call manifest gate_status dry_run
  end.

Definition enter_emptiness (self : t) (reason : string) : Py t :=
  e ← EmptinessWindow.activate (emptiness self) reason;
  mret (set_emptiness e self).

(** [exit_emptiness(self) -> None]: the body is the statement
    [self.emptiness.deactivate()], with the default [require_review=True];
    there is no [return], so the call evaluates to [None] whatever
    [deactivate] returned. *)
Definition exit_emptiness (self : t) : Py (option ReviewPacket.t * t) :=
  '(_, e) ← EmptinessWindow.deactivate (emptiness self) true;
  mret (None, set_emptiness e self).

Definition emergency_stop (self : t) (reason : string) : t :=
  set_emergency_gate (EmergencyGate.activate (emergency_gate self) reason) self.

Definition emergency_clear (self : t) : t :=
  set_emergency_gate (EmergencyGate.deactivate (emergency_gate self)) self.
End FitSecRuntime.

(* ===================================================================== *)
(** ** agent/tools/secure_registry.py                                     *)
(* ===================================================================== *)

(** [nanobot.agent.tools.base.Tool], as far as the facade reads it: a name,
    a description and [execute], called with the parameters as keywords. *)
Module Tool.
Record t := mk {
  name : string;
  description : string;
  execute : gmap string PyVal -> Py (Outcome PyVal)
}.
End Tool.

(** [nanobot.agent.tools.registry.ToolRegistry], the registry of native
    tools. Its module is not among the sources; the facade only calls its
    [register], [unregister] and [execute]. The first two keep a dict of
    tools by name, as [MockToolRegistry] of the integration test does; what
    [execute] does with the tools is the parameter [dispatch]. Every call
    of [execute] is entered in [World.native_calls]. *)
Module NativeToolRegistry.
Record t := mk {
  _tools : gmap string Tool.t;
  dispatch : gmap string Tool.t -> string -> gmap string PyVal
             -> Py (Outcome PyVal)
}.

Definition register (self : t) (tool : Tool.t) : t :=
  mk (<[Tool.name tool := tool]> (_tools self)) (dispatch self).

Definition unregister (self : t) (name : string) : t :=
  mk (delete name (_tools self)) (dispatch self).

Definition execute (self : t) (name : string) (params : gmap string PyVal)
    : Py (Outcome PyVal) :=
  fun w =>
    dispatch self (_tools self) name params
      (World.set_native_calls (World.native_calls w ++ [(name, params)])%list w).

(** [MockToolRegistry.execute] of the integration test. *)
Definition mock_dispatch (tools : gmap string Tool.t) (name : string)
    (params : gmap string PyVal) : Py (Outcome PyVal) :=
  match tools !! name with
  | None => mret (Return (VStr ("Error: Tool '" +:+ name +:+ "' not found")))
  | Some tool => Tool.execute tool params
  end.
End NativeToolRegistry.

Definition DEFAULT_OMEGA_MAPPINGS : gmap string OmegaLevel.t :=
  list_to_map
    [ ("read_file", OmegaLevel.OMEGA_0); ("list_dir", OmegaLevel.OMEGA_0);
      ("web_search", OmegaLevel.OMEGA_0); ("web_fetch", OmegaLevel.OMEGA_0);
      ("message", OmegaLevel.OMEGA_0);
      ("write_file", OmegaLevel.OMEGA_1); ("edit_file", OmegaLevel.OMEGA_1);
      ("exec", OmegaLevel.OMEGA_2); ("spawn", OmegaLevel.OMEGA_2);
      ("cron", OmegaLevel.OMEGA_2) ].

Module SecureToolRegistry.
Record t := mk {
  _registry : NativeToolRegistry.t;
  _runtime : FitSecRuntime.t;
  _omega_mappings : gmap string OmegaLevel.t;
  _workspace : option string;
  _tool_executors : gmap string (gmap string PyVal -> Py (Outcome PyVal))
}.

(** [SecureToolRegistry(workspace, strict_mode, omega_mappings, audit_path)],
    around the empty native registry [native]. *)
Definition init (native : NativeToolRegistry.t) (workspace : option string)
    (strict_mode : bool) (omega_mappings : option (gmap string OmegaLevel.t))
    (audit_path : option string) : t :=
  mk native (FitSecRuntime.init audit_path strict_mode)
     (default ∅ omega_mappings ∪ DEFAULT_OMEGA_MAPPINGS) workspace ∅.

Definition set_runtime (r : FitSecRuntime.t) (self : t) : t :=
  mk (_registry self) r (_omega_mappings self) (_workspace self)
     (_tool_executors self).

Definition register (self : t) (tool : Tool.t)
    (omega_level : option OmegaLevel.t) : t :=
  let level :=
    match omega_level with
    | Some l => l
    | None => default OmegaLevel.OMEGA_1 (_omega_mappings self !! Tool.name tool)
    end in
  let manifest :=
    ToolManifest.mk (Tool.name tool) level (Tool.description tool) [] [] []
      (bool_decide (level = OmegaLevel.OMEGA_2)) None in
  let stub : Executor :=
    fun action args =>
      mret (Return (VStr ("[ASYNC:" +:+ Tool.name tool +:+ "]"))) in
  mk (NativeToolRegistry.register (_registry self) tool)
     (FitSecRuntime.register_tool (_runtime self) manifest (Some stub))
     (_omega_mappings self) (_workspace self)
     (<[Tool.name tool := Tool.execute tool]> (_tool_executors self)).

Definition unregister (self : t) (name : string) : t :=
  mk (NativeToolRegistry.unregister (_registry self) name) (_runtime self)
     (_omega_mappings self) (_workspace self)
     (delete name (_tool_executors self)).

(** The body of the [try] of [execute]: the native call, the audit of its
    result, the return. *)
Definition execute_try (self : t) (call : ToolCall.t)
    (manifest : option ToolManifest.t) (decision : PolicyDecision.t)
    (name : string) (params : gmap string PyVal) : Py (Outcome PyVal * t) :=
  r ← NativeToolRegistry.execute (_registry self) name params;
  match r with
  | Return result =>
      '(o, rt) ← FitSecRuntime.log_then (_runtime self) call manifest decision
                   true (Some result) None (Return result);
      mret (o, set_runtime rt self)
  | Raise e => mret (Raise e, self)
  end.

(** [execute], from the [try] on. The first [except] clause raises the
    three FIT-Sec exceptions again unaudited; the second audits any other
    [Exception] that leaves the body, from the native call or from the
    audit of its result, and raises it again; any other [BaseException]
    passes through. *)
Definition execute_native (self : t) (call : ToolCall.t)
    (manifest : option ToolManifest.t) (decision : PolicyDecision.t)
    (name : string) (params : gmap string PyVal) : Py (Outcome PyVal * t) :=
  '(out, self) ← execute_try self call manifest decision name params;
  match out with
  | Return result => mret (Return result, self)
  | Raise (PolicyDeniedError _ as e)
  | Raise (EmptinessActiveError _ as e)
  | Raise (GateFailedError _ as e) => mret (Raise e, self)
  | Raise e =>
      if is_Exception e then
        '(o, rt) ← FitSecRuntime.log_then (_runtime self) call manifest
                     decision true None (Some (str_exc e)) (Raise e);
        mret (o, set_runtime rt self)
      else mret (Raise e, self)
  end.

(** [execute], from "Evaluate policy" on. *)
Definition execute_policy (self : t) (call : ToolCall.t)
    (manifest : option ToolManifest.t) (gate_status : GateStatus.t)
    (name : string) (params : gmap string PyVal) : Py (Outcome PyVal * t) :=
  '(decision, policy') ←
    PolicyEngine.evaluate (FitSecRuntime.policy (_runtime self)) call manifest
      gate_status;
  let self :=
    set_runtime (FitSecRuntime.set_policy policy' (_runtime self)) self in
  match PolicyDecision.decision decision with
  | Decision.DENY =>
      mret (Raise (PolicyDeniedError
                     (str_or (Some (PolicyDecision.rationale decision))
                        ("Policy denied: " +:+ name))), self)
  | _ => execute_native self call manifest decision name params
  end.

(** [execute], from "Check Monitorability Gate for O2 tools" on. *)
Definition execute_gate (self : t) (call : ToolCall.t)
    (manifest : option ToolManifest.t) (name : string)
    (params : gmap string PyVal) : Py (Outcome PyVal * t) :=
  match manifest with
  | Some m =>
      if bool_decide (ToolManifest.omega_level m = OmegaLevel.OMEGA_2) then
        let gate_status :=
          MonitorabilityGate.check (FitSecRuntime.gate (_runtime self)) None in
        if negb (GateStatus.in_pass_unknown gate_status) then
          w ← the_world;
          mret (Raise (GateFailedError
                         ("Monitorability Gate failed: "
                            +:+ default "None"
                                  (MonitorabilityGate.get_failure_reason w
                                     (FitSecRuntime.gate (_runtime self)) None))),
                self)
        else execute_policy self call manifest gate_status name params
      else execute_policy self call manifest GateStatus.PASS name params
  | None => execute_policy self call manifest GateStatus.PASS name params
  end.

Definition execute (self : t) (name : string) (params : gmap string PyVal)
    : Py (Outcome PyVal * t) :=
  call ← new_ToolCall name "execute" params;
  let manifest :=
    ToolRegistry.get_manifest (FitSecRuntime.registry (_runtime self)) name in
  let emptiness := FitSecRuntime.emptiness (_runtime self) in
  match manifest with
  | Some m =>
      if EmptinessWindow.is_active emptiness
         && negb (EmptinessWindow.check_allowed emptiness
                    (ToolManifest.omega_level m))
      then
        mret (Raise (EmptinessActiveError
                       ("Emptiness Window active: " +:+ name +:+ " (O"
                          +:+ pretty (OmegaLevel.value
                                        (ToolManifest.omega_level m))
                          +:+ ") blocked")),
              set_runtime
                (FitSecRuntime.set_emptiness
                   (EmptinessWindow.record_blocked_call emptiness call)
                   (_runtime self)) self)
      else execute_gate self call manifest name params
  | None => execute_gate self call manifest name params
  end.

Definition runtime (self : t) : FitSecRuntime.t := _runtime self.

Definition grant_approval (self : t) (tool_id : string)
    (duration_seconds : float) : Py t :=
  p ← PolicyEngine.grant_omega2_approval
        (FitSecRuntime.policy (_runtime self)) tool_id duration_seconds;
  mret (set_runtime (FitSecRuntime.set_policy p (_runtime self)) self).

Definition enter_emptiness (self : t) (reason : string) : Py t :=
  r ← FitSecRuntime.enter_emptiness (_runtime self) reason;
  mret (set_runtime r self).

(** [return self._runtime.exit_emptiness()] *)
Definition exit_emptiness (self : t) : Py (option ReviewPacket.t * t) :=
  '(p, r) ← FitSecRuntime.exit_emptiness (_runtime self);
  mret (p, set_runtime r self).

Definition emergency_stop (self : t) (reason : string) : t :=
  set_runtime (FitSecRuntime.emergency_stop (_runtime self) reason) self.
End SecureToolRegistry.

(* ===================================================================== *)
(** ** Vocabulary of the statements                                       *)
(* ===================================================================== *)

(** The entry that [log_then] writes. *)
Definition entry_at (w : World.t) (c : ToolCall.t) (m : option ToolManifest.t)
    (d : PolicyDecision.t) (ex : bool) (r : option PyVal) (err : option string)
    : AuditEntry.t :=
  AuditEntry.mk (World.uuids w (World.uuid_draws w)) c m d ex r err
    (World.clock w (World.clock_reads w)).

Definition entries_of (rt : FitSecRuntime.t) : list AuditEntry.t :=
  AuditLogger._entries (FitSecRuntime.audit rt).

(** An entry for the call [call], marked executed only under an Allow
    decision. *)
Definition entry_for (call : ToolCall.t) (e : AuditEntry.t) : Prop :=
  AuditEntry.tool_call e = call
  /\ (AuditEntry.executed e = true ->
      PolicyDecision.decision (AuditEntry.policy_decision e) = Decision.ALLOW).

(** What one [execute] leaves in the audit log: the new entries [new], each
    for the submitted call. *)
Definition entries_logged (rt rt' : FitSecRuntime.t) (call : ToolCall.t)
    (new : list AuditEntry.t) : Prop :=
  entries_of rt' = (entries_of rt ++ new)%list /\ Forall (entry_for call) new.

(** Two runtimes that differ in their audit entries at most. *)
Definition same_but_entries (rt rt' : FitSecRuntime.t) : Prop :=
  rt'
  = FitSecRuntime.set_audit
      (AuditLogger.mk (AuditLogger._log_path (FitSecRuntime.audit rt))
         (AuditLogger._in_memory (FitSecRuntime.audit rt)) (entries_of rt'))
      rt.

(** The entries that the [try] of [execute] writes. *)
Definition run_entry (call : ToolCall.t) (m : ToolManifest.t)
    (d : PolicyDecision.t) (e : AuditEntry.t) : Prop :=
  AuditEntry.tool_call e = call
  /\ AuditEntry.manifest e = Some m
  /\ AuditEntry.policy_decision e = d
  /\ AuditEntry.executed e = true.

(** Whether the logger mirrors its entries to a file. *)
Definition writes_to_file (a : AuditLogger.t) : bool :=
  match AuditLogger._log_path a with
  | Some _ => negb (AuditLogger._in_memory a)
  | None => false
  end.

(** Whether a [log] in the world [w] gets its entry through: it writes to
    no file, or the next write to a file succeeds. *)
Definition sink_write_succeeds (a : AuditLogger.t) (w : World.t) : bool :=
  negb (writes_to_file a)
  || match World.write_errors w (World.write_attempts w) with
     | None => true
     | Some _ => false
     end.

(** An outcome that [except Exception] lets through: a raised
    [BaseException] that is no [Exception]. *)
Definition escapes_except (o : Outcome PyVal) : bool :=
  match o with
  | Raise e => negb (is_Exception e)
  | Return _ => false
  end.

(** The executor registered for a call, if any, raises nothing but
    [Exception]s. *)
Definition raises_only_exceptions (rt : FitSecRuntime.t) (call : ToolCall.t)
    : Prop :=
  forall ex w,
    ToolRegistry.get_executor (FitSecRuntime.registry rt)
      (ToolCall.tool_id call) = Some ex ->
    escapes_except
      (fst (ex (ToolCall.action call) (ToolCall.args call) w)) = false.

(** The audit log behind a facade. *)
Definition facade_entries (s : SecureToolRegistry.t) : list AuditEntry.t :=
  entries_of (SecureToolRegistry._runtime s).


(** Whether an entry records the level [o], resp. the decision [d]. *)
Definition at_level (o : OmegaLevel.t) (e : AuditEntry.t) : bool :=
  bool_decide
    (PolicyDecision.omega_level (AuditEntry.policy_decision e) = o).

Definition decided (d : Decision.t) (e : AuditEntry.t) : bool :=
  bool_decide (PolicyDecision.decision (AuditEntry.policy_decision e) = d).

(** The approval test of [evaluate] at clock reading [now]: the tool has
    an approval and [now] lies before its expiry. *)
Definition approval_live (pe : PolicyEngine.t) (call : ToolCall.t)
    (now : float) : bool :=
  match PolicyEngine._omega2_approvals pe !! ToolCall.tool_id call with
  | Some expiry => PrimFloat.ltb now expiry
  | None => false
  end.

(** The next clock reading of a world. *)
Definition now_of (w : World.t) : float :=
  World.clock w (World.clock_reads w).

(** The metrics [check] looks at: the argument, or else the stored ones. *)
Definition effective_metrics (g : MonitorabilityGate.t)
    (metrics : option GateMetrics.t) : option GateMetrics.t :=
  match metrics with Some m => Some m | None => MonitorabilityGate._metrics g end.

(** An observation that is missing or not a number. *)
Definition absent_or_nan (x : option float) : bool :=
  match x with Some v => PrimFloat.is_nan v | None => true end.

(** The shape of an emptiness controller at rest: in the normal state the
    buffer is empty and no activation is recorded. *)
Definition at_rest_when_normal (e : EmptinessWindow.t) : Prop :=
  EmptinessWindow._state e = EmptinessState.NORMAL ->
  EmptinessWindow._blocked_calls e = []
  /\ EmptinessWindow._activated_at e = None
  /\ EmptinessWindow._activation_reason e = "".

(** A driver that submits the calls one after the other, whatever each
    one's outcome; it returns the outcomes in order. *)
Fixpoint run_calls (rt : FitSecRuntime.t) (calls : list ToolCall.t)
    (w : World.t) : list (Outcome PyVal) * FitSecRuntime.t * World.t :=
  match calls with
  | [] => ([], rt, w)
  | c :: calls' =>
      let '(out, rt1, w1) := FitSecRuntime.execute rt c false w in
      let '(outs, rt2, w2) := run_calls rt1 calls' w1 in
      (out :: outs, rt2, w2)
  end.

(** An audit log in which only allowed calls are marked executed. *)
Definition executed_only_if_allowed (l : list AuditEntry.t) : Prop :=
  Forall (fun e => AuditEntry.executed e = true ->
                   PolicyDecision.decision (AuditEntry.policy_decision e)
                   = Decision.ALLOW) l.

(** The runtime with its executor table replaced. *)
Definition with_executors (ex : gmap string Executor) (rt : FitSecRuntime.t)
    : FitSecRuntime.t :=
  FitSecRuntime.set_registry
    (ToolRegistry.mk (ToolRegistry._tools (FitSecRuntime.registry rt)) ex) rt.

(* ===================================================================== *)
(** ** Concrete inputs                                                    *)
(* ===================================================================== *)

(** A concrete world for the examples: the clock reads [100.0], [101.0],
    ... and the identifiers are ["0"], ["1"], ... *)
Definition sample_clock (n : nat) : float :=
  PrimFloat.add 100 (PrimFloat.of_uint63 (Uint63.of_Z (Z.of_nat n))).

(** No file exists yet and every write succeeds. *)
Definition sample_world : World.t :=
  World.mk sample_clock 0 (fun n => pretty n) 0
    (fun _ => "0.200") (fun _ => "0.05") (fun _ => "1970-01-01T00:01:40Z")
    ∅ (fun _ => None) 0 [].

Definition late_world : World.t :=
  World.mk sample_clock 100 (fun n => pretty n) 7
    (fun _ => "0.200") (fun _ => "0.05") (fun _ => "1970-01-01T00:03:20Z")
    ∅ (fun _ => None) 0 [].

(** The sample world on a full disk: every write raises
    [OSError(28, "No space left on device")]. *)
Definition full_disk_world : World.t :=
  World.mk sample_clock 0 (fun n => pretty n) 0
    (fun _ => "0.200") (fun _ => "0.05") (fun _ => "1970-01-01T00:01:40Z")
    ∅ (fun _ => Some "[Errno 28] No space left on device") 0 [].

Definition exec_manifest : ToolManifest.t :=
  ToolManifest.mk "exec" OmegaLevel.OMEGA_2 "Execute commands" [] [] [] true None.

Definition exec_call : ToolCall.t := ToolCall.mk "exec" "execute" ∅ ∅ 100.

(** A default-deny engine on which ["exec"] was approved for 60 seconds at
    time 100. *)
Definition approved_engine : PolicyEngine.t :=
  fst (PolicyEngine.grant_omega2_approval (PolicyEngine.init true) "exec" 60
         sample_world).

(** The same engine after [block_tool("exec")]. *)
Definition approved_blocked_engine : PolicyEngine.t :=
  PolicyEngine.block_tool approved_engine "exec".

(** An engine that holds an unexpired approval of ["exec"] and the grant
    ["*"] for it, and has ["exec"] on its blocklist. *)
Definition granted_blocked_engine : PolicyEngine.t :=
  PolicyEngine._load_policy approved_engine {[ "exec" := ["*"] ]} ["exec"] [].

Definition open_engine : PolicyEngine.t := PolicyEngine.init true.

Definition restricted_engine : PolicyEngine.t :=
  PolicyEngine.add_network_domain (PolicyEngine.init true) "example.com".

Definition echo (label : string) : Executor :=
  fun action args => mret (Return (VStr label)).

Definition faulty : Executor :=
  fun action args => mret (Raise (OtherException "disk full")).

(** An executor that is interrupted: it raises [KeyboardInterrupt()],
    whose [str] is empty. *)
Definition interrupted : Executor :=
  fun action args => mret (Raise (OtherBaseException "")).

Definition read_file_manifest : ToolManifest.t :=
  ToolManifest.mk "read_file" OmegaLevel.OMEGA_0 "Read files" [] [] [] false None.

Definition write_file_manifest : ToolManifest.t :=
  ToolManifest.mk "write_file" OmegaLevel.OMEGA_1 "Write files" [] [] [] false None.

Definition read_call : ToolCall.t :=
  ToolCall.mk "read_file" "execute" {[ "path" := VStr "/x" ]} ∅ 100.

Definition write_call : ToolCall.t :=
  ToolCall.mk "write_file" "execute" {[ "path" := VStr "/x" ]} ∅ 100.

(** A strict, in-memory runtime with [read_file] (O0), [write_file] (O1)
    and [exec] (O2). *)
Definition sample_runtime : FitSecRuntime.t :=
  FitSecRuntime.register_tool
    (FitSecRuntime.register_tool
       (FitSecRuntime.register_tool (FitSecRuntime.init None true)
          read_file_manifest (Some (echo "[sync:read_file]")))
       write_file_manifest (Some (echo "[sync:write_file]")))
    exec_manifest (Some faulty).

(** The sample runtime with the executor of [read_file] replaced by one
    that is interrupted. *)
Definition interrupted_runtime : FitSecRuntime.t :=
  FitSecRuntime.register_tool sample_runtime read_file_manifest
    (Some interrupted).

(** A strict runtime that mirrors its audit log to "audit.jsonl", with
    [read_file] (O0). *)
Definition durable_runtime : FitSecRuntime.t :=
  FitSecRuntime.register_tool (FitSecRuntime.init (Some "audit.jsonl") true)
    read_file_manifest (Some (echo "[sync:read_file]")).

(** The same after [enter_emptiness("drill")]. *)
Definition drill_runtime : FitSecRuntime.t :=
  fst (FitSecRuntime.enter_emptiness sample_runtime "drill" sample_world).

(** ... and after a [write_file] call was blocked in the window. *)
Definition drill_runtime_blocked : FitSecRuntime.t :=
  snd (fst (FitSecRuntime.execute drill_runtime write_call false late_world)).

(** The metrics of scenario S4: [fpr=0.2], [fpr_target=0.05], nothing else
    observed. *)
Definition fpr_metrics : GateMetrics.t :=
  GateMetrics.mk (Some 0.2%float) 0.05 None 0.80 None 0.7 None None 0.5.

Definition native_tool (name description : string) : Tool.t :=
  Tool.mk name description
    (fun params => mret (Return (VStr ("[" +:+ name +:+ "] executed")))).

(** A strict facade over the mock registry, with [read_file], [write_file]
    and [exec] registered at their default levels (O0, O1, O2). *)
Definition sample_registry : SecureToolRegistry.t :=
  SecureToolRegistry.register
    (SecureToolRegistry.register
       (SecureToolRegistry.register
          (SecureToolRegistry.init
             (NativeToolRegistry.mk ∅ NativeToolRegistry.mock_dispatch)
             None true None None)
          (native_tool "read_file" "Read files") None)
       (native_tool "write_file" "Write files") None)
    (native_tool "exec" "Execute commands") None.

(** The same once the gate has been given [fpr_metrics]. *)
Definition failing_gate_registry : SecureToolRegistry.t :=
  SecureToolRegistry.set_runtime
    (FitSecRuntime.set_gate
       (MonitorabilityGate.update_metrics
          (FitSecRuntime.gate (SecureToolRegistry._runtime sample_registry))
          fpr_metrics)
       (SecureToolRegistry._runtime sample_registry))
    sample_registry.

(** The audit logger of the sample runtime after its [exec] call was
    denied by default. *)
Definition denied_log : AuditLogger.t :=
  FitSecRuntime.audit
    (snd (fst (FitSecRuntime.execute sample_runtime exec_call false
                 sample_world))).

Definition ghost_call : ToolCall.t := ToolCall.mk "ghost" "execute" ∅ ∅ 100.

(** The sample runtime after [emergency_stop("incident")]. *)
Definition incident_runtime : FitSecRuntime.t :=
  FitSecRuntime.emergency_stop sample_runtime "incident".

(** The sample runtime once its gate has been given [fpr_metrics]. *)
Definition failing_gate_runtime : FitSecRuntime.t :=
  FitSecRuntime.set_gate
    (MonitorabilityGate.update_metrics (FitSecRuntime.gate sample_runtime)
       fpr_metrics)
    sample_runtime.

(** Metrics whose rate, coverage and lead-time mean are NaN. *)
Definition nan_metrics : GateMetrics.t :=
  GateMetrics.mk (Some PrimFloat.nan) 0.05 (Some PrimFloat.nan) 0.80 None 0.7
    (Some PrimFloat.nan) (Some 1%float) 0.5.

(** The sample runtime with the window open, the emergency gate active and
    a failing gate, all at once. *)
Definition locked_down_runtime : FitSecRuntime.t :=
  FitSecRuntime.emergency_stop
    (FitSecRuntime.set_gate
       (MonitorabilityGate.update_metrics (FitSecRuntime.gate drill_runtime)
          fpr_metrics)
       drill_runtime)
    "incident".

(** A non-strict runtime with [write_file] (O1) and a failing gate. *)
Definition lenient_failing_runtime : FitSecRuntime.t :=
  FitSecRuntime.set_gate
    (MonitorabilityGate.update_metrics MonitorabilityGate.init fpr_metrics)
    (FitSecRuntime.register_tool (FitSecRuntime.init None false)
       write_file_manifest (Some (echo "[sync:write_file]"))).

(** A logger that mirrors to the file "audit.jsonl". *)
Definition durable_logger : AuditLogger.t :=
  AuditLogger.init (Some "audit.jsonl") false.

Definition allow_decision : PolicyDecision.t :=
  PolicyDecision.mk Decision.ALLOW OmegaLevel.OMEGA_0 GateStatus.PASS
    "O0 (safe) - allowed by default" None 100.

(** The sample facade after [enter_emptiness("drill")]. *)
Definition drill_registry : SecureToolRegistry.t :=
  fst (SecureToolRegistry.enter_emptiness sample_registry "drill" sample_world).

(* ===================================================================== *)
(** * Properties                                                          *)
(* ===================================================================== *)

(** ** Running a computation *)

Ltac py_unfold :=
  unfold new_PolicyDecision, new_ToolCall in *;
  unfold mbind, mret, Py_bind, Py_ret, time_time, uuid4_str, the_world in *.

(** ** IEEE comparison *)

Lemma SFltb_asym (a b : spec_float) : SFltb a b = true -> SFltb b a = false.
Proof.
  unfold SFltb, SFcompare.
  destruct a as [[]|[]| |[] ma ea], b as [[]|[]| |[] mb eb];
    try discriminate; try reflexivity.
  all: rewrite (Z.compare_antisym ea eb); destruct (ea ?= eb)%Z; simpl;
    try discriminate; try reflexivity.
  all: change (Pos.compare_cont Eq ?x ?y) with (Pos.compare x y).
  all: rewrite (Pos.compare_antisym ma mb); destruct (ma ?= mb)%positive;
    simpl; try discriminate; try reflexivity.
Qed.

Lemma ltb_asym (a b : float) :
  PrimFloat.ltb a b = true -> PrimFloat.ltb b a = false.
Proof. rewrite !ltb_spec. apply SFltb_asym. Qed.

(** ** The policy engine *)

Lemma new_PolicyDecision_run d o g r m w :
  new_PolicyDecision d o g r m w
  = (PolicyDecision.mk d o g r m (World.clock w (World.clock_reads w)),
     World.tick w).
Proof. reflexivity. Qed.

(** C10. [check_network_domain] answers [true] for every domain when the
    network allowlist is empty, and otherwise answers [true] exactly for the
    members of the allowlist. *)
Theorem check_network_domain_spec (pe : PolicyEngine.t) (domain : string) :
  (PolicyEngine._allowed_network_domains pe = ∅ ->
     PolicyEngine.check_network_domain pe domain = true)
  /\ (PolicyEngine._allowed_network_domains pe <> ∅ ->
        (PolicyEngine.check_network_domain pe domain = true
         <-> domain ∈ PolicyEngine._allowed_network_domains pe)).
Proof.
  unfold PolicyEngine.check_network_domain. split; intros H.
  - rewrite bool_decide_eq_true_2; done.
  - rewrite bool_decide_eq_false_2 by done. apply bool_decide_eq_true.
Qed.

Lemma evaluate_blocked_run (pe : PolicyEngine.t) (call : ToolCall.t)
    (m : ToolManifest.t) (gs : GateStatus.t) (w : World.t) :
  ToolCall.tool_id call ∈ PolicyEngine._blocked_tools pe ->
  PolicyEngine.evaluate pe call (Some m) gs w
  = (PolicyDecision.mk Decision.DENY (ToolManifest.omega_level m) gs
       ("Tool '" +:+ ToolCall.tool_id call +:+ "' is blocked by policy")
       None (World.clock w (World.clock_reads w)),
     pe, World.tick w).
Proof.
  intros Hb. unfold PolicyEngine.evaluate.
  rewrite bool_decide_eq_true_2 by done. reflexivity.
Qed.

(** C7. A registered tool whose id is on the blocklist is denied with the
    rationale "Tool '<id>' is blocked by policy", whatever the grants and
    the approvals hold; the engine is left as it was. *)
Theorem evaluate_blocklisted_denies (pe pe' : PolicyEngine.t)
    (call : ToolCall.t) (m : ToolManifest.t) (gs : GateStatus.t)
    (w w' : World.t) (d : PolicyDecision.t) :
  ToolCall.tool_id call ∈ PolicyEngine._blocked_tools pe ->
  PolicyEngine.evaluate pe call (Some m) gs w = (d, pe', w') ->
  PolicyDecision.decision d = Decision.DENY
  /\ PolicyDecision.rationale d
     = "Tool '" +:+ ToolCall.tool_id call +:+ "' is blocked by policy"
  /\ pe' = pe.
Proof.
  intros Hb He. rewrite evaluate_blocked_run in He by done.
  injection He as <- <- _. done.
Qed.

Lemma grant_omega2_approval_run (pe : PolicyEngine.t) (tool_id : string)
    (D : float) (w : World.t) :
  PolicyEngine.grant_omega2_approval pe tool_id D w
  = (PolicyEngine.set_omega2_approvals
       (<[tool_id := PrimFloat.add (World.clock w (World.clock_reads w)) D]>
          (PolicyEngine._omega2_approvals pe)) pe,
     World.tick w).
Proof. reflexivity. Qed.

Lemma evaluate_omega2_grants_default_deny (pe : PolicyEngine.t)
    (call : ToolCall.t) (o : OmegaLevel.t) (gs : GateStatus.t) (w : World.t) :
  PolicyEngine.grant_covers pe call = false ->
  PolicyEngine.default_omega2_deny pe = true ->
  exists d, PolicyEngine.evaluate_omega2_grants pe call o gs w
            = (d, pe, World.tick w)
            /\ PolicyDecision.decision d = Decision.DENY.
Proof.
  intros Hg Hd. unfold PolicyEngine.evaluate_omega2_grants.
  rewrite Hg, Hd. py_unfold. eauto.
Qed.

(** C6 (as the code has it). An approval granted to an Omega2 tool at time
    [t0] with duration [D] expires at [t0 + D]. With no grant covering the
    called action and [default_omega2_deny] set, an evaluation whose clock
    reading lies strictly after that expiry returns Deny. When the tool is
    not on the blocklist the evaluation also removes the expired approval
    from the approvals map (and changes nothing else); when the tool is on
    the blocklist the engine is left as it was. *)
Theorem evaluate_after_expiry_denies (pe0 pe1 pe pe' : PolicyEngine.t)
    (call : ToolCall.t) (m : ToolManifest.t) (gs : GateStatus.t) (D : float)
    (w0 w1 w w' : World.t) (d : PolicyDecision.t) :
  PolicyEngine.grant_omega2_approval pe0 (ToolCall.tool_id call) D w0
    = (pe1, w1) ->
  PolicyEngine._omega2_approvals pe !! ToolCall.tool_id call
    = PolicyEngine._omega2_approvals pe1 !! ToolCall.tool_id call ->
  ToolManifest.omega_level m = OmegaLevel.OMEGA_2 ->
  PolicyEngine.grant_covers pe call = false ->
  PolicyEngine.default_omega2_deny pe = true ->
  PrimFloat.ltb (PrimFloat.add (World.clock w0 (World.clock_reads w0)) D)
    (World.clock w (World.clock_reads w)) = true ->
  PolicyEngine.evaluate pe call (Some m) gs w = (d, pe', w') ->
  PolicyDecision.decision d = Decision.DENY
  /\ (ToolCall.tool_id call ∉ PolicyEngine._blocked_tools pe ->
        pe' = PolicyEngine.set_omega2_approvals
                (delete (ToolCall.tool_id call)
                   (PolicyEngine._omega2_approvals pe)) pe
        /\ PolicyEngine._omega2_approvals pe' !! ToolCall.tool_id call = None)
  /\ (ToolCall.tool_id call ∈ PolicyEngine._blocked_tools pe -> pe' = pe).
Proof.
  intros Hgr Hsame Hm Hg Hd Hlate He.
  rewrite grant_omega2_approval_run in Hgr. injection Hgr as <- <-.
  cbn in Hsame. rewrite lookup_insert_eq in Hsame.
  destruct (decide (ToolCall.tool_id call ∈ PolicyEngine._blocked_tools pe))
    as [Hb|Hb].
  - rewrite evaluate_blocked_run in He by done.
    injection He as <- <- _. repeat split; done.
  - unfold PolicyEngine.evaluate in He.
    rewrite bool_decide_eq_false_2, Hm, Hsame in He by done.
    py_unfold. cbn in He. rewrite (ltb_asym _ _ Hlate) in He.
    edestruct (evaluate_omega2_grants_default_deny
                 (PolicyEngine.set_omega2_approvals
                    (delete (ToolCall.tool_id call)
                       (PolicyEngine._omega2_approvals pe)) pe)
                 call OmegaLevel.OMEGA_2 gs (World.tick w))
      as (d0 & E & Hdeny); [done | done |].
    rewrite E in He. injection He as <- <- _.
    repeat split; [done | | done].
    cbn. apply lookup_delete_eq.
Qed.

(** C10, on inputs: with no allowlist every domain passes; with the
    allowlist {example.com}, "example.com" passes and "evil.test" does
    not. *)
Lemma check_network_domain_witness :
  PolicyEngine.check_network_domain open_engine "evil.test" = true
  /\ (PolicyEngine.check_network_domain restricted_engine "example.com" = true
      <-> "example.com" ∈ PolicyEngine._allowed_network_domains restricted_engine)
  /\ (PolicyEngine.check_network_domain restricted_engine "evil.test" = true
      <-> "evil.test" ∈ PolicyEngine._allowed_network_domains restricted_engine)
  /\ PolicyEngine.check_network_domain restricted_engine "evil.test" = false.
Proof.
  assert (Hne : PolicyEngine._allowed_network_domains restricted_engine <> ∅).
  { intros H. apply (f_equal (fun s => bool_decide ("example.com" ∈ s))) in H.
    vm_compute in H. discriminate. }
  split; [| split; [| split]].
  - apply (proj1 (check_network_domain_spec open_engine "evil.test")).
    reflexivity.
  - apply (proj2 (check_network_domain_spec restricted_engine "example.com")).
    exact Hne.
  - apply (proj2 (check_network_domain_spec restricted_engine "evil.test")).
    exact Hne.
  - vm_compute. reflexivity.
Defined.

(** C7, on an input: the engine holds an approval of "exec" that expires
    at 160 and the grant "*" for it, the clock reads 100, and "exec" is on
    the blocklist: the evaluation denies. *)
Lemma evaluate_blocklisted_denies_witness :
  PolicyEngine._omega2_approvals granted_blocked_engine !! "exec" = Some 160%float
  /\ PolicyEngine.grant_covers granted_blocked_engine exec_call = true
  /\ exists d w',
       PolicyEngine.evaluate granted_blocked_engine exec_call
         (Some exec_manifest) GateStatus.PASS sample_world
       = (d, granted_blocked_engine, w')
       /\ PolicyDecision.decision d = Decision.DENY
       /\ PolicyDecision.rationale d = "Tool 'exec' is blocked by policy".
Proof.
  split; [vm_compute; reflexivity |].
  split; [vm_compute; reflexivity |].
  destruct (PolicyEngine.evaluate granted_blocked_engine exec_call
              (Some exec_manifest) GateStatus.PASS sample_world)
    as [[d pe'] w'] eqn:E.
  assert (Hb : ToolCall.tool_id exec_call
               ∈ PolicyEngine._blocked_tools granted_blocked_engine).
  { refine (bool_decide_unpack _ _). vm_compute. exact I. }
  destruct (evaluate_blocklisted_denies _ _ _ _ _ _ _ _ Hb E) as (H1 & H2 & ->).
  exists d, w'. split; [reflexivity |]. split; [exact H1 | exact H2].
Defined.

(** C6, the claim as stated fails: "exec" is an Omega2 tool with no grant,
    [default_omega2_deny] is set, its approval expired at 160 and the clock
    reads 200; the tool is on the blocklist, so the evaluation denies
    without reaching the approvals, and the expired approval stays in the
    map. *)
Lemma expired_approval_of_blocked_tool_stays :
  ToolManifest.omega_level exec_manifest = OmegaLevel.OMEGA_2
  /\ PolicyEngine.grant_covers approved_blocked_engine exec_call = false
  /\ PolicyEngine.default_omega2_deny approved_blocked_engine = true
  /\ PolicyEngine._omega2_approvals approved_blocked_engine !! "exec"
     = Some 160%float
  /\ World.clock late_world (World.clock_reads late_world) = 200%float
  /\ PrimFloat.ltb 160 200 = true
  /\ exists d pe' w',
       PolicyEngine.evaluate approved_blocked_engine exec_call
         (Some exec_manifest) GateStatus.PASS late_world = (d, pe', w')
       /\ PolicyDecision.decision d = Decision.DENY
       /\ PolicyEngine._omega2_approvals pe' !! "exec" = Some 160%float.
Proof.
  repeat (split; [vm_compute; reflexivity |]).
  eexists _, _, _. split; [vm_compute; reflexivity |].
  split; vm_compute; reflexivity.
Qed.

(** C6, on an input: "exec" approved at time 100 for 60 seconds, evaluated
    when the clock reads 200 and the tool is not blocked: Deny, and the
    approvals map is empty afterwards. *)
Lemma evaluate_after_expiry_denies_witness :
  exists d pe' w',
    PolicyEngine.evaluate approved_engine exec_call (Some exec_manifest)
      GateStatus.PASS late_world = (d, pe', w')
    /\ PolicyDecision.decision d = Decision.DENY
    /\ PolicyEngine._omega2_approvals pe' !! "exec" = None.
Proof.
  destruct (PolicyEngine.evaluate approved_engine exec_call
              (Some exec_manifest) GateStatus.PASS late_world)
    as [[d pe'] w'] eqn:E.
  destruct (evaluate_after_expiry_denies (PolicyEngine.init true)
              approved_engine approved_engine pe' exec_call exec_manifest
              GateStatus.PASS 60 sample_world (World.tick sample_world)
              late_world w' d)
    as (Hd & Hrm & _).
  - reflexivity.
  - reflexivity.
  - reflexivity.
  - vm_compute. reflexivity.
  - reflexivity.
  - vm_compute. reflexivity.
  - exact E.
  - exists d, pe', w'. split; [reflexivity |]. split; [exact Hd |].
    apply Hrm. intros Hin. apply (bool_decide_pack _) in Hin.
    vm_compute in Hin. exact Hin.
Defined.

(** ** The audit logger *)

(** One [log]: the entry joins the in-memory entries whether or not the
    write to the file succeeds; only an [OSError] can leave [log]. *)
Lemma log_run (a : AuditLogger.t) (c : ToolCall.t) (m : option ToolManifest.t)
    (d : PolicyDecision.t) (ex : bool) (r : option PyVal) (err : option string)
    (w : World.t) :
  exists lr w',
    AuditLogger.log a c m d ex r err w
    = (lr,
       AuditLogger.mk (AuditLogger._log_path a) (AuditLogger._in_memory a)
         (AuditLogger._entries a ++ [entry_at w c m d ex r err])%list,
       w')
    /\ (lr = Return (entry_at w c m d ex r err)
        \/ exists msg, lr = Raise (OtherException msg))
    /\ (sink_write_succeeds a w = true -> lr = Return (entry_at w c m d ex r err))
    /\ World.native_calls w' = World.native_calls w.
Proof.
  unfold AuditLogger.log, AuditLogger._append_to_file, sink_write_succeeds,
    writes_to_file, entry_at.
  py_unfold.
  destruct (AuditLogger._log_path a) as [path|];
    [destruct (AuditLogger._in_memory a) |]; cbn.
  1, 3: eexists _, _; split; [reflexivity |]; eauto.
  destruct (World.write_errors w (World.write_attempts w)) as [msg|];
    eexists _, _; (split; [reflexivity |]);
    (split; [eauto |]); (split; [| reflexivity]); [discriminate | reflexivity].
Qed.

Lemma log_then_run (rt : FitSecRuntime.t) (c : ToolCall.t)
    (m : option ToolManifest.t) (d : PolicyDecision.t) (ex : bool)
    (r : option PyVal) (err : option string) (out : Outcome PyVal)
    (w : World.t) :
  exists out' rt' w',
    FitSecRuntime.log_then rt c m d ex r err out w = (out', rt', w')
    /\ (out' = out \/ exists msg, out' = Raise (OtherException msg))
    /\ (sink_write_succeeds (FitSecRuntime.audit rt) w = true -> out' = out)
    /\ entries_of rt' = (entries_of rt ++ [entry_at w c m d ex r err])%list
    /\ same_but_entries rt rt'
    /\ World.native_calls w' = World.native_calls w.
Proof.
  unfold FitSecRuntime.log_then, mbind, Py_bind.
  destruct (log_run (FitSecRuntime.audit rt) c m d ex r err w)
    as (lr & w' & E & Hlr & Hok & Hn).
  rewrite E. unfold mret, Py_ret.
  destruct lr as [e0|e0].
  - eexists _, _, _. split; [reflexivity |]. split; [eauto |].
    split; [reflexivity |]. split; [reflexivity |].
    split; [reflexivity | exact Hn].
  - eexists _, _, _. split; [reflexivity |]. split.
    { right. destruct Hlr as [Hlr | [msg Hlr]]; [discriminate |].
      injection Hlr as ->. eauto. }
    split; [intros Hs; specialize (Hok Hs); discriminate |].
    split; [reflexivity |]. split; [reflexivity | exact Hn].
Qed.

(** What stays of a runtime when its audit entries change. *)
Lemma same_but_entries_fields (rt rt' : FitSecRuntime.t) :
  same_but_entries rt rt' ->
  FitSecRuntime.registry rt' = FitSecRuntime.registry rt
  /\ FitSecRuntime.gate rt' = FitSecRuntime.gate rt
  /\ FitSecRuntime.emergency_gate rt' = FitSecRuntime.emergency_gate rt
  /\ FitSecRuntime.strict_mode rt' = FitSecRuntime.strict_mode rt
  /\ FitSecRuntime.policy rt' = FitSecRuntime.policy rt
  /\ FitSecRuntime.emptiness rt' = FitSecRuntime.emptiness rt
  /\ writes_to_file (FitSecRuntime.audit rt')
     = writes_to_file (FitSecRuntime.audit rt).
Proof. intros ->. repeat split. Qed.

Lemma same_but_entries_refl (rt : FitSecRuntime.t) : same_but_entries rt rt.
Proof. destruct rt as [? ? ? ? ? ? []]. reflexivity. Qed.

Lemma same_but_entries_trans (rt rt1 rt2 : FitSecRuntime.t) :
  same_but_entries rt rt1 -> same_but_entries rt1 rt2 ->
  same_but_entries rt rt2.
Proof.
  unfold same_but_entries. intros H1 H2. rewrite H2 at 1. rewrite H1 at 1 2 3.
  reflexivity.
Qed.

Lemma sink_write_succeeds_memory (a : AuditLogger.t) (w : World.t) :
  writes_to_file a = false -> sink_write_succeeds a w = true.
Proof. unfold sink_write_succeeds. intros ->. reflexivity. Qed.


(** The [try] of [execute], case by case: the executor runs once, on the
    call's action and arguments; an outcome that [except Exception] does
    not catch leaves unlogged; any other outcome leaves one entry when the
    write to the sink succeeds, and two when the write of the success entry
    fails. *)
Lemma execute_run_cases (rt rt' : FitSecRuntime.t) (call : ToolCall.t)
    (m : ToolManifest.t) (d : PolicyDecision.t) (ex : Executor)
    (w w' : World.t) (out : Outcome PyVal) :
  FitSecRuntime.execute_run rt call m d ex w = (out, rt', w') ->
  exists r w1 new,
    ex (ToolCall.action call) (ToolCall.args call) w = (r, w1)
    /\ same_but_entries rt rt'
    /\ entries_of rt' = (entries_of rt ++ new)%list
    /\ Forall (run_entry call m d) new
    /\ length new <= 2
    /\ (escapes_except r = true -> out = r /\ new = [])
    /\ (escapes_except r = false ->
        1 <= length new
        /\ (sink_write_succeeds (FitSecRuntime.audit rt) w1 = true ->
            out = r /\ length new = 1)).
Proof.
  unfold FitSecRuntime.execute_run, FitSecRuntime.execute_try, mbind, Py_bind.
  intros H.
  destruct (ex (ToolCall.action call) (ToolCall.args call) w)
    as [[result|e] w1] eqn:Ee.
  - destruct (log_then_run rt call (Some m) d true (Some result) None
                (Return result) w1)
      as (o1 & rt1 & w2 & E1 & Ho1 & Hok1 & He1 & Hf1 & _).
    rewrite E1 in H. destruct o1 as [v|e1].
    + unfold mret, Py_ret in H. injection H as <- <- <-.
      exists (Return result), w1, [entry_at w1 call (Some m) d true (Some result) None].
      split; [reflexivity |]. split; [exact Hf1 |]. split; [exact He1 |].
      split; [apply Forall_singleton; done |]. split; [cbn; lia |].
      split; [discriminate |]. intros _. split; [cbn; lia |].
      intros Hs. split; [| reflexivity].
      destruct Ho1 as [-> | [msg Hx]]; [reflexivity | discriminate].
    + destruct Ho1 as [Hx | [msg Hx]]; [discriminate |].
      injection Hx as ->. cbn [is_Exception] in H.
      destruct (log_then_run rt1 call (Some m) d true None
                  (Some (str_exc (OtherException msg)))
                  (Raise (OtherException msg)) w2)
        as (o2 & rt2 & w3 & E2 & _ & _ & He2 & Hf2 & _).
      rewrite E2 in H. injection H as <- <- <-.
      eexists (Return result), w1, [_; _].
      split; [reflexivity |].
      split; [exact (same_but_entries_trans _ _ _ Hf1 Hf2) |].
      split; [rewrite He2, He1, <- app_assoc; reflexivity |].
      split; [repeat constructor |]. split; [cbn; lia |].
      split; [discriminate |]. intros _. split; [cbn; lia |].
      intros Hs. specialize (Hok1 Hs). discriminate.
  - unfold mret, Py_ret in H. destruct (is_Exception e) eqn:Hx.
    + destruct (log_then_run rt call (Some m) d true None (Some (str_exc e))
                  (Raise e) w1)
        as (o2 & rt2 & w3 & E2 & _ & Hok2 & He2 & Hf2 & _).
      rewrite E2 in H. injection H as <- <- <-.
      eexists (Raise e), w1, [_].
      split; [reflexivity |]. split; [exact Hf2 |]. split; [exact He2 |].
      split; [apply Forall_singleton; done |]. split; [cbn; lia |].
      cbn [escapes_except]. rewrite Hx. cbn [negb].
      split; [discriminate |]. intros _. split; [cbn; lia |].
      intros Hs. split; [exact (Hok2 Hs) | reflexivity].
    + injection H as <- <- <-.
      exists (Raise e), w1, [].
      split; [reflexivity |]. split; [apply same_but_entries_refl |].
      split; [rewrite app_nil_r; reflexivity |].
      split; [constructor |]. split; [cbn; lia |].
      cbn [escapes_except]. rewrite Hx. cbn [negb].
      split; [done | discriminate].
Qed.

(** Runs the [log_then] that [H] ends in and replaces the results in [H]
    by what it gives: [Hout] and [Hok] on the outcome, [Hent] on the
    entries, [Hframe] on the rest of the runtime, [Hnat] on the world. *)
Ltac log_step H :=
  cbv beta iota zeta in H;
  match type of H with
  | FitSecRuntime.log_then ?rt ?c ?m ?d ?ex ?r ?err ?out ?w = _ =>
      let o := fresh "o" in
      let rt1 := fresh "rt1" in
      let w1 := fresh "w1" in
      let E := fresh "E" in
      destruct (log_then_run rt c m d ex r err out w)
        as (o & rt1 & w1 & E & Hout & Hok & Hent & Hframe & Hnat);
      rewrite E in H; injection H as <- <- <-
  end.

(** A path of [execute] that ends in one [log_then] of an entry that is not
    marked executed leaves that one entry. *)
Ltac one_denial H :=
  log_step H; eexists [_];
  split; [split; [eassumption | apply Forall_singleton; split;
                                 [reflexivity | discriminate]] |];
  split; [cbn; lia | reflexivity].

Lemma execute_policy_logs (rt rt' : FitSecRuntime.t) (call : ToolCall.t)
    (m : ToolManifest.t) (gs : GateStatus.t) (dry_run : bool)
    (w w' : World.t) (out : Outcome PyVal) :
  FitSecRuntime.execute_policy rt call m gs dry_run w = (out, rt', w') ->
  exists new,
    entries_logged rt rt' call new
    /\ length new <= 2
    /\ (writes_to_file (FitSecRuntime.audit rt) = false ->
        raises_only_exceptions rt call -> length new = 1).
Proof.
  unfold FitSecRuntime.execute_policy. intros H. py_unfold.
  destruct (PolicyEngine.evaluate _ _ _ _ w) as [[d p'] w1].
  destruct (PolicyDecision.decision d) eqn:Hd.
  - destruct dry_run; [one_denial H |].
    cbv beta iota zeta in H.
    change (FitSecRuntime.registry (FitSecRuntime.set_policy p' rt))
      with (FitSecRuntime.registry rt) in H.
    destruct (ToolRegistry.get_executor _ _) as [ex|] eqn:Hex;
      [| one_denial H].
    apply execute_run_cases in H
      as (r & w2 & new & Er & _ & Hent & Hall & Hlen & _ & Hone).
    exists new. split; [split; [exact Hent |] |].
    { eapply Forall_impl; [exact Hall |].
      intros e (Hc & _ & Hdec & _). split; [exact Hc |].
      intros _. rewrite Hdec. exact Hd. }
    split; [exact Hlen |]. intros Hmem Hraise.
    specialize (Hraise ex w1 Hex). rewrite Er in Hraise.
    destruct (Hone Hraise) as [_ Hs]. apply Hs.
    apply sink_write_succeeds_memory. exact Hmem.
  - one_denial H.
  - one_denial H.
Qed.

Lemma execute_logs (rt rt' : FitSecRuntime.t) (call : ToolCall.t)
    (dry_run : bool) (w w' : World.t) (out : Outcome PyVal) :
  FitSecRuntime.execute rt call dry_run w = (out, rt', w') ->
  exists new,
    entries_logged rt rt' call new
    /\ length new <= 2
    /\ (writes_to_file (FitSecRuntime.audit rt) = false ->
        raises_only_exceptions rt call -> length new = 1).
Proof.
  unfold FitSecRuntime.execute. intros H. py_unfold.
  destruct (ToolRegistry.get_manifest _ _) as [m|]; [| one_denial H].
  destruct (negb (EmptinessWindow.check_allowed _ _)); [one_denial H |].
  destruct (EmergencyGate.is_active _ && _); [one_denial H |].
  match type of H with (if ?b then _ else _) _ = _ => destruct b end;
    [one_denial H |].
  eapply execute_policy_logs, H.
Qed.

(** C4. The claim fails on the code, in two ways. An executor that raises
    a [BaseException] that is no [Exception] (here [KeyboardInterrupt])
    passes the [except Exception] of [execute]: the call to the allowed
    [read_file] leaves no audit entry at all. And when the write of the
    success entry to the audit file fails, the [OSError] is caught by the
    same [except Exception] and logged again: the one call leaves two
    entries in memory, the first with the executor's result and no error,
    the second with the error of the write; the caller gets the [OSError]
    in place of the result, and the file holds no record. *)
Theorem execute_audit_entries_miscount :
  (entries_of interrupted_runtime = []
   /\ exists rt' w',
        FitSecRuntime.execute interrupted_runtime read_call false sample_world
        = (Raise (OtherBaseException ""), rt', w')
        /\ entries_of rt' = [])
  /\ (entries_of durable_runtime = []
      /\ exists rt' w' e1 e2,
           FitSecRuntime.execute durable_runtime read_call false
             full_disk_world
           = (Raise (OtherException "[Errno 28] No space left on device"),
              rt', w')
           /\ entries_of rt' = [e1; e2]
           /\ AuditEntry.tool_call e1 = read_call
           /\ AuditEntry.result e1 = Some (VStr "[sync:read_file]")
           /\ AuditEntry.error e1 = None
           /\ AuditEntry.tool_call e2 = read_call
           /\ AuditEntry.result e2 = None
           /\ AuditEntry.error e2 = Some "[Errno 28] No space left on device"
           /\ World.files w' !! "audit.jsonl" = None).
Proof.
  split; (split; [reflexivity |]).
  - eexists _, _. split; vm_compute; reflexivity.
  - eexists _, _, _, _. split; [vm_compute; reflexivity |].
    split; [vm_compute; reflexivity |]. repeat split.
Qed.

(** C8. Every audit entry that [FitSecRuntime.execute] produces and whose
    recorded policy decision is Deny has its [executed] field false. *)
Theorem execute_deny_entries_not_executed (rt rt' : FitSecRuntime.t)
    (call : ToolCall.t) (dry_run : bool) (w w' : World.t)
    (out : Outcome PyVal) (new : list AuditEntry.t) (e : AuditEntry.t) :
  FitSecRuntime.execute rt call dry_run w = (out, rt', w') ->
  entries_of rt' = (entries_of rt ++ new)%list ->
  e ∈ new ->
  PolicyDecision.decision (AuditEntry.policy_decision e) = Decision.DENY ->
  AuditEntry.executed e = false.
Proof.
  intros H Hnew Hin Hdeny.
  destruct (execute_logs _ _ _ _ _ _ _ H) as (new0 & [He Hall] & _).
  rewrite He in Hnew. apply app_inv_head in Hnew. subst new0.
  rewrite Forall_forall in Hall. destruct (Hall e Hin) as [_ Hex].
  destruct (AuditEntry.executed e); [| reflexivity].
  rewrite Hex in Hdeny by reflexivity. discriminate.
Qed.

(** C5. A call to a registered tool whose blast radius is not Omega0,
    submitted while the emptiness window is active, raises
    [EmptinessActiveError]; its audit entry is a denial with the rationale
    "Blocked by Emptiness Window", not executed; and the call is appended to
    the emptiness buffer. Nothing is assumed of the emergency gate, the
    monitorability gate, strict mode or the policy; the write of the entry
    to the audit sink is taken to succeed. *)
Theorem execute_in_emptiness_blocks (rt rt' : FitSecRuntime.t)
    (call : ToolCall.t) (m : ToolManifest.t) (dry_run : bool)
    (w w' : World.t) (out : Outcome PyVal) :
  ToolRegistry.get_manifest (FitSecRuntime.registry rt)
    (ToolCall.tool_id call) = Some m ->
  ToolManifest.omega_level m <> OmegaLevel.OMEGA_0 ->
  EmptinessWindow.is_active (FitSecRuntime.emptiness rt) = true ->
  sink_write_succeeds (FitSecRuntime.audit rt) w = true ->
  FitSecRuntime.execute rt call dry_run w = (out, rt', w') ->
  (exists msg, out = Raise (EmptinessActiveError msg))
  /\ (exists e,
        entries_of rt' = (entries_of rt ++ [e])%list
        /\ AuditEntry.tool_call e = call
        /\ PolicyDecision.decision (AuditEntry.policy_decision e)
           = Decision.DENY
        /\ PolicyDecision.rationale (AuditEntry.policy_decision e)
           = "Blocked by Emptiness Window"
        /\ AuditEntry.executed e = false)
  /\ EmptinessWindow._blocked_calls (FitSecRuntime.emptiness rt')
     = (EmptinessWindow._blocked_calls (FitSecRuntime.emptiness rt)
          ++ [call])%list
  /\ EmptinessWindow.is_active (FitSecRuntime.emptiness rt') = true.
Proof.
  intros Hm Ho Hact Hs H. unfold FitSecRuntime.execute in H. rewrite Hm in H.
  unfold EmptinessWindow.is_active in Hact. apply bool_decide_eq_true in Hact.
  unfold EmptinessWindow.check_allowed in H. rewrite Hact in H.
  rewrite bool_decide_eq_false_2 in H by done. cbn [negb] in H.
  py_unfold. log_step H.
  apply same_but_entries_fields in Hframe as (_ & _ & _ & _ & _ & Hem & _).
  rewrite (Hok Hs).
  split; [eauto |]. split.
  - eexists. split; [exact Hent |]. cbn. done.
  - rewrite Hem.
    unfold EmptinessWindow.is_active, FitSecRuntime.set_emptiness,
      EmptinessWindow.record_blocked_call.
    cbn [FitSecRuntime.emptiness]. rewrite Hact. cbn. done.
Qed.

(** ** The runtime, on inputs *)

(** C8, on an input: the [exec] call is denied by default on the sample
    runtime; the entry it leaves records Deny and [executed = false]. *)
Lemma execute_deny_entries_not_executed_witness :
  exists out rt' w' e,
    FitSecRuntime.execute sample_runtime exec_call false sample_world
    = (out, rt', w')
    /\ entries_of rt' = (entries_of sample_runtime ++ [e])%list
    /\ PolicyDecision.decision (AuditEntry.policy_decision e) = Decision.DENY
    /\ AuditEntry.executed e = false.
Proof.
  destruct (FitSecRuntime.execute sample_runtime exec_call false sample_world)
    as [[out rt'] w'] eqn:E.
  assert (Hrt : rt' = snd (fst (FitSecRuntime.execute sample_runtime exec_call
                                  false sample_world)))
    by (rewrite E; reflexivity).
  destruct (entries_of rt') as [|e l] eqn:El;
    [rewrite Hrt in El; vm_compute in El; discriminate |].
  assert (Hl : l = []).
  { rewrite Hrt in El. vm_compute in El. injection El as _ <-. reflexivity. }
  subst l.
  assert (Hd : PolicyDecision.decision (AuditEntry.policy_decision e)
               = Decision.DENY).
  { rewrite Hrt in El. vm_compute in El. injection El as <-. reflexivity. }
  exists out, rt', w', e. split; [reflexivity |].
  split; [exact El |]. split; [exact Hd |].
  apply (execute_deny_entries_not_executed _ _ _ _ _ _ _ [e] e E);
    [exact El | apply list_elem_of_singleton; reflexivity | exact Hd].
Defined.

(** C5, on an input: scenario S3, a [write_file] (O1) call while the
    window opened by [enter_emptiness("drill")] is active. *)
Lemma execute_in_emptiness_blocks_witness :
  exists out rt' w',
    FitSecRuntime.execute drill_runtime write_call false late_world
    = (out, rt', w')
    /\ (exists msg, out = Raise (EmptinessActiveError msg))
    /\ EmptinessWindow._blocked_calls (FitSecRuntime.emptiness rt')
       = [write_call].
Proof.
  destruct (FitSecRuntime.execute drill_runtime write_call false late_world)
    as [[out rt'] w'] eqn:E.
  destruct (execute_in_emptiness_blocks drill_runtime rt' write_call
              write_file_manifest false late_world w' out)
    as (Hout & _ & Hbuf & _).
  - vm_compute. reflexivity.
  - discriminate.
  - vm_compute. reflexivity.
  - reflexivity.
  - exact E.
  - exists out, rt', w'. split; [reflexivity |]. split; [exact Hout |].
    exact Hbuf.
Defined.

(** ** The secure registry facade *)

Lemma register_manifest (s : SecureToolRegistry.t) (tool : Tool.t)
    (level : OmegaLevel.t) :
  exists m,
    ToolRegistry.get_manifest
      (FitSecRuntime.registry
         (SecureToolRegistry._runtime
            (SecureToolRegistry.register s tool (Some level))))
      (Tool.name tool) = Some m
    /\ ToolManifest.omega_level m = level
    /\ ToolManifest.tool_id m = Tool.name tool.
Proof.
  eexists. split.
  - cbn. unfold ToolRegistry.get_manifest. cbn. apply lookup_insert_eq.
  - split; reflexivity.
Qed.









(** C1 (as the code has it). For a tool registered at Omega2, when the
    gate's current metrics yield a failing status, [SecureToolRegistry.execute]
    never reaches the tool's native execute path, in strict mode or not: it
    raises [GateFailedError] when the emptiness window is not active, and
    [EmptinessActiveError] when it is. *)
Theorem facade_gate_failure_blocks_omega2 (s s' : SecureToolRegistry.t)
    (name : string) (params : gmap string PyVal) (m : ToolManifest.t)
    (w w' : World.t) (out : Outcome PyVal) :
  ToolRegistry.get_manifest
    (FitSecRuntime.registry (SecureToolRegistry._runtime s)) name = Some m ->
  ToolManifest.omega_level m = OmegaLevel.OMEGA_2 ->
  GateStatus.in_pass_unknown
    (MonitorabilityGate.check
       (FitSecRuntime.gate (SecureToolRegistry._runtime s)) None) = false ->
  SecureToolRegistry.execute s name params w = (out, s', w') ->
  World.native_calls w' = World.native_calls w
  /\ (EmptinessWindow.is_active
        (FitSecRuntime.emptiness (SecureToolRegistry._runtime s)) = false ->
      exists msg, out = Raise (GateFailedError msg))
  /\ (EmptinessWindow.is_active
        (FitSecRuntime.emptiness (SecureToolRegistry._runtime s)) = true ->
      exists msg, out = Raise (EmptinessActiveError msg)).
Proof.
  intros Hm Ho Hg H. unfold SecureToolRegistry.execute in H. py_unfold.
  cbv beta iota zeta in H. rewrite Hm in H.
  unfold EmptinessWindow.check_allowed, EmptinessWindow.is_active in *.
  rewrite Ho in H.
  destruct (decide (EmptinessWindow._state
                      (FitSecRuntime.emptiness (SecureToolRegistry._runtime s))
                    = EmptinessState.EMPTINESS)) as [He|He].
  - rewrite He in H. rewrite bool_decide_eq_true_2 in H by done.
    cbn in H. injection H as <- <- <-.
    rewrite bool_decide_eq_true_2 by done.
    split; [reflexivity |]. split; [discriminate | eauto].
  - rewrite (bool_decide_eq_false_2 _ He) in H. cbn [andb] in H.
    rewrite (bool_decide_eq_false_2 _ He).
    unfold SecureToolRegistry.execute_gate in H.
    rewrite Ho, Hg in H. cbn in H. injection H as <- <- <-.
    split; [reflexivity |]. split; [eauto | discriminate].
Qed.

(** C1, the claim as stated fails at Omega1: [write_file] is registered at
    O1, the gate's metrics ([fpr] 0.2 over the target 0.05) yield FAIL_FPR
    and strict mode is on; the facade checks the gate for O2 tools only, so
    the native tool runs and its result is returned. *)
Lemma facade_gate_failure_lets_omega1_run :
  (exists m,
     ToolRegistry.get_manifest
       (FitSecRuntime.registry (SecureToolRegistry._runtime failing_gate_registry))
       "write_file" = Some m
     /\ ToolManifest.omega_level m = OmegaLevel.OMEGA_1)
  /\ MonitorabilityGate.check
       (FitSecRuntime.gate (SecureToolRegistry._runtime failing_gate_registry))
       None = GateStatus.FAIL_FPR
  /\ FitSecRuntime.strict_mode (SecureToolRegistry._runtime failing_gate_registry)
     = true
  /\ exists s' w',
       SecureToolRegistry.execute failing_gate_registry "write_file" ∅
         sample_world
       = (Return (VStr "[write_file] executed"), s', w')
       /\ World.native_calls w' = [("write_file", ∅)].
Proof.
  split; [eexists; split; [vm_compute; reflexivity | reflexivity] |].
  split; [vm_compute; reflexivity |]. split; [reflexivity |].
  eexists _, _. split; [vm_compute; reflexivity |]. vm_compute. reflexivity.
Qed.

(** C1, on an input: scenario S4's metrics and the O2 tool [exec]. *)
Lemma facade_gate_failure_blocks_omega2_witness :
  exists out s' w',
    SecureToolRegistry.execute failing_gate_registry "exec" ∅ sample_world
    = (out, s', w')
    /\ World.native_calls w' = World.native_calls sample_world
    /\ exists msg, out = Raise (GateFailedError msg).
Proof.
  destruct (SecureToolRegistry.execute failing_gate_registry "exec" ∅
              sample_world) as [[out s'] w'] eqn:E.
  destruct (facade_gate_failure_blocks_omega2 failing_gate_registry s' "exec"
              ∅ exec_manifest sample_world w' out)
    as (Hn & Hg & _).
  - vm_compute. reflexivity.
  - reflexivity.
  - vm_compute. reflexivity.
  - exact E.
  - exists out, s', w'. split; [reflexivity |]. split; [exact Hn |].
    apply Hg. vm_compute. reflexivity.
Defined.

(** ** Leaving the emptiness window *)

Lemma deactivate_with_review (e : EmptinessWindow.t) (w : World.t) :
  EmptinessWindow.is_active e = true ->
  EmptinessWindow._blocked_calls e <> [] ->
  exists p,
    EmptinessWindow.deactivate e true w
    = (Some p,
       EmptinessWindow.mk EmptinessState.NORMAL None "" []
         (EmptinessWindow._review_packets e ++ [p])%list,
       World.tick (World.draw w))
    /\ ReviewPacket.blocked_calls p = EmptinessWindow._blocked_calls e.
Proof.
  unfold EmptinessWindow.is_active. intros Ha Hb.
  apply bool_decide_eq_true in Ha.
  unfold EmptinessWindow.deactivate, EmptinessWindow._generate_review_packet.
  rewrite Ha. destruct (EmptinessWindow._blocked_calls e) as [|c l] eqn:El;
    [done |].
  py_unfold. cbn. eexists. split; reflexivity.
Qed.

(** C3 (as the code has it). With the emptiness window active and at
    least one call buffered, [FitSecRuntime.exit_emptiness] returns
    [None]. The [deactivate] it calls does build a review packet whose
    [blocked_calls] are exactly the buffered calls, in order; that packet is
    appended to the retained review packets, the window returns to normal
    and the buffer is emptied. *)
Theorem exit_emptiness_returns_nothing (rt rt' : FitSecRuntime.t)
    (w w' : World.t) (r : option ReviewPacket.t) :
  EmptinessWindow.is_active (FitSecRuntime.emptiness rt) = true ->
  EmptinessWindow._blocked_calls (FitSecRuntime.emptiness rt) <> [] ->
  FitSecRuntime.exit_emptiness rt w = (r, rt', w') ->
  r = None
  /\ (exists p,
        EmptinessWindow.deactivate (FitSecRuntime.emptiness rt) true w
        = (Some p, FitSecRuntime.emptiness rt', w')
        /\ ReviewPacket.blocked_calls p
           = EmptinessWindow._blocked_calls (FitSecRuntime.emptiness rt)
        /\ EmptinessWindow.get_review_packets (FitSecRuntime.emptiness rt')
           = (EmptinessWindow.get_review_packets (FitSecRuntime.emptiness rt)
                ++ [p])%list)
  /\ EmptinessWindow.is_active (FitSecRuntime.emptiness rt') = false
  /\ EmptinessWindow._blocked_calls (FitSecRuntime.emptiness rt') = [].
Proof.
  intros Ha Hb H.
  destruct (deactivate_with_review _ w Ha Hb) as (p & E & Hp).
  unfold FitSecRuntime.exit_emptiness, mbind, Py_bind in H. rewrite E in H.
  unfold mret, Py_ret in H. injection H as <- <- <-.
  split; [reflexivity |]. split; [| split; reflexivity].
  exists p. split; [exact E |]. split; [exact Hp | reflexivity].
Qed.

(** C3, the claim as stated fails: after scenario S3's blocked [write_file]
    call the window is active with one buffered call, yet
    [exit_emptiness] returns [None], not a review packet. *)
Lemma exit_emptiness_returns_no_packet :
  EmptinessWindow.is_active (FitSecRuntime.emptiness drill_runtime_blocked)
  = true
  /\ EmptinessWindow._blocked_calls (FitSecRuntime.emptiness drill_runtime_blocked)
     = [write_call]
  /\ fst (fst (FitSecRuntime.exit_emptiness drill_runtime_blocked late_world))
     = None.
Proof. split; [| split]; vm_compute; reflexivity. Qed.

(** C3, on an input: the same state; the packet with the one blocked
    [write_file] call is retained. *)
Lemma exit_emptiness_returns_nothing_witness :
  exists r rt' w' p,
    FitSecRuntime.exit_emptiness drill_runtime_blocked late_world = (r, rt', w')
    /\ r = None
    /\ EmptinessWindow.get_review_packets (FitSecRuntime.emptiness rt') = [p]
    /\ ReviewPacket.blocked_calls p = [write_call].
Proof.
  destruct (FitSecRuntime.exit_emptiness drill_runtime_blocked late_world)
    as [[r rt'] w'] eqn:E.
  destruct (exit_emptiness_returns_nothing drill_runtime_blocked rt'
              late_world w' r)
    as (Hr & (p & _ & Hp & Hps) & _).
  - vm_compute. reflexivity.
  - vm_compute. discriminate.
  - exact E.
  - exists r, rt', w', p. split; [reflexivity |]. split; [exact Hr |].
    split; [exact Hps | exact Hp].
Defined.

(** ** The audit summary *)

Lemma omega_name_inj (o o' : OmegaLevel.t) :
  OmegaLevel.name o = OmegaLevel.name o' -> o = o'.
Proof. destruct o, o'; cbn; intros H; first [reflexivity | discriminate H]. Qed.

Lemma sum_1_if_snoc {A : Type} (c : A -> bool) (l : list A) (x : A) :
  sum_1_if c (l ++ [x]) = sum_1_if c l + (if c x then 1 else 0).
Proof.
  unfold sum_1_if. rewrite List.filter_app, length_app. cbn.
  destruct (c x); reflexivity.
Qed.

Lemma sum_1_if_ext {A : Type} (c c' : A -> bool) (l : list A) :
  (forall x, c x = c' x) -> sum_1_if c l = sum_1_if c' l.
Proof.
  intros H. unfold sum_1_if. f_equal. apply List.filter_ext. exact H.
Qed.

Lemma count_by_omega_snoc (l : list AuditEntry.t) (e : AuditEntry.t) :
  AuditLogger.count_by_omega (l ++ [e])
  = <[AuditLogger.omega_name e :=
        default 0 (AuditLogger.count_by_omega l !! AuditLogger.omega_name e) + 1]>
      (AuditLogger.count_by_omega l).
Proof. unfold AuditLogger.count_by_omega. rewrite foldl_app. reflexivity. Qed.

(** The loop counts, per level, the entries recorded at that level; a
    level with no entry gets no key. *)
Lemma count_by_omega_lookup (l : list AuditEntry.t) (o : OmegaLevel.t) :
  AuditLogger.count_by_omega l !! OmegaLevel.name o
  = if (sum_1_if (at_level o) l =? 0)%nat then None
    else Some (sum_1_if (at_level o) l).
Proof.
  induction l as [|e l IH] using rev_ind; [reflexivity |].
  rewrite count_by_omega_snoc, sum_1_if_snoc.
  set (x := PolicyDecision.omega_level (AuditEntry.policy_decision e)).
  change (AuditLogger.omega_name e) with (OmegaLevel.name x).
  change (at_level o e) with (bool_decide (x = o)).
  destruct (decide (x = o)) as [Heq|Hne].
  - rewrite Heq, lookup_insert_eq, bool_decide_eq_true_2, IH by done.
    destruct (sum_1_if (at_level o) l) as [|n]; cbn; [reflexivity |].
    replace (n + 1) with (S n) by lia. reflexivity.
  - rewrite lookup_insert_ne, bool_decide_eq_false_2 by
      (try done; intros H; apply omega_name_inj in H; done).
    rewrite IH, Nat.add_0_r. reflexivity.
Qed.

Lemma decision_name_eqb (d : Decision.t) (e : AuditEntry.t) :
  String.eqb (AuditLogger.decision_name e) (Decision.name d) = decided d e.
Proof.
  unfold AuditLogger.decision_name, decided.
  destruct (PolicyDecision.decision (AuditEntry.policy_decision e)), d;
    reflexivity.
Qed.

(** C9 (as the code has it). On the empty log [get_summary] returns the
    mapping with the single key "total", at 0. On any other log it returns
    a mapping with the keys "total", "allowed", "denied", "executed",
    "errors" and "by_omega_level": the number of entries, of entries
    decided Allow, of entries decided Deny, of entries marked executed, of
    entries with a non-empty error, and, per blast radius that occurs, the
    number of entries recorded at it. *)
Theorem get_summary_spec (lg : AuditLogger.t) :
  (AuditLogger._entries lg = [] ->
   AuditLogger.get_summary lg = {[ "total" := SCount 0 ]})
  /\ (AuditLogger._entries lg <> [] ->
      let l := AuditLogger._entries lg in
      let s := AuditLogger.get_summary lg in
      s !! "total" = Some (SCount (length l))
      /\ s !! "allowed" = Some (SCount (sum_1_if (decided Decision.ALLOW) l))
      /\ s !! "denied" = Some (SCount (sum_1_if (decided Decision.DENY) l))
      /\ s !! "executed" = Some (SCount (sum_1_if AuditEntry.executed l))
      /\ s !! "errors"
         = Some (SCount (sum_1_if (fun e => truthy_str (AuditEntry.error e)) l))
      /\ exists by_omega,
           s !! "by_omega_level" = Some (SByOmega by_omega)
           /\ forall o,
                default 0 (by_omega !! OmegaLevel.name o)
                = sum_1_if (at_level o) l).
Proof.
  unfold AuditLogger.get_summary. split; intros H.
  - rewrite H. reflexivity.
  - destruct (AuditLogger._entries lg) as [|e l] eqn:El; [done |].
    cbn [length Nat.eqb]. cbv zeta.
    rewrite (sum_1_if_ext _ (decided Decision.ALLOW))
      by (intros x; apply (decision_name_eqb Decision.ALLOW)).
    rewrite (sum_1_if_ext (fun e0 => String.eqb (AuditLogger.decision_name e0) "DENY")
               (decided Decision.DENY))
      by (intros x; apply (decision_name_eqb Decision.DENY)).
    repeat (split; [reflexivity |]).
    eexists. split; [reflexivity |]. intros o.
    rewrite count_by_omega_lookup.
    destruct (sum_1_if (at_level o) (e :: l)); reflexivity.
Qed.

(** C9, the claim as stated fails on the empty log: the summary of a fresh
    logger has the key "total" and none of the others. *)
Lemma get_summary_of_empty_log_lacks_keys :
  AuditLogger._entries (AuditLogger.init None true) = []
  /\ AuditLogger.get_summary (AuditLogger.init None true) !! "total"
     = Some (SCount 0)
  /\ AuditLogger.get_summary (AuditLogger.init None true) !! "allowed" = None
  /\ AuditLogger.get_summary (AuditLogger.init None true) !! "denied" = None
  /\ AuditLogger.get_summary (AuditLogger.init None true) !! "executed" = None
  /\ AuditLogger.get_summary (AuditLogger.init None true) !! "errors" = None
  /\ AuditLogger.get_summary (AuditLogger.init None true) !! "by_omega_level"
     = None.
Proof. repeat split; vm_compute; reflexivity. Qed.

(** C9, on inputs: a fresh logger, and the log left by the denied [exec]
    call on the sample runtime (one entry, decided Deny at Omega2). *)
Lemma get_summary_spec_witness :
  AuditLogger.get_summary (AuditLogger.init None true) = {[ "total" := SCount 0 ]}
  /\ AuditLogger.get_summary denied_log !! "total"
     = Some (SCount (length (AuditLogger._entries denied_log)))
  /\ AuditLogger.get_summary denied_log !! "denied"
     = Some (SCount (sum_1_if (decided Decision.DENY)
                       (AuditLogger._entries denied_log)))
  /\ length (AuditLogger._entries denied_log) = 1
  /\ sum_1_if (decided Decision.DENY) (AuditLogger._entries denied_log) = 1
  /\ sum_1_if (at_level OmegaLevel.OMEGA_2) (AuditLogger._entries denied_log) = 1.
Proof.
  split.
  - apply (proj1 (get_summary_spec (AuditLogger.init None true))). reflexivity.
  - assert (Hne : AuditLogger._entries denied_log <> [])
      by (vm_compute; discriminate).
    destruct (proj2 (get_summary_spec denied_log) Hne)
      as (Ht & _ & Hd & _).
    split; [exact Ht |]. split; [exact Hd |].
    repeat split; vm_compute; reflexivity.
Defined.

(** ** The scenarios of the specification, run on the runtime *)

(** S4: with [fpr] over its target, a strict runtime refuses [write_file]
    (O1) with GateFailed and still lets [read_file] (O0) through. *)
Example scenario_gate_fail_strict :
  fst (fst (FitSecRuntime.execute failing_gate_runtime write_call false
              sample_world))
  = Raise (GateFailedError "FPR (0.200) exceeds target (0.05)")
  /\ fst (fst (FitSecRuntime.execute failing_gate_runtime read_call false
                 sample_world))
     = Return (VStr "[sync:read_file]").
Proof. split; vm_compute; reflexivity. Qed.

(** S5: an unknown tool raises ToolNotRegistered; the entry has no
    manifest, decision Deny and the rationale "Tool not registered". *)
Example scenario_unknown_tool :
  exists rt' w' e,
    FitSecRuntime.execute sample_runtime ghost_call false sample_world
    = (Raise (ToolNotRegisteredError "Tool 'ghost' not registered"), rt', w')
    /\ entries_of rt' = [e]
    /\ AuditEntry.manifest e = None
    /\ PolicyDecision.decision (AuditEntry.policy_decision e) = Decision.DENY
    /\ PolicyDecision.rationale (AuditEntry.policy_decision e)
       = "Tool not registered".
Proof.
  eexists _, _, _. split; [vm_compute; reflexivity |].
  split; [vm_compute; reflexivity |]. repeat split.
Qed.

(** S6: after [emergency_stop("incident")] an O1 call raises GateFailed
    and the rationale carries the reason; after [emergency_clear] the same
    call runs. *)
Example scenario_emergency :
  (exists rt' w' e,
     FitSecRuntime.execute incident_runtime write_call false sample_world
     = (Raise (GateFailedError "Emergency gate is active"), rt', w')
     /\ entries_of rt' = [e]
     /\ PolicyDecision.rationale (AuditEntry.policy_decision e)
        = "Emergency gate active: incident")
  /\ fst (fst (FitSecRuntime.execute
                 (FitSecRuntime.emergency_clear incident_runtime) write_call
                 false sample_world))
     = Return (VStr "[sync:write_file]").
Proof.
  split; [| vm_compute; reflexivity].
  eexists _, _, _. split; [vm_compute; reflexivity |].
  split; [vm_compute; reflexivity |]. reflexivity.
Qed.

(** An executor fault: [exec], once approved, runs an executor that
    raises; the exception is propagated and the entry records
    [executed = true] with the message as its error. *)
Example scenario_executor_fault :
  exists rt' w' e,
    FitSecRuntime.execute
      (FitSecRuntime.set_policy approved_engine sample_runtime) exec_call
      false sample_world
    = (Raise (OtherException "disk full"), rt', w')
    /\ entries_of rt' = [e]
    /\ AuditEntry.executed e = true
    /\ AuditEntry.error e = Some "disk full"
    /\ PolicyDecision.decision (AuditEntry.policy_decision e) = Decision.ALLOW.
Proof.
  eexists _, _, _. split; [vm_compute; reflexivity |].
  split; [vm_compute; reflexivity |]. repeat split.
Qed.

(* ===================================================================== *)
(** * Further properties of the code                                      *)
(* ===================================================================== *)

(** ** More of the policy engine *)

(** What [evaluate] returns on a registered tool, rule by rule. *)
Lemma evaluate_shape (pe pe' : PolicyEngine.t) (call : ToolCall.t)
    (m : ToolManifest.t) (gs : GateStatus.t) (w w' : World.t)
    (d : PolicyDecision.t) :
  PolicyEngine.evaluate pe call (Some m) gs w = (d, pe', w') ->
  PolicyDecision.omega_level d = ToolManifest.omega_level m
  /\ PolicyDecision.gate_status d = gs
  /\ (if bool_decide (ToolCall.tool_id call ∈ PolicyEngine._blocked_tools pe)
      then PolicyDecision.decision d = Decision.DENY /\ pe' = pe
      else
        match ToolManifest.omega_level m with
        | OmegaLevel.OMEGA_0 =>
            PolicyDecision.decision d = Decision.ALLOW /\ pe' = pe
        | OmegaLevel.OMEGA_1 =>
            PolicyDecision.decision d
            = (if GateStatus.in_pass_unknown gs then Decision.ALLOW
               else Decision.DENY)
            /\ pe' = pe
        | OmegaLevel.OMEGA_2 =>
            if approval_live pe call (now_of w)
            then PolicyDecision.decision d = Decision.ALLOW /\ pe' = pe
            else
              PolicyDecision.decision d
              = (if PolicyEngine.grant_covers pe call then Decision.ALLOW
                 else if PolicyEngine.default_omega2_deny pe then Decision.DENY
                 else Decision.REVIEW)
              /\ pe' = PolicyEngine.set_omega2_approvals
                         (delete (ToolCall.tool_id call)
                            (PolicyEngine._omega2_approvals pe)) pe
        | OmegaLevel.UNKNOWN =>
            PolicyDecision.decision d = Decision.DENY /\ pe' = pe
        end).
Proof.
  unfold PolicyEngine.evaluate, approval_live, now_of. intros H.
  destruct (bool_decide (ToolCall.tool_id call ∈ PolicyEngine._blocked_tools pe)).
  { py_unfold. injection H as <- <- _. done. }
  destruct (ToolManifest.omega_level m).
  - py_unfold. injection H as <- <- _. done.
  - destruct (GateStatus.in_pass_unknown gs); py_unfold;
      injection H as <- <- _; done.
  - destruct (PolicyEngine._omega2_approvals pe !! ToolCall.tool_id call)
      as [expiry|] eqn:Ha.
    + py_unfold. cbn in H.
      destruct (PrimFloat.ltb _ expiry).
      * injection H as <- <- _. done.
      * unfold PolicyEngine.evaluate_omega2_grants, PolicyEngine.grant_covers in *.
        cbn in H.
        destruct (match PolicyEngine._grants pe !! ToolCall.tool_id call with
                  | Some a => _ | None => false end);
          [| destruct (PolicyEngine.default_omega2_deny pe)];
          injection H as <- <- _; done.
    + unfold PolicyEngine.evaluate_omega2_grants in H.
      destruct (PolicyEngine.grant_covers pe call);
        [| destruct (PolicyEngine.default_omega2_deny pe)];
        py_unfold; injection H as <- <- _; (split; [done |]);
        (split; [done |]); (split; [done |]);
        destruct pe; unfold PolicyEngine.set_omega2_approvals; cbn in *;
        rewrite delete_id by exact Ha; reflexivity.
  - py_unfold. injection H as <- <- _. done.
Qed.

(** X1. [evaluate] allows a registered tool exactly when the tool is not on
    the blocklist and its level's rule is met: Omega0 always; Omega1 when
    the gate status is Pass or Unknown; Omega2 when its approval is still
    running at the clock reading or a grant covers the action; an unknown
    level never. *)
Theorem evaluate_allows_iff (pe pe' : PolicyEngine.t) (call : ToolCall.t)
    (m : ToolManifest.t) (gs : GateStatus.t) (w w' : World.t)
    (d : PolicyDecision.t) :
  PolicyEngine.evaluate pe call (Some m) gs w = (d, pe', w') ->
  (PolicyDecision.decision d = Decision.ALLOW
   <-> (ToolCall.tool_id call ∉ PolicyEngine._blocked_tools pe)
       /\ match ToolManifest.omega_level m with
          | OmegaLevel.OMEGA_0 => True
          | OmegaLevel.OMEGA_1 => GateStatus.in_pass_unknown gs = true
          | OmegaLevel.OMEGA_2 =>
              approval_live pe call (now_of w) = true
              \/ PolicyEngine.grant_covers pe call = true
          | OmegaLevel.UNKNOWN => False
          end).
Proof.
  intros H. apply evaluate_shape in H as (_ & _ & H).
  destruct (bool_decide_reflect
              (ToolCall.tool_id call ∈ PolicyEngine._blocked_tools pe))
    as [Hb|Hb].
  { destruct H as [-> _]. split; [discriminate | intros [? _]; done]. }
  destruct (ToolManifest.omega_level m).
  - destruct H as [-> _]. done.
  - destruct H as [-> _].
    destruct (GateStatus.in_pass_unknown gs); split;
      first [done | intros [_ ?]; done].
  - destruct (approval_live pe call (now_of w)).
    + destruct H as [-> _]. split; [auto | done].
    + destruct H as [-> _].
      destruct (PolicyEngine.grant_covers pe call);
        [| destruct (PolicyEngine.default_omega2_deny pe)];
        split; first [by auto | discriminate | intros [_ [?|?]]; done].
  - destruct H as [-> _]. split; [discriminate | intros [_ []]].
Qed.

(** X2. [evaluate] answers Review in one situation only: an Omega2 tool,
    not on the blocklist, without a running approval and without a covering
    grant, on an engine whose [default_omega2_deny] is off. *)
Theorem evaluate_review_iff (pe pe' : PolicyEngine.t) (call : ToolCall.t)
    (m : ToolManifest.t) (gs : GateStatus.t) (w w' : World.t)
    (d : PolicyDecision.t) :
  PolicyEngine.evaluate pe call (Some m) gs w = (d, pe', w') ->
  (PolicyDecision.decision d = Decision.REVIEW
   <-> (ToolCall.tool_id call ∉ PolicyEngine._blocked_tools pe)
       /\ ToolManifest.omega_level m = OmegaLevel.OMEGA_2
       /\ approval_live pe call (now_of w) = false
       /\ PolicyEngine.grant_covers pe call = false
       /\ PolicyEngine.default_omega2_deny pe = false).
Proof.
  intros H. apply evaluate_shape in H as (_ & _ & H).
  destruct (bool_decide_reflect
              (ToolCall.tool_id call ∈ PolicyEngine._blocked_tools pe))
    as [Hb|Hb].
  { destruct H as [-> _]. split; [discriminate | intros [? _]; done]. }
  destruct (ToolManifest.omega_level m).
  - destruct H as [-> _]. split; [discriminate | intros (_ & ? & _); done].
  - destruct H as [-> _].
    destruct (GateStatus.in_pass_unknown gs);
      (split; [discriminate | intros (_ & ? & _); done]).
  - destruct (approval_live pe call (now_of w)).
    + destruct H as [-> _].
      split; [discriminate | intros (_ & _ & ? & _); done].
    + destruct H as [-> _].
      destruct (PolicyEngine.grant_covers pe call);
        [| destruct (PolicyEngine.default_omega2_deny pe)];
        split; first [done | discriminate
                      | intros (_ & _ & _ & ? & ?); done].
  - destruct H as [-> _]. split; [discriminate | intros (_ & ? & _); done].
Qed.

(** X3. [evaluate] changes nothing of the engine but the approvals map, and
    that only by removing the called tool's approval; when it does, the
    tool is at Omega2 and the approval had run out at the clock reading. No
    other tool's approval is touched and none is ever added. *)
Theorem evaluate_only_prunes_expired (pe pe' : PolicyEngine.t)
    (call : ToolCall.t) (m : option ToolManifest.t) (gs : GateStatus.t)
    (w w' : World.t) (d : PolicyDecision.t) :
  PolicyEngine.evaluate pe call m gs w = (d, pe', w') ->
  PolicyEngine.default_omega2_deny pe' = PolicyEngine.default_omega2_deny pe
  /\ PolicyEngine._grants pe' = PolicyEngine._grants pe
  /\ PolicyEngine._blocked_tools pe' = PolicyEngine._blocked_tools pe
  /\ PolicyEngine._allowed_network_domains pe'
     = PolicyEngine._allowed_network_domains pe
  /\ (forall k, k <> ToolCall.tool_id call ->
        PolicyEngine._omega2_approvals pe' !! k
        = PolicyEngine._omega2_approvals pe !! k)
  /\ (PolicyEngine._omega2_approvals pe' = PolicyEngine._omega2_approvals pe
      \/ (PolicyEngine._omega2_approvals pe'
          = delete (ToolCall.tool_id call) (PolicyEngine._omega2_approvals pe)
          /\ (exists mm, m = Some mm
                /\ ToolManifest.omega_level mm = OmegaLevel.OMEGA_2)
          /\ exists expiry,
               PolicyEngine._omega2_approvals pe !! ToolCall.tool_id call
               = Some expiry
               /\ PrimFloat.ltb (now_of w) expiry = false)).
Proof.
  intros H. destruct m as [m|].
  2: { unfold PolicyEngine.evaluate in H. py_unfold.
       injection H as _ <- _. repeat split; auto. }
  apply evaluate_shape in H as (_ & _ & H).
  destruct (bool_decide _); [destruct H as [_ ->]; repeat split; auto |].
  destruct (ToolManifest.omega_level m) eqn:Hm;
    try (destruct H as [_ ->]; repeat split; auto).
  unfold approval_live in H.
  destruct (PolicyEngine._omega2_approvals pe !! ToolCall.tool_id call)
    as [expiry|] eqn:Ha.
  - destruct (PrimFloat.ltb (now_of w) expiry) eqn:Hl;
      destruct H as [_ ->]; [repeat split; auto |].
    repeat split; try reflexivity.
    + intros k Hk. cbn. apply lookup_delete_ne. done.
    + right. cbn. split; [reflexivity |]. split; eauto.
  - destruct H as [_ ->]. repeat split; try reflexivity.
    + intros k Hk. cbn. apply lookup_delete_ne. done.
    + left. cbn. apply delete_id. exact Ha.
Qed.

(** X4. [evaluate] fails closed: without a manifest, or with a manifest
    whose level is UNKNOWN, the decision is Deny for every engine, gate
    status and clock, and the engine is left as it was. *)
Theorem evaluate_fails_closed (pe pe' : PolicyEngine.t) (call : ToolCall.t)
    (m : option ToolManifest.t) (gs : GateStatus.t) (w w' : World.t)
    (d : PolicyDecision.t) :
  (m = None
   \/ exists mm, m = Some mm
        /\ ToolManifest.omega_level mm = OmegaLevel.UNKNOWN) ->
  PolicyEngine.evaluate pe call m gs w = (d, pe', w') ->
  PolicyDecision.decision d = Decision.DENY /\ pe' = pe.
Proof.
  intros [-> | (mm & -> & Hm)] H.
  - unfold PolicyEngine.evaluate in H. py_unfold. injection H as <- <- _. done.
  - apply evaluate_shape in H as (_ & _ & H). rewrite Hm in H.
    destruct (bool_decide _); exact H.
Qed.

(** X5. Scenario S2's second half: after [grant_omega2_approval(tool, D)]
    at time [t0], an evaluation of that Omega2 tool whose clock reading is
    before [t0 + D] allows it, unless the tool is on the blocklist; the
    approval stays in place. *)
Theorem grant_then_evaluate_allows (pe0 pe1 pe' : PolicyEngine.t)
    (call : ToolCall.t) (m : ToolManifest.t) (gs : GateStatus.t) (D : float)
    (w0 w1 w w' : World.t) (d : PolicyDecision.t) :
  PolicyEngine.grant_omega2_approval pe0 (ToolCall.tool_id call) D w0
    = (pe1, w1) ->
  ToolManifest.omega_level m = OmegaLevel.OMEGA_2 ->
  ToolCall.tool_id call ∉ PolicyEngine._blocked_tools pe0 ->
  PrimFloat.ltb (now_of w) (PrimFloat.add (now_of w0) D) = true ->
  PolicyEngine.evaluate pe1 call (Some m) gs w = (d, pe', w') ->
  PolicyDecision.decision d = Decision.ALLOW
  /\ PolicyDecision.rationale d = "O2 - explicitly approved (time-bounded)"
  /\ pe' = pe1.
Proof.
  intros Hg Hm Hb Hl H. rewrite grant_omega2_approval_run in Hg.
  injection Hg as <- _. unfold PolicyEngine.evaluate in H. cbn in H.
  rewrite bool_decide_eq_false_2, Hm, lookup_insert_eq in H by done.
  py_unfold. cbn in H. unfold now_of in Hl. rewrite Hl in H.
  injection H as <- <- Hw. done.
Qed.

(** X6. Round trip: granting an approval to a tool that had none and then
    revoking it gives back the engine as it was, so every later evaluation
    is the one of the engine that never granted. Revoking a tool that has
    no approval changes nothing. *)
Theorem grant_revoke_round_trip (pe pe1 : PolicyEngine.t) (tool_id : string)
    (D : float) (w w1 : World.t) :
  PolicyEngine._omega2_approvals pe !! tool_id = None ->
  PolicyEngine.grant_omega2_approval pe tool_id D w = (pe1, w1) ->
  PolicyEngine.revoke_omega2_approval pe1 tool_id = pe
  /\ PolicyEngine.revoke_omega2_approval pe tool_id = pe.
Proof.
  intros Hn Hg. rewrite grant_omega2_approval_run in Hg. injection Hg as <- _.
  unfold PolicyEngine.revoke_omega2_approval, PolicyEngine.set_omega2_approvals.
  cbn. rewrite delete_insert_eq, delete_id by exact Hn.
  destruct pe; done.
Qed.

Ltac by_compute_in := refine (bool_decide_unpack _ _); vm_compute; exact I.
Ltac by_compute_lookup := vm_compute; reflexivity.
Ltac by_compute_notin :=
  let H := fresh in
  intros H; apply (bool_decide_pack _) in H; vm_compute in H; exact H.

(** X1, on an input: the approved, unblocked "exec" before its expiry. *)
Lemma evaluate_allows_iff_witness :
  exists d pe' w',
    PolicyEngine.evaluate approved_engine exec_call (Some exec_manifest)
      GateStatus.FAIL_FPR sample_world = (d, pe', w')
    /\ PolicyDecision.decision d = Decision.ALLOW.
Proof.
  destruct (PolicyEngine.evaluate approved_engine exec_call
              (Some exec_manifest) GateStatus.FAIL_FPR sample_world)
    as [[d pe'] w'] eqn:E.
  exists d, pe', w'. split; [reflexivity |].
  apply (proj2 (evaluate_allows_iff _ _ _ _ _ _ _ _ E)).
  split; [by_compute_notin | left; vm_compute; reflexivity].
Defined.

(** X2, on an input: "exec" on an engine built with [default_omega2_deny]
    off. *)
Lemma evaluate_review_iff_witness :
  exists d pe' w',
    PolicyEngine.evaluate (PolicyEngine.init false) exec_call
      (Some exec_manifest) GateStatus.PASS sample_world = (d, pe', w')
    /\ PolicyDecision.decision d = Decision.REVIEW.
Proof.
  destruct (PolicyEngine.evaluate (PolicyEngine.init false) exec_call
              (Some exec_manifest) GateStatus.PASS sample_world)
    as [[d pe'] w'] eqn:E.
  exists d, pe', w'. split; [reflexivity |].
  apply (proj2 (evaluate_review_iff _ _ _ _ _ _ _ _ E)).
  split; [by_compute_notin |]. repeat split; vm_compute; reflexivity.
Defined.

(** X3, on an input: the expired approval of "exec", evaluated at 200. *)
Lemma evaluate_only_prunes_expired_witness :
  exists d pe' w',
    PolicyEngine.evaluate approved_engine exec_call (Some exec_manifest)
      GateStatus.PASS late_world = (d, pe', w')
    /\ PolicyEngine._grants pe' = PolicyEngine._grants approved_engine
    /\ PolicyEngine._blocked_tools pe'
       = PolicyEngine._blocked_tools approved_engine
    /\ PolicyEngine._omega2_approvals pe' !! "write_file"
       = PolicyEngine._omega2_approvals approved_engine !! "write_file".
Proof.
  destruct (PolicyEngine.evaluate approved_engine exec_call
              (Some exec_manifest) GateStatus.PASS late_world)
    as [[d pe'] w'] eqn:E.
  destruct (evaluate_only_prunes_expired _ _ _ _ _ _ _ _ E)
    as (_ & Hg & Hb & _ & Hk & _).
  exists d, pe', w'. split; [reflexivity |]. split; [exact Hg |].
  split; [exact Hb |]. apply Hk. discriminate.
Defined.

(** X4, on an input: a call with no manifest. *)
Lemma evaluate_fails_closed_witness :
  exists d w',
    PolicyEngine.evaluate approved_engine ghost_call None GateStatus.PASS
      sample_world = (d, approved_engine, w')
    /\ PolicyDecision.decision d = Decision.DENY.
Proof.
  destruct (PolicyEngine.evaluate approved_engine ghost_call None
              GateStatus.PASS sample_world) as [[d pe'] w'] eqn:E.
  destruct (evaluate_fails_closed _ _ _ _ _ _ _ _ (or_introl eq_refl) E)
    as [Hd ->].
  exists d, w'. split; [reflexivity | exact Hd].
Defined.

(** X5, on an input: "exec" approved at 100 for 60 seconds, evaluated at
    100. *)
Lemma grant_then_evaluate_allows_witness :
  exists d w',
    PolicyEngine.evaluate approved_engine exec_call (Some exec_manifest)
      GateStatus.PASS sample_world = (d, approved_engine, w')
    /\ PolicyDecision.decision d = Decision.ALLOW.
Proof.
  destruct (PolicyEngine.evaluate approved_engine exec_call
              (Some exec_manifest) GateStatus.PASS sample_world)
    as [[d pe'] w'] eqn:E.
  destruct (grant_then_evaluate_allows (PolicyEngine.init true)
              approved_engine pe' exec_call exec_manifest GateStatus.PASS 60
              sample_world (World.tick sample_world) sample_world w' d)
    as (Hd & _ & ->).
  - reflexivity.
  - reflexivity.
  - by_compute_notin.
  - vm_compute. reflexivity.
  - exact E.
  - exists d, w'. split; [reflexivity | exact Hd].
Defined.

(** X6, on an input: grant and revoke on a fresh engine. *)
Lemma grant_revoke_round_trip_witness :
  PolicyEngine.revoke_omega2_approval approved_engine "exec"
  = PolicyEngine.init true.
Proof.
  apply (grant_revoke_round_trip (PolicyEngine.init true) approved_engine
           "exec" 60 sample_world (World.tick sample_world)).
  - reflexivity.
  - reflexivity.
Defined.

(** ** The monitorability gate *)

Lemma SFeqb_irrefl_nan (s : spec_float) : SFeqb s s = false -> s = S754_nan.
Proof.
  unfold SFeqb, SFcompare. destruct s as [[]|[]| |[] m e];
    try discriminate; try reflexivity.
  all: rewrite Z.compare_refl.
  all: change (Pos.compare_cont Eq m m) with (Pos.compare m m).
  all: rewrite Pos.compare_refl; discriminate.
Qed.

Lemma ltb_nan (v x : float) :
  PrimFloat.is_nan v = true ->
  PrimFloat.ltb v x = false /\ PrimFloat.ltb x v = false.
Proof.
  unfold PrimFloat.is_nan. intros H. apply negb_true_iff in H.
  rewrite FloatAxioms.eqb_spec in H. apply SFeqb_irrefl_nan in H.
  rewrite !ltb_spec, H. unfold SFltb, SFcompare.
  split; [reflexivity |]. destruct (Prim2SF x) as [[]|[]| |[] m e]; reflexivity.
Qed.

Lemma present_and_absent_or_nan (x : option float) (t : float) :
  absent_or_nan x = true ->
  MonitorabilityGate.present_and x (fun v => PrimFloat.ltb t v) = false
  /\ MonitorabilityGate.present_and x (fun v => PrimFloat.ltb v t) = false.
Proof.
  destruct x as [v|]; [| done]. cbn. intros H.
  destruct (ltb_nan v t H). done.
Qed.

(** X7. The gate answers Unknown exactly when it has no metrics to look at:
    none passed to [check] and none stored by [update_metrics]. *)
Theorem check_unknown_iff (g : MonitorabilityGate.t)
    (metrics : option GateMetrics.t) :
  MonitorabilityGate.check g metrics = GateStatus.UNKNOWN
  <-> metrics = None /\ MonitorabilityGate._metrics g = None.
Proof.
  unfold MonitorabilityGate.check. split.
  - destruct metrics as [m|]; [| destruct (MonitorabilityGate._metrics g) as [m|]];
      [| | done].
    all: intros H; exfalso; revert H.
    all: repeat match goal with
           | |- context [if ?b then _ else _] => destruct b
           | |- context [match ?x with Some _ => _ | None => _ end] =>
               destruct x
           end; discriminate.
  - intros [-> ->]. reflexivity.
Qed.

(** X8. An observation that is missing or NaN never fails its rule: when
    the false-positive rate, the coverage, the calibration score and the
    lead-time mean are each absent or NaN, the gate passes, whatever the
    targets and the lead-time deviation. *)
Theorem check_passes_without_numbers (g : MonitorabilityGate.t)
    (metrics : option GateMetrics.t) (m : GateMetrics.t) :
  effective_metrics g metrics = Some m ->
  absent_or_nan (GateMetrics.fpr m) = true ->
  absent_or_nan (GateMetrics.coverage_at_fpr m) = true ->
  absent_or_nan (GateMetrics.calibration_score m) = true ->
  absent_or_nan (GateMetrics.lead_time_mean m) = true ->
  MonitorabilityGate.check g metrics = GateStatus.PASS.
Proof.
  unfold effective_metrics, MonitorabilityGate.check.
  intros -> Hf Hc Hk Hl.
  rewrite (proj1 (present_and_absent_or_nan _ _ Hf)).
  rewrite (proj2 (present_and_absent_or_nan _ _ Hc)).
  rewrite (proj2 (present_and_absent_or_nan _ _ Hk)).
  destruct (GateMetrics.lead_time_mean m) as [mean|]; [| reflexivity].
  destruct (GateMetrics.lead_time_std m) as [std|]; [| reflexivity].
  cbn in Hl. rewrite (proj2 (ltb_nan mean 0 Hl)). reflexivity.
Qed.

(** X9. The gate reports a failure only on an observed violation, measured
    against the targets carried by the metrics themselves: FAIL_FPR needs a
    rate above [fpr_target], FAIL_COVERAGE a coverage below
    [coverage_target], FAIL_CALIBRATION a score below
    [calibration_threshold], FAIL_LEAD_TIME a positive mean with
    [std / mean] above [lead_time_cv_max]. *)
Theorem check_failure_is_observed (g : MonitorabilityGate.t)
    (metrics : option GateMetrics.t) :
  match MonitorabilityGate.check g metrics with
  | GateStatus.FAIL_FPR =>
      exists m v, effective_metrics g metrics = Some m
        /\ GateMetrics.fpr m = Some v
        /\ PrimFloat.ltb (GateMetrics.fpr_target m) v = true
  | GateStatus.FAIL_COVERAGE =>
      exists m v, effective_metrics g metrics = Some m
        /\ GateMetrics.coverage_at_fpr m = Some v
        /\ PrimFloat.ltb v (GateMetrics.coverage_target m) = true
  | GateStatus.FAIL_CALIBRATION =>
      exists m v, effective_metrics g metrics = Some m
        /\ GateMetrics.calibration_score m = Some v
        /\ PrimFloat.ltb v (GateMetrics.calibration_threshold m) = true
  | GateStatus.FAIL_LEAD_TIME =>
      exists m mean std, effective_metrics g metrics = Some m
        /\ GateMetrics.lead_time_mean m = Some mean
        /\ GateMetrics.lead_time_std m = Some std
        /\ PrimFloat.ltb 0 mean = true
        /\ PrimFloat.ltb (GateMetrics.lead_time_cv_max m)
             (PrimFloat.div std mean) = true
  | GateStatus.PASS => exists m, effective_metrics g metrics = Some m
  | GateStatus.UNKNOWN => effective_metrics g metrics = None
  end.
Proof.
  unfold MonitorabilityGate.check.
  change (match metrics with
          | Some m => Some m
          | None => MonitorabilityGate._metrics g
          end) with (effective_metrics g metrics).
  destruct (effective_metrics g metrics) as [m|]; [| reflexivity].
  destruct (GateMetrics.fpr m) as [v|] eqn:Hf; cbn [MonitorabilityGate.present_and].
  1: destruct (PrimFloat.ltb (GateMetrics.fpr_target m) v) eqn:H1; [eauto |].
  all: destruct (GateMetrics.coverage_at_fpr m) as [c|] eqn:Hc;
    cbn [MonitorabilityGate.present_and].
  all: try (destruct (PrimFloat.ltb c (GateMetrics.coverage_target m)) eqn:H2;
            [eauto |]).
  all: destruct (GateMetrics.calibration_score m) as [k|] eqn:Hk;
    cbn [MonitorabilityGate.present_and].
  all: try (destruct (PrimFloat.ltb k (GateMetrics.calibration_threshold m))
              eqn:H3; [eauto |]).
  all: destruct (GateMetrics.lead_time_mean m) as [mean|] eqn:Hm; [| eauto].
  all: destruct (GateMetrics.lead_time_std m) as [std|] eqn:Hs; [| eauto].
  all: destruct (PrimFloat.ltb 0 mean) eqn:H4; cbn [andb]; [| eauto].
  all: destruct (PrimFloat.ltb (GateMetrics.lead_time_cv_max m)
                   (PrimFloat.div std mean)) eqn:H5; eauto 10.
Qed.

(** X10. [get_failure_reason] returns a reason exactly when the gate is not
    operational: [None] for Pass and Unknown, a text for every failing
    status, also when the gate has no stored metrics to quote. *)
Theorem failure_reason_iff_not_operational (w : World.t)
    (g : MonitorabilityGate.t) (metrics : option GateMetrics.t) :
  is_Some (MonitorabilityGate.get_failure_reason w g metrics)
  <-> MonitorabilityGate.is_operational g metrics = false.
Proof.
  unfold MonitorabilityGate.get_failure_reason, MonitorabilityGate.is_operational.
  destruct (MonitorabilityGate.check g metrics); cbn;
    try (split; [intros [? ?]; discriminate | discriminate]).
  all: destruct (MonitorabilityGate._metrics g); split; eauto.
Qed.

(** ** The emptiness controller *)

(** X11. The window is sticky and [activate] does not restart it: on an
    active window [activate] changes nothing (the buffer, the activation
    time and the first reason are kept) and does not read the clock. *)
Theorem activate_when_active_keeps_window (e : EmptinessWindow.t)
    (reason : string) (w : World.t) :
  EmptinessWindow.is_active e = true ->
  EmptinessWindow.activate e reason w = (e, w).
Proof.
  unfold EmptinessWindow.is_active, EmptinessWindow.activate. intros H.
  apply bool_decide_eq_true in H. rewrite H. reflexivity.
Qed.

(** X12. [deactivate] hands out a review packet exactly when the window was
    active, review was required and at least one call was buffered. In
    every case the window is not active afterwards; without a packet the
    retained packets are the same as before; and on a window that was not
    active nothing changes at all. *)
Theorem deactivate_packet_iff (e e' : EmptinessWindow.t)
    (require_review : bool) (w w' : World.t) (p : option ReviewPacket.t) :
  EmptinessWindow.deactivate e require_review w = (p, e', w') ->
  (is_Some p
   <-> EmptinessWindow.is_active e = true /\ require_review = true
       /\ EmptinessWindow._blocked_calls e <> [])
  /\ EmptinessWindow.is_active e' = false
  /\ (p = None ->
      EmptinessWindow._review_packets e' = EmptinessWindow._review_packets e)
  /\ (EmptinessWindow.is_active e = false -> e' = e /\ w' = w).
Proof.
  unfold EmptinessWindow.deactivate, EmptinessWindow.is_active,
    EmptinessWindow._generate_review_packet.
  intros H. destruct (EmptinessWindow._state e) eqn:Hs.
  - py_unfold. injection H as <- <- <-. rewrite Hs.
    split; [split; [intros [? ?]; discriminate | intros [? _]; discriminate] |].
    done.
  - destruct require_review;
      [destruct (EmptinessWindow._blocked_calls e) as [|c l] eqn:Hb |];
      py_unfold; cbn in H; injection H as <- <- <-; cbn.
    all: split; [split; [intros [? ?]; try discriminate; done
                        | intros (_ & ? & ?); done] |].
    all: split; [reflexivity |]; split; [done | discriminate].
Qed.

(** X13. Every operation of the controller keeps it at rest when normal: in
    the normal state the buffer is empty and no activation time or reason
    is recorded. It holds of a new controller and is preserved by
    [activate], [record_blocked_call] and [deactivate]. *)
Theorem controller_at_rest_when_normal (e : EmptinessWindow.t)
    (reason : string) (c : ToolCall.t) (require_review : bool) (w : World.t) :
  at_rest_when_normal EmptinessWindow.init
  /\ (at_rest_when_normal e ->
      at_rest_when_normal (fst (EmptinessWindow.activate e reason w))
      /\ at_rest_when_normal (EmptinessWindow.record_blocked_call e c)
      /\ at_rest_when_normal
           (snd (fst (EmptinessWindow.deactivate e require_review w)))).
Proof.
  unfold at_rest_when_normal. split; [done |]. intros He.
  unfold EmptinessWindow.activate, EmptinessWindow.record_blocked_call,
    EmptinessWindow.deactivate, EmptinessWindow._generate_review_packet.
  destruct (EmptinessWindow._state e) eqn:Hs.
  - py_unfold. cbn. split; [discriminate |]. split; intros _; apply He; done.
  - py_unfold. cbn. split; [intros H; congruence |].
    split; [intros H; congruence |].
    destruct require_review;
      [destruct (EmptinessWindow._blocked_calls e) |]; cbn; done.
Qed.

(** Review packets accumulate: no operation of the controller removes
    or reorders a retained packet; the packets before are a prefix of the
    packets after. *)
Lemma review_packets_only_grow (e : EmptinessWindow.t) (reason : string)
    (c : ToolCall.t) (require_review : bool) (w : World.t) :
  EmptinessWindow._review_packets e
    `prefix_of` EmptinessWindow._review_packets
                  (fst (EmptinessWindow.activate e reason w))
  /\ EmptinessWindow._review_packets e
       `prefix_of` EmptinessWindow._review_packets
                     (EmptinessWindow.record_blocked_call e c)
  /\ EmptinessWindow._review_packets e
       `prefix_of` EmptinessWindow._review_packets
                     (snd (fst (EmptinessWindow.deactivate e require_review w))).
Proof.
  unfold EmptinessWindow.activate, EmptinessWindow.record_blocked_call,
    EmptinessWindow.deactivate, EmptinessWindow._generate_review_packet.
  destruct (EmptinessWindow._state e); py_unfold; cbn.
  - done.
  - split; [done |]. split; [done |].
    destruct require_review;
      [destruct (EmptinessWindow._blocked_calls e) |]; cbn;
      first [done | apply prefix_app_r; done].
Qed.

(** X14. Round trip through a window: from the normal state, [activate],
    then [record_blocked_call] for each of the calls [cs] in turn, then
    [deactivate(require_review=True)] returns a packet whose blocked calls
    are [cs] in the order recorded and whose recommendation counts them;
    calls buffered in an earlier window are not in it. *)
Theorem window_round_trip (e e1 e' : EmptinessWindow.t) (reason : string)
    (cs : list ToolCall.t) (w w1 w2 w' : World.t)
    (p : option ReviewPacket.t) :
  EmptinessWindow._state e = EmptinessState.NORMAL ->
  cs <> [] ->
  EmptinessWindow.activate e reason w = (e1, w1) ->
  EmptinessWindow.deactivate
    (foldl EmptinessWindow.record_blocked_call e1 cs) true w2 = (p, e', w') ->
  exists pk,
    p = Some pk
    /\ ReviewPacket.blocked_calls pk = cs
    /\ ReviewPacket.recommendation pk
       = Some (pretty (length cs)
                 +:+ " action(s) blocked during Emptiness Window")
    /\ EmptinessWindow._review_packets e'
       = (EmptinessWindow._review_packets e ++ [pk])%list
    /\ EmptinessWindow._blocked_calls e' = [].
Proof.
  intros Hs Hcs Ha Hd. unfold EmptinessWindow.activate in Ha. rewrite Hs in Ha.
  py_unfold. injection Ha as <- _.
  set (e1 := EmptinessWindow.mk EmptinessState.EMPTINESS
               (Some (World.clock w (World.clock_reads w))) reason []
               (EmptinessWindow._review_packets e)) in *.
  assert (Hf : forall l e0,
            EmptinessWindow._state e0 = EmptinessState.EMPTINESS ->
            let e2 := foldl EmptinessWindow.record_blocked_call e0 l in
            EmptinessWindow._state e2 = EmptinessState.EMPTINESS
            /\ EmptinessWindow._blocked_calls e2
               = (EmptinessWindow._blocked_calls e0 ++ l)%list
            /\ EmptinessWindow._review_packets e2
               = EmptinessWindow._review_packets e0).
  { induction l as [|c l IH]; intros e0 H0; cbn.
    - rewrite app_nil_r. done.
    - destruct (IH (EmptinessWindow.record_blocked_call e0 c)) as (A & B & C).
      + unfold EmptinessWindow.record_blocked_call. rewrite H0. done.
      + split; [exact A |]. rewrite B, C.
        unfold EmptinessWindow.record_blocked_call. rewrite H0. cbn.
        rewrite <- app_assoc. done. }
  destruct (Hf cs e1 eq_refl) as (A & B & C). cbn in B, C.
  set (e2 := foldl EmptinessWindow.record_blocked_call e1 cs) in *.
  unfold EmptinessWindow.deactivate, EmptinessWindow._generate_review_packet in Hd.
  rewrite A, B in Hd. destruct cs as [|c cs']; [done |].
  py_unfold. cbv beta iota zeta in Hd. cbn [andb] in Hd.
  injection Hd as <- <- _.
  eexists. split; [reflexivity |].
  cbn [ReviewPacket.blocked_calls ReviewPacket.recommendation
       EmptinessWindow._review_packets EmptinessWindow._blocked_calls].
  rewrite C. done.
Qed.

(** ** More of the audit logger *)

(** X15. [log] builds an entry from its arguments and appends it at the
    end of the in-memory log, whether or not anything is written to a file.
    With a log path and [in_memory] off, one record for the entry, the one
    that [_entry_to_dict] gives, is appended to the file at that path, no
    other file changes and the entry is returned; when that write fails,
    its [OSError] leaves [log] and no file changes. Without a log path, or
    with [in_memory] on, the entry is returned and no file changes. *)
Theorem log_sinks (a a' : AuditLogger.t) (c : ToolCall.t)
    (m : option ToolManifest.t) (d : PolicyDecision.t) (ex : bool)
    (r : option PyVal) (err : option string) (w w' : World.t)
    (lr : Outcome AuditEntry.t) :
  AuditLogger.log a c m d ex r err w = (lr, a', w') ->
  exists e,
    AuditLogger._entries a' = (AuditLogger._entries a ++ [e])%list
    /\ (AuditEntry.tool_call e, AuditEntry.manifest e,
        AuditEntry.policy_decision e, AuditEntry.executed e,
        AuditEntry.result e, AuditEntry.error e) = (c, m, d, ex, r, err)
    /\ match AuditLogger._log_path a, AuditLogger._in_memory a with
       | Some path, false =>
           match World.write_errors w (World.write_attempts w) with
           | None =>
               lr = Return e
               /\ World.files w' !! path
                  = Some (default [] (World.files w !! path)
                            ++ [AuditLogger._entry_to_dict w e])%list
               /\ forall other, other <> path ->
                    World.files w' !! other = World.files w !! other
           | Some msg =>
               lr = Raise (OtherException msg)
               /\ World.files w' = World.files w
           end
       | _, _ => lr = Return e /\ World.files w' = World.files w
       end.
Proof.
  unfold AuditLogger.log, AuditLogger._append_to_file. py_unfold. intros H.
  destruct (AuditLogger._log_path a) as [path|];
    [destruct (AuditLogger._in_memory a) |]; cbn in H.
  1, 3: injection H as <- <- <-; eexists; cbn; done.
  destruct (World.write_errors w (World.write_attempts w)) as [msg|];
    injection H as <- <- <-; eexists; cbn;
    (split; [reflexivity |]); (split; [reflexivity |]); [done |].
  split; [reflexivity |]. split; [apply lookup_insert_eq |].
  intros other Ho. apply lookup_insert_ne. done.
Qed.

Lemma filter_sublist {A : Type} (f : A -> bool) (l : list A) :
  List.filter f l `sublist_of` l.
Proof.
  induction l as [|x l IH]; cbn; [constructor |].
  destruct (f x); [apply sublist_skip | apply sublist_cons]; exact IH.
Qed.

(** X16. [get_entries] never invents or reorders: whatever the arguments,
    the result is a sub-sequence of the log in log order; with a non-empty
    [tool_id] every returned entry is for that tool, and with a non-empty
    [decision_filter] every returned entry has that decision name. *)
Theorem get_entries_sound (a : AuditLogger.t) (limit : option Z)
    (tool_id decision_filter : option string) :
  AuditLogger.get_entries a limit tool_id decision_filter
    `sublist_of` AuditLogger._entries a
  /\ forall e,
       e ∈ AuditLogger.get_entries a limit tool_id decision_filter ->
       (truthy_str tool_id = true ->
        Some (ToolCall.tool_id (AuditEntry.tool_call e)) = tool_id)
       /\ (truthy_str decision_filter = true ->
           Some (AuditLogger.decision_name e) = decision_filter).
Proof.
  unfold AuditLogger.get_entries.
  set (l1 := if truthy_str tool_id then List.filter _ _ else _).
  set (l2 := if truthy_str decision_filter then List.filter _ l1 else l1).
  assert (H1 : l1 `sublist_of` AuditLogger._entries a).
  { subst l1. destruct (truthy_str tool_id); [apply filter_sublist | done]. }
  assert (H2 : l2 `sublist_of` l1).
  { subst l2. destruct (truthy_str decision_filter);
      [apply filter_sublist | done]. }
  assert (H3 : match limit with
               | Some n =>
                   if (n =? 0)%Z then l2
                   else if (0 <? n)%Z then drop (length l2 - Z.to_nat n) l2
                   else drop (Z.to_nat (- n)) l2
               | None => l2
               end `sublist_of` l2).
  { destruct limit as [n|]; [| done].
    destruct (n =? 0)%Z; [done |].
    destruct (0 <? n)%Z; apply sublist_drop. }
  split; [etrans; [exact H3 |]; etrans; [exact H2 | exact H1] |].
  intros e He. apply (fun H => elem_of_sublist _ _ _ H H3) in He.
  split; intros Ht.
  - apply (fun H => elem_of_sublist _ _ _ H H2) in He. subst l1. rewrite Ht in He.
    apply list_elem_of_In, List.filter_In in He as [_ He].
    apply String.eqb_eq in He. rewrite He.
    destruct tool_id; [reflexivity | discriminate].
  - subst l2. rewrite Ht in He.
    apply list_elem_of_In, List.filter_In in He as [_ He].
    apply String.eqb_eq in He. rewrite He.
    destruct decision_filter; [reflexivity | discriminate].
Qed.


Lemma sum_1_if_cons {A : Type} (c : A -> bool) (x : A) (l : list A) :
  sum_1_if c (x :: l) = (if c x then 1 else 0) + sum_1_if c l.
Proof. unfold sum_1_if. cbn. destruct (c x); reflexivity. Qed.

Lemma at_level_one (e : AuditEntry.t) :
  (if at_level OmegaLevel.OMEGA_0 e then 1 else 0)
  + (if at_level OmegaLevel.OMEGA_1 e then 1 else 0)
  + (if at_level OmegaLevel.OMEGA_2 e then 1 else 0)
  + (if at_level OmegaLevel.UNKNOWN e then 1 else 0) = 1.
Proof.
  unfold at_level.
  destruct (PolicyDecision.omega_level (AuditEntry.policy_decision e));
    reflexivity.
Qed.

Lemma decided_one (e : AuditEntry.t) :
  (if decided Decision.ALLOW e then 1 else 0)
  + (if decided Decision.DENY e then 1 else 0)
  + (if decided Decision.REVIEW e then 1 else 0) = 1.
Proof.
  unfold decided.
  destruct (PolicyDecision.decision (AuditEntry.policy_decision e));
    reflexivity.
Qed.

(** X18. The counts of the summary fit together: on a non-empty log the
    per-level counts of [by_omega_level] add up to [total], and [allowed]
    plus [denied] does not exceed [total] (the rest are the Review
    entries). *)
Theorem get_summary_counts_add_up (lg : AuditLogger.t) :
  AuditLogger._entries lg <> [] ->
  exists total allowed denied by_omega,
    AuditLogger.get_summary lg !! "total" = Some (SCount total)
    /\ AuditLogger.get_summary lg !! "allowed" = Some (SCount allowed)
    /\ AuditLogger.get_summary lg !! "denied" = Some (SCount denied)
    /\ AuditLogger.get_summary lg !! "by_omega_level" = Some (SByOmega by_omega)
    /\ default 0 (by_omega !! "OMEGA_0") + default 0 (by_omega !! "OMEGA_1")
       + default 0 (by_omega !! "OMEGA_2") + default 0 (by_omega !! "UNKNOWN")
       = total
    /\ allowed + denied + sum_1_if (decided Decision.REVIEW)
                            (AuditLogger._entries lg) = total.
Proof.
  intros Hne. unfold AuditLogger.get_summary.
  assert (Hlen : (length (AuditLogger._entries lg) =? 0)%nat = false)
    by (destruct (AuditLogger._entries lg); [done | reflexivity]).
  rewrite Hlen. cbv zeta. clear Hne Hlen.
  generalize (AuditLogger._entries lg). intros l.
  eexists _, _, _, _. repeat (split; [reflexivity |]).
  split.
  - change "OMEGA_0" with (OmegaLevel.name OmegaLevel.OMEGA_0).
    change "OMEGA_1" with (OmegaLevel.name OmegaLevel.OMEGA_1).
    change "OMEGA_2" with (OmegaLevel.name OmegaLevel.OMEGA_2).
    change "UNKNOWN" with (OmegaLevel.name OmegaLevel.UNKNOWN).
    rewrite !count_by_omega_lookup.
    assert (Hd : forall o,
              default 0 (if (sum_1_if (at_level o) l =? 0)%nat then None
                         else Some (sum_1_if (at_level o) l))
              = sum_1_if (at_level o) l).
    { intros o. destruct (sum_1_if (at_level o) l); reflexivity. }
    rewrite !Hd. clear Hd.
    induction l as [|e l IH]; [reflexivity |].
    rewrite !sum_1_if_cons. cbn [length]. pose proof (at_level_one e). lia.
  - rewrite (sum_1_if_ext _ (decided Decision.ALLOW))
      by (intros x; apply (decision_name_eqb Decision.ALLOW)).
    rewrite (sum_1_if_ext (fun e0 => String.eqb (AuditLogger.decision_name e0) "DENY")
               (decided Decision.DENY))
      by (intros x; apply (decision_name_eqb Decision.DENY)).
    induction l as [|e l IH]; [reflexivity |].
    rewrite !sum_1_if_cons. cbn [length]. pose proof (decided_one e). lia.
Qed.

(** ** More of the runtime *)

(** The tool registry's round trip: after [register(m, executor)],
    [get_manifest(m.tool_id)] returns [m] and every other tool is as
    before. Registering with an executor installs it; registering without
    one replaces the manifest but leaves in place whatever executor the
    tool already had. *)
Lemma registry_round_trip (r : ToolRegistry.t) (m : ToolManifest.t)
    (ex : option Executor) (f : Executor) (other : string) :
  ToolRegistry.get_manifest (ToolRegistry.register r m ex)
    (ToolManifest.tool_id m) = Some m
  /\ (other <> ToolManifest.tool_id m ->
      ToolRegistry.get_manifest (ToolRegistry.register r m ex) other
      = ToolRegistry.get_manifest r other
      /\ ToolRegistry.get_executor (ToolRegistry.register r m ex) other
         = ToolRegistry.get_executor r other)
  /\ ToolRegistry.get_executor (ToolRegistry.register r m (Some f))
       (ToolManifest.tool_id m) = Some f
  /\ ToolRegistry.get_executor (ToolRegistry.register r m None)
       (ToolManifest.tool_id m)
     = ToolRegistry.get_executor r (ToolManifest.tool_id m).
Proof.
  unfold ToolRegistry.get_manifest, ToolRegistry.get_executor,
    ToolRegistry.register. cbn.
  split; [apply lookup_insert_eq |]. split.
  - intros Ho. split; [apply lookup_insert_ne; done |].
    destruct ex; [apply lookup_insert_ne; done | reflexivity].
  - split; [apply lookup_insert_eq | reflexivity].
Qed.

(** X19. Omega0 bypasses every safety state: for a registered Omega0 tool
    that is not on the blocklist and has an executor, [execute] calls the
    executor with the call's action and arguments, whether or not the
    emptiness window or the emergency gate is active and whatever the
    monitorability gate says, and leaves the emptiness controller as it
    was. When the write to the audit sink that follows succeeds, the
    executor's outcome is handed back, and the call leaves one audit entry,
    an Allow marked executed; unless the executor raised a [BaseException]
    that is no [Exception], which leaves no entry. *)
Theorem execute_omega0_bypasses (rt rt' : FitSecRuntime.t) (call : ToolCall.t)
    (m : ToolManifest.t) (ex : Executor) (w w1 w' : World.t)
    (r out : Outcome PyVal) :
  ToolRegistry.get_manifest (FitSecRuntime.registry rt)
    (ToolCall.tool_id call) = Some m ->
  ToolManifest.omega_level m = OmegaLevel.OMEGA_0 ->
  ToolCall.tool_id call ∉ PolicyEngine._blocked_tools (FitSecRuntime.policy rt) ->
  ToolRegistry.get_executor (FitSecRuntime.registry rt)
    (ToolCall.tool_id call) = Some ex ->
  ex (ToolCall.action call) (ToolCall.args call) (World.tick w) = (r, w1) ->
  sink_write_succeeds (FitSecRuntime.audit rt) w1 = true ->
  FitSecRuntime.execute rt call false w = (out, rt', w') ->
  out = r
  /\ (if escapes_except r then entries_of rt' = entries_of rt
      else exists e,
             entries_of rt' = (entries_of rt ++ [e])%list
             /\ PolicyDecision.decision (AuditEntry.policy_decision e)
                = Decision.ALLOW
             /\ AuditEntry.executed e = true)
  /\ FitSecRuntime.emptiness rt' = FitSecRuntime.emptiness rt.
Proof.
  intros Hm Ho Hb Hex Ee Hs H. unfold FitSecRuntime.execute in H.
  rewrite Hm, Ho in H.
  assert (Hc : EmptinessWindow.check_allowed (FitSecRuntime.emptiness rt)
                 OmegaLevel.OMEGA_0 = true).
  { unfold EmptinessWindow.check_allowed.
    destruct (EmptinessWindow._state _); reflexivity. }
  rewrite Hc in H. cbn [negb] in H.
  rewrite bool_decide_eq_true_2, andb_false_r in H by reflexivity.
  cbv beta iota zeta in H.
  unfold FitSecRuntime.execute_policy, PolicyEngine.evaluate in H.
  rewrite bool_decide_eq_false_2, Ho in H by done.
  py_unfold. cbv beta iota zeta in H. cbn [PolicyDecision.decision] in H.
  change (FitSecRuntime.registry
            (FitSecRuntime.set_policy (FitSecRuntime.policy rt) rt))
    with (FitSecRuntime.registry rt) in H.
  rewrite Hex in H.
  apply execute_run_cases in H
    as (r0 & w0 & new & Er & Hf & Hent & Hall & _ & Hesc & Hone).
  rewrite Ee in Er. injection Er as <- <-.
  apply same_but_entries_fields in Hf as (_ & _ & _ & _ & _ & Hem & _).
  destruct (escapes_except r).
  - destruct (Hesc eq_refl) as [-> ->]. rewrite app_nil_r in Hent. done.
  - destruct (Hone eq_refl) as [_ Hok]. destruct (Hok Hs) as [-> Hlen].
    destruct new as [|e [|e2 new]]; try discriminate Hlen.
    apply Forall_singleton in Hall as (_ & _ & Hd & Hx).
    split; [reflexivity |]. split; [| exact Hem].
    exists e. rewrite Hd. done.
Qed.

(** X20. Emergency precedence: while the emergency gate is active, a call
    to a registered tool that is not at Omega0 (and is not already stopped
    by the emptiness window) raises GateFailed before the monitorability
    gate and the policy are consulted; the audit entry is a Deny, not
    executed, whose rationale carries the reason given to
    [emergency_stop]. The write of the entry to the audit sink is taken to
    succeed. *)
Theorem execute_emergency_blocks (rt rt' : FitSecRuntime.t)
    (call : ToolCall.t) (m : ToolManifest.t) (dry_run : bool)
    (w w' : World.t) (out : Outcome PyVal) :
  ToolRegistry.get_manifest (FitSecRuntime.registry rt)
    (ToolCall.tool_id call) = Some m ->
  ToolManifest.omega_level m <> OmegaLevel.OMEGA_0 ->
  EmptinessWindow.is_active (FitSecRuntime.emptiness rt) = false ->
  EmergencyGate.is_active (FitSecRuntime.emergency_gate rt) = true ->
  sink_write_succeeds (FitSecRuntime.audit rt) w = true ->
  FitSecRuntime.execute rt call dry_run w = (out, rt', w') ->
  out = Raise (GateFailedError "Emergency gate is active")
  /\ (exists e,
        entries_of rt' = (entries_of rt ++ [e])%list
        /\ PolicyDecision.decision (AuditEntry.policy_decision e)
           = Decision.DENY
        /\ PolicyDecision.rationale (AuditEntry.policy_decision e)
           = "Emergency gate active: "
               +:+ EmergencyGate.get_reason (FitSecRuntime.emergency_gate rt)
        /\ AuditEntry.executed e = false
        /\ AuditEntry.error e = Some "EmergencyGateActive")
  /\ FitSecRuntime.policy rt' = FitSecRuntime.policy rt
  /\ World.native_calls w' = World.native_calls w.
Proof.
  intros Hm Ho Ha He Hs H. unfold FitSecRuntime.execute in H. rewrite Hm in H.
  assert (Hc : EmptinessWindow.check_allowed (FitSecRuntime.emptiness rt)
                 (ToolManifest.omega_level m) = true).
  { unfold EmptinessWindow.check_allowed, EmptinessWindow.is_active in *.
    destruct (EmptinessWindow._state _); [reflexivity | discriminate]. }
  rewrite Hc, He in H. cbn [negb andb] in H.
  rewrite bool_decide_eq_false_2 in H by done. cbn [negb] in H.
  py_unfold. log_step H.
  apply same_but_entries_fields in Hframe as (_ & _ & _ & _ & Hp & _).
  split; [exact (Hok Hs) |].
  split; [eexists; split; [exact Hent |]; done |].
  split; [exact Hp | exact Hnat].
Qed.

(** X21. Scenario S4 on the runtime: in strict mode, with the windows
    closed, a failing monitorability gate stops every call to a registered
    Omega1 or Omega2 tool with GateFailed, before the policy is consulted;
    the audit entry is a Deny, not executed, that records the failing
    status and the metrics that produced it. The write of the entry to the
    audit sink is taken to succeed. *)
Theorem execute_strict_gate_failure (rt rt' : FitSecRuntime.t)
    (call : ToolCall.t) (m : ToolManifest.t) (dry_run : bool)
    (w w' : World.t) (out : Outcome PyVal) :
  ToolRegistry.get_manifest (FitSecRuntime.registry rt)
    (ToolCall.tool_id call) = Some m ->
  (ToolManifest.omega_level m = OmegaLevel.OMEGA_1
   \/ ToolManifest.omega_level m = OmegaLevel.OMEGA_2) ->
  EmptinessWindow.is_active (FitSecRuntime.emptiness rt) = false ->
  EmergencyGate.is_active (FitSecRuntime.emergency_gate rt) = false ->
  FitSecRuntime.strict_mode rt = true ->
  GateStatus.in_pass_unknown
    (MonitorabilityGate.check (FitSecRuntime.gate rt) None) = false ->
  sink_write_succeeds (FitSecRuntime.audit rt) w = true ->
  FitSecRuntime.execute rt call dry_run w = (out, rt', w') ->
  (exists msg, out = Raise (GateFailedError msg))
  /\ (exists e,
        entries_of rt' = (entries_of rt ++ [e])%list
        /\ PolicyDecision.decision (AuditEntry.policy_decision e)
           = Decision.DENY
        /\ PolicyDecision.gate_status (AuditEntry.policy_decision e)
           = MonitorabilityGate.check (FitSecRuntime.gate rt) None
        /\ PolicyDecision.metrics_snapshot (AuditEntry.policy_decision e)
           = MonitorabilityGate._metrics (FitSecRuntime.gate rt)
        /\ AuditEntry.executed e = false)
  /\ FitSecRuntime.policy rt' = FitSecRuntime.policy rt
  /\ World.native_calls w' = World.native_calls w.
Proof.
  intros Hm Ho Ha He Hs Hg Hsink H. unfold FitSecRuntime.execute in H.
  rewrite Hm in H.
  assert (Hc : EmptinessWindow.check_allowed (FitSecRuntime.emptiness rt)
                 (ToolManifest.omega_level m) = true).
  { unfold EmptinessWindow.check_allowed, EmptinessWindow.is_active in *.
    destruct (EmptinessWindow._state _); [reflexivity | discriminate]. }
  rewrite Hc, He, Hs in H. cbn [negb andb] in H. cbv beta iota zeta in H.
  assert (Hb : match ToolManifest.omega_level m with
               | OmegaLevel.OMEGA_1 | OmegaLevel.OMEGA_2 =>
                   MonitorabilityGate.check (FitSecRuntime.gate rt) None
               | _ => GateStatus.PASS
               end = MonitorabilityGate.check (FitSecRuntime.gate rt) None)
    by (destruct Ho as [-> | ->]; reflexivity).
  rewrite Hb in H.
  assert (Hb2 : match ToolManifest.omega_level m with
                | OmegaLevel.OMEGA_1 | OmegaLevel.OMEGA_2 =>
                    negb (GateStatus.in_pass_unknown
                            (MonitorabilityGate.check (FitSecRuntime.gate rt)
                               None)) && true
                | _ => false
                end = true)
    by (rewrite Hg; destruct Ho as [-> | ->]; reflexivity).
  rewrite Hb2 in H. py_unfold. log_step H.
  apply same_but_entries_fields in Hframe as (_ & _ & _ & _ & Hp & _).
  rewrite (Hok Hsink).
  split; [eauto |]. split; [eexists; split; [exact Hent |]; done |].
  split; [exact Hp | exact Hnat].
Qed.

(** X22. Non-strict mode does not open Omega1: with [strict_mode] off and the
    windows closed, a failing monitorability gate still denies every call
    to a registered Omega1 tool; the failure is carried to the policy, which
    denies, so the caller gets PolicyDenied instead of GateFailed and the
    audit entry records the failing status. The write of the entry to the
    audit sink is taken to succeed. *)
Theorem execute_lenient_gate_failure_omega1 (rt rt' : FitSecRuntime.t)
    (call : ToolCall.t) (m : ToolManifest.t) (dry_run : bool)
    (w w' : World.t) (out : Outcome PyVal) :
  ToolRegistry.get_manifest (FitSecRuntime.registry rt)
    (ToolCall.tool_id call) = Some m ->
  ToolManifest.omega_level m = OmegaLevel.OMEGA_1 ->
  EmptinessWindow.is_active (FitSecRuntime.emptiness rt) = false ->
  EmergencyGate.is_active (FitSecRuntime.emergency_gate rt) = false ->
  FitSecRuntime.strict_mode rt = false ->
  GateStatus.in_pass_unknown
    (MonitorabilityGate.check (FitSecRuntime.gate rt) None) = false ->
  sink_write_succeeds (FitSecRuntime.audit rt) w = true ->
  FitSecRuntime.execute rt call dry_run w = (out, rt', w') ->
  (exists msg, out = Raise (PolicyDeniedError msg))
  /\ (exists e,
        entries_of rt' = (entries_of rt ++ [e])%list
        /\ PolicyDecision.decision (AuditEntry.policy_decision e)
           = Decision.DENY
        /\ PolicyDecision.gate_status (AuditEntry.policy_decision e)
           = MonitorabilityGate.check (FitSecRuntime.gate rt) None
        /\ AuditEntry.executed e = false)
  /\ World.native_calls w' = World.native_calls w.
Proof.
  intros Hm Ho Ha He Hs Hg Hsink H. unfold FitSecRuntime.execute in H.
  rewrite Hm in H.
  assert (Hc : EmptinessWindow.check_allowed (FitSecRuntime.emptiness rt)
                 (ToolManifest.omega_level m) = true).
  { unfold EmptinessWindow.check_allowed, EmptinessWindow.is_active in *.
    destruct (EmptinessWindow._state _); [reflexivity | discriminate]. }
  rewrite Hc, He, Hs, Ho in H. cbn [negb andb] in H.
  rewrite andb_false_r in H. cbv beta iota zeta in H.
  unfold FitSecRuntime.execute_policy, PolicyEngine.evaluate in H.
  rewrite Ho, Hg in H.
  destruct (bool_decide (ToolCall.tool_id call ∈ _)).
  all: py_unfold; cbv beta iota zeta in H; cbn [PolicyDecision.decision] in H.
  all: log_step H; rewrite (Hok Hsink).
  all: split; [eauto |]; split; [eexists; split; [exact Hent |]; done |].
  all: exact Hnat.
Qed.

Lemma evaluate_keeps_rules (pe pe' : PolicyEngine.t) (call : ToolCall.t)
    (m : option ToolManifest.t) (gs : GateStatus.t) (w w' : World.t)
    (d : PolicyDecision.t) :
  PolicyEngine.evaluate pe call m gs w = (d, pe', w') ->
  PolicyEngine.default_omega2_deny pe' = PolicyEngine.default_omega2_deny pe
  /\ PolicyEngine._grants pe' = PolicyEngine._grants pe
  /\ PolicyEngine._blocked_tools pe' = PolicyEngine._blocked_tools pe
  /\ PolicyEngine._allowed_network_domains pe'
     = PolicyEngine._allowed_network_domains pe
  /\ World.native_calls w' = World.native_calls w.
Proof.
  intros H. destruct m as [m|].
  2: { unfold PolicyEngine.evaluate in H. py_unfold.
       injection H as _ <- <-. done. }
  assert (Hw : World.native_calls w' = World.native_calls w).
  { revert H. unfold PolicyEngine.evaluate, PolicyEngine.evaluate_omega2_grants.
    py_unfold.
    repeat match goal with
           | |- context [if ?b then _ else _] => destruct b
           | |- context [match ?x with _ => _ end] => destruct x
           end; intros H; injection H as _ _ <-; reflexivity. }
  apply evaluate_shape in H as (_ & _ & H).
  destruct (bool_decide _); [destruct H as [_ ->]; done |].
  destruct (ToolManifest.omega_level m); try (destruct H as [_ ->]; done).
  destruct (approval_live _ _ _); destruct H as [_ ->]; done.
Qed.

Lemma evaluate_review_level (pe pe' : PolicyEngine.t) (call : ToolCall.t)
    (m : ToolManifest.t) (gs : GateStatus.t) (w w' : World.t)
    (d : PolicyDecision.t) :
  PolicyEngine.evaluate pe call (Some m) gs w = (d, pe', w') ->
  PolicyDecision.decision d = Decision.REVIEW ->
  ToolManifest.omega_level m = OmegaLevel.OMEGA_2.
Proof.
  intros H Hd. apply evaluate_shape in H as (_ & _ & H). rewrite Hd in H.
  destruct (bool_decide _); [destruct H; discriminate |].
  destruct (ToolManifest.omega_level m); try reflexivity;
    try (destruct H; discriminate).
  destruct (GateStatus.in_pass_unknown gs); destruct H; discriminate.
Qed.

(** What [execute] leaves of the runtime outside the audit log, from the
    policy step on. *)
Lemma execute_policy_frame (rt rt' : FitSecRuntime.t) (call : ToolCall.t)
    (m : ToolManifest.t) (gs : GateStatus.t) (dry_run : bool)
    (w w' : World.t) (out : Outcome PyVal) :
  FitSecRuntime.execute_policy rt call m gs dry_run w = (out, rt', w') ->
  FitSecRuntime.registry rt' = FitSecRuntime.registry rt
  /\ FitSecRuntime.gate rt' = FitSecRuntime.gate rt
  /\ FitSecRuntime.emergency_gate rt' = FitSecRuntime.emergency_gate rt
  /\ FitSecRuntime.strict_mode rt' = FitSecRuntime.strict_mode rt
  /\ PolicyEngine._blocked_tools (FitSecRuntime.policy rt')
     = PolicyEngine._blocked_tools (FitSecRuntime.policy rt)
  /\ PolicyEngine._grants (FitSecRuntime.policy rt')
     = PolicyEngine._grants (FitSecRuntime.policy rt)
  /\ (EmptinessWindow.check_allowed (FitSecRuntime.emptiness rt)
        (ToolManifest.omega_level m) = true ->
      FitSecRuntime.emptiness rt' = FitSecRuntime.emptiness rt).
Proof.
  unfold FitSecRuntime.execute_policy, mbind, Py_bind. intros H.
  destruct (PolicyEngine.evaluate _ _ _ _ w) as [[d p'] w1] eqn:Ev.
  pose proof (evaluate_keeps_rules _ _ _ _ _ _ _ _ Ev) as (_ & Hg & Hb & _).
  cbv beta iota zeta in H.
  assert (Hrec : PolicyDecision.decision d = Decision.REVIEW ->
                 EmptinessWindow.check_allowed (FitSecRuntime.emptiness rt)
                   (ToolManifest.omega_level m) = true ->
                 EmptinessWindow.record_blocked_call
                   (FitSecRuntime.emptiness rt) call
                 = FitSecRuntime.emptiness rt).
  { intros Hd Hc. rewrite (evaluate_review_level _ _ _ _ _ _ _ _ Ev Hd) in Hc.
    unfold EmptinessWindow.check_allowed, EmptinessWindow.record_blocked_call
      in *.
    destruct (EmptinessWindow._state _); [reflexivity | discriminate]. }
  destruct (PolicyDecision.decision d) eqn:Hd.
  1: destruct dry_run;
     [| destruct (ToolRegistry.get_executor _ _) as [ex|]].
  2: apply execute_run_cases in H as (r & w2 & new & _ & Hframe & _).
  1, 3, 4, 5: log_step H.
  all: apply same_but_entries_fields in Hframe
         as (-> & -> & -> & -> & -> & -> & _).
  all: cbn; repeat (split; [first [reflexivity | assumption] |]).
  all: first [reflexivity | intros Hc; rewrite (Hrec eq_refl Hc); reflexivity].
Qed.

(** X23. The emptiness buffer grows in one way only: a call that the
    emptiness check itself stops. Any other [execute] (allowed, denied by a
    gate or the policy, sent to review, unknown tool) leaves the controller
    exactly as it was; in particular the "requires review" path, which
    calls [record_blocked_call], never buffers anything, because it is only
    reached with the window closed. The write of the entry to the audit
    sink is taken to succeed. *)
Theorem execute_buffers_only_emptiness_denials (rt rt' : FitSecRuntime.t)
    (call : ToolCall.t) (dry_run : bool) (w w' : World.t)
    (out : Outcome PyVal) :
  sink_write_succeeds (FitSecRuntime.audit rt) w = true ->
  FitSecRuntime.execute rt call dry_run w = (out, rt', w') ->
  FitSecRuntime.emptiness rt' = FitSecRuntime.emptiness rt
  \/ (EmptinessWindow.is_active (FitSecRuntime.emptiness rt) = true
      /\ (exists msg, out = Raise (EmptinessActiveError msg))
      /\ EmptinessWindow._blocked_calls (FitSecRuntime.emptiness rt')
         = (EmptinessWindow._blocked_calls (FitSecRuntime.emptiness rt)
              ++ [call])%list
      /\ EmptinessWindow._review_packets (FitSecRuntime.emptiness rt')
         = EmptinessWindow._review_packets (FitSecRuntime.emptiness rt)).
Proof.
  unfold FitSecRuntime.execute. intros Hs H. py_unfold.
  destruct (ToolRegistry.get_manifest _ _) as [m|].
  2: { left. log_step H.
       apply same_but_entries_fields in Hframe as (_ & _ & _ & _ & _ & Hem & _).
       exact Hem. }
  destruct (EmptinessWindow.check_allowed _ _) eqn:Hc; cbn [negb] in H.
  - left. destruct (EmergencyGate.is_active _ && _).
    { log_step H.
      apply same_but_entries_fields in Hframe as (_ & _ & _ & _ & _ & Hem & _).
      exact Hem. }
    match type of H with (if ?b then _ else _) _ = _ => destruct b end.
    { log_step H.
      apply same_but_entries_fields in Hframe as (_ & _ & _ & _ & _ & Hem & _).
      exact Hem. }
    apply execute_policy_frame in H as (_ & _ & _ & _ & _ & _ & He).
    exact (He Hc).
  - right. log_step H.
    apply same_but_entries_fields in Hframe as (_ & _ & _ & _ & _ & Hem & _).
    rewrite Hem, (Hok Hs).
    unfold EmptinessWindow.check_allowed, EmptinessWindow.is_active,
      EmptinessWindow.record_blocked_call in *. cbn.
    destruct (EmptinessWindow._state (FitSecRuntime.emptiness rt));
      [discriminate |].
    split; [reflexivity |]. split; [eauto |]. done.
Qed.

(** X24. [execute] never reconfigures the runtime: the tool registry, the
    monitorability gate and its metrics, the emergency gate and the strict
    flag are the same after any call as before, and so are the policy's
    blocklist and grants. *)
Theorem execute_keeps_configuration (rt rt' : FitSecRuntime.t)
    (call : ToolCall.t) (dry_run : bool) (w w' : World.t)
    (out : Outcome PyVal) :
  FitSecRuntime.execute rt call dry_run w = (out, rt', w') ->
  FitSecRuntime.registry rt' = FitSecRuntime.registry rt
  /\ FitSecRuntime.gate rt' = FitSecRuntime.gate rt
  /\ FitSecRuntime.emergency_gate rt' = FitSecRuntime.emergency_gate rt
  /\ FitSecRuntime.strict_mode rt' = FitSecRuntime.strict_mode rt
  /\ PolicyEngine._blocked_tools (FitSecRuntime.policy rt')
     = PolicyEngine._blocked_tools (FitSecRuntime.policy rt)
  /\ PolicyEngine._grants (FitSecRuntime.policy rt')
     = PolicyEngine._grants (FitSecRuntime.policy rt).
Proof.
  unfold FitSecRuntime.execute. intros H. py_unfold.
  assert (Hlog : forall r c mm d x res err o w0 ro wo oo,
            FitSecRuntime.log_then r c mm d x res err o w0 = (oo, ro, wo) ->
            FitSecRuntime.registry ro = FitSecRuntime.registry r
            /\ FitSecRuntime.gate ro = FitSecRuntime.gate r
            /\ FitSecRuntime.emergency_gate ro = FitSecRuntime.emergency_gate r
            /\ FitSecRuntime.strict_mode ro = FitSecRuntime.strict_mode r
            /\ FitSecRuntime.policy ro = FitSecRuntime.policy r).
  { intros r c mm d x res err o w0 ro wo oo E. log_step E.
    apply same_but_entries_fields in Hframe as (? & ? & ? & ? & ? & _).
    done. }
  destruct (ToolRegistry.get_manifest _ _) as [m|].
  2: { cbv beta iota zeta in H. apply Hlog in H as (? & ? & ? & ? & ->). done. }
  destruct (negb (EmptinessWindow.check_allowed _ _)).
  { cbv beta iota zeta in H. apply Hlog in H as (? & ? & ? & ? & ->). done. }
  destruct (EmergencyGate.is_active _ && _).
  { cbv beta iota zeta in H. apply Hlog in H as (? & ? & ? & ? & ->). done. }
  match type of H with (if ?b then _ else _) _ = _ => destruct b end.
  { cbv beta iota zeta in H. apply Hlog in H as (? & ? & ? & ? & ->). done. }
  apply execute_policy_frame in H as (? & ? & ? & ? & ? & ? & _). done.
Qed.

(** [execute] keeps the executors and the kind of the audit sink. *)
Lemma execute_keeps_sink (rt rt' : FitSecRuntime.t) (call : ToolCall.t)
    (dry_run : bool) (w w' : World.t) (out : Outcome PyVal) :
  FitSecRuntime.execute rt call dry_run w = (out, rt', w') ->
  FitSecRuntime.registry rt' = FitSecRuntime.registry rt
  /\ writes_to_file (FitSecRuntime.audit rt')
     = writes_to_file (FitSecRuntime.audit rt).
Proof.
  unfold FitSecRuntime.execute. intros H. py_unfold.
  assert (Hlog : forall r c mm d x res err o w0 ro wo oo,
            FitSecRuntime.log_then r c mm d x res err o w0 = (oo, ro, wo) ->
            FitSecRuntime.registry ro = FitSecRuntime.registry r
            /\ writes_to_file (FitSecRuntime.audit ro)
               = writes_to_file (FitSecRuntime.audit r)).
  { intros r c mm d x res err o w0 ro wo oo E. log_step E.
    apply same_but_entries_fields in Hframe as (? & _ & _ & _ & _ & _ & ?).
    done. }
  destruct (ToolRegistry.get_manifest _ _) as [m|].
  2: { cbv beta iota zeta in H. exact (Hlog _ _ _ _ _ _ _ _ _ _ _ _ H). }
  destruct (negb (EmptinessWindow.check_allowed _ _)).
  { cbv beta iota zeta in H. exact (Hlog _ _ _ _ _ _ _ _ _ _ _ _ H). }
  destruct (EmergencyGate.is_active _ && _).
  { cbv beta iota zeta in H. exact (Hlog _ _ _ _ _ _ _ _ _ _ _ _ H). }
  match type of H with (if ?b then _ else _) _ = _ => destruct b end.
  { cbv beta iota zeta in H. exact (Hlog _ _ _ _ _ _ _ _ _ _ _ _ H). }
  unfold FitSecRuntime.execute_policy, mbind, Py_bind in H.
  destruct (PolicyEngine.evaluate _ _ _ _ w) as [[d p'] w1].
  cbv beta iota zeta in H.
  destruct (PolicyDecision.decision d).
  1: destruct dry_run;
     [| destruct (ToolRegistry.get_executor _ _) as [ex|]].
  2: { apply execute_run_cases in H as (r & w2 & new & _ & Hframe & _).
       apply same_but_entries_fields in Hframe as (? & _ & _ & _ & _ & _ & ?).
       done. }
  all: exact (Hlog _ _ _ _ _ _ _ _ _ _ _ _ H).
Qed.

(** X25. A driver that submits calls one after the other gets one outcome
    per call. When the audit log is kept in memory only and the executors
    of the submitted calls raise nothing but [Exception]s, the audit log is
    extended by one entry per call, in the order of submission, each entry
    recording its call; and if only allowed calls were marked executed in
    the log before, the same holds after. *)
Theorem run_calls_audit_in_order (calls : list ToolCall.t)
    (rt rt' : FitSecRuntime.t) (w w' : World.t) (outs : list (Outcome PyVal)) :
  writes_to_file (FitSecRuntime.audit rt) = false ->
  Forall (raises_only_exceptions rt) calls ->
  run_calls rt calls w = (outs, rt', w') ->
  length outs = length calls
  /\ exists new,
       entries_of rt' = (entries_of rt ++ new)%list
       /\ AuditEntry.tool_call <$> new = calls
       /\ (executed_only_if_allowed (entries_of rt) ->
           executed_only_if_allowed (entries_of rt')).
Proof.
  revert rt rt' w w' outs.
  induction calls as [|c calls IH]; intros rt rt' w w' outs Hmem Hex H.
  - cbn in H. injection H as <- <- _. split; [reflexivity |].
    exists []. rewrite app_nil_r. done.
  - cbn in H.
    destruct (FitSecRuntime.execute rt c false w) as [[out rt1] w1] eqn:E1.
    destruct (run_calls rt1 calls w1) as [[outs1 rt2] w2] eqn:E2.
    injection H as <- <- _.
    apply Forall_cons in Hex as [Hc Hcs].
    destruct (execute_logs _ _ _ _ _ _ _ E1) as (new1 & [He Hall] & _ & Hone).
    specialize (Hone Hmem Hc).
    destruct new1 as [|e [|e2 new1]]; try discriminate Hone.
    apply Forall_singleton in Hall as [Hcall Hx].
    destruct (execute_keeps_sink _ _ _ _ _ _ _ E1) as [Hreg Hsink].
    assert (Hmem1 : writes_to_file (FitSecRuntime.audit rt1) = false)
      by (rewrite Hsink; exact Hmem).
    assert (Hcs1 : Forall (raises_only_exceptions rt1) calls).
    { eapply Forall_impl; [exact Hcs |]. intros c0 H0.
      unfold raises_only_exceptions in *. rewrite Hreg. exact H0. }
    destruct (IH _ _ _ _ _ Hmem1 Hcs1 E2) as (Hl & new & Hn & Hm & Hinv).
    split; [cbn; f_equal; exact Hl |].
    exists (e :: new). split; [rewrite Hn, He, <- app_assoc; reflexivity |].
    split; [cbn; rewrite Hcall, Hm; reflexivity |].
    intros H0. apply Hinv. rewrite He. unfold executed_only_if_allowed in *.
    apply Forall_app. split; [exact H0 |]. apply Forall_singleton. exact Hx.
Qed.

Lemma log_then_with_executors (ex : gmap string Executor)
    (rt : FitSecRuntime.t) (c : ToolCall.t) (m : option ToolManifest.t)
    (d : PolicyDecision.t) (x : bool) (r : option PyVal) (err : option string)
    (out : Outcome PyVal) (w : World.t) :
  FitSecRuntime.log_then (with_executors ex rt) c m d x r err out w
  = let '(o, rt', w') := FitSecRuntime.log_then rt c m d x r err out w in
    (o, with_executors ex rt', w').
Proof.
  unfold FitSecRuntime.log_then, mbind, mret, Py_bind, Py_ret. cbn.
  destruct (AuditLogger.log _ _ _ _ _ _ _ _) as [[[?|?] a'] w1]; reflexivity.
Qed.

(** X26. A dry run never reaches an executor: with [dry_run] set, the
    outcome, the audit entry and the world after the call are the same
    whatever executors are registered; a value is returned only as the
    dry-run marker, and the audit entry is never marked executed. *)
Theorem dry_run_never_calls_executor (ex : gmap string Executor)
    (rt rt' : FitSecRuntime.t) (call : ToolCall.t) (w w' : World.t)
    (out : Outcome PyVal) :
  FitSecRuntime.execute rt call true w = (out, rt', w') ->
  FitSecRuntime.execute (with_executors ex rt) call true w
  = (out, with_executors ex rt', w')
  /\ (forall v, out = Return v ->
        v = VDict (<["dry_run" := VBool true]>
                     (<["would_execute" := VBool true]> ∅)))
  /\ exists e, entries_of rt' = (entries_of rt ++ [e])%list
               /\ AuditEntry.executed e = false.
Proof.
  unfold FitSecRuntime.execute. intros H.
  change (ToolRegistry.get_manifest
            (FitSecRuntime.registry (with_executors ex rt))
            (ToolCall.tool_id call))
    with (ToolRegistry.get_manifest (FitSecRuntime.registry rt)
            (ToolCall.tool_id call)).
  change (FitSecRuntime.emptiness (with_executors ex rt))
    with (FitSecRuntime.emptiness rt).
  change (FitSecRuntime.emergency_gate (with_executors ex rt))
    with (FitSecRuntime.emergency_gate rt).
  change (FitSecRuntime.gate (with_executors ex rt))
    with (FitSecRuntime.gate rt).
  change (FitSecRuntime.strict_mode (with_executors ex rt))
    with (FitSecRuntime.strict_mode rt).
  py_unfold.
  assert (Hfin : forall r c mm d res err o w0,
            FitSecRuntime.log_then r c mm d false res err o w0 = (out, rt', w') ->
            (forall v, o = Return v ->
               v = VDict (<["dry_run" := VBool true]>
                            (<["would_execute" := VBool true]> ∅))) ->
            entries_of r = entries_of rt ->
            FitSecRuntime.log_then (with_executors ex r) c mm d false res err
              o w0 = (out, with_executors ex rt', w')
            /\ (forall v, out = Return v ->
                  v = VDict (<["dry_run" := VBool true]>
                               (<["would_execute" := VBool true]> ∅)))
            /\ exists e, entries_of rt' = (entries_of rt ++ [e])%list
                         /\ AuditEntry.executed e = false).
  { intros r c mm d res err o w0 E Ho Hr.
    rewrite log_then_with_executors, E.
    destruct (log_then_run r c mm d false res err o w0)
      as (o' & rt1 & w2 & E2 & Hout & _ & Hent & _).
    rewrite E in E2. injection E2 as <- <- <-.
    split; [reflexivity |]. split.
    { destruct Hout as [-> | [msg ->]]; [exact Ho | discriminate]. }
    eexists. rewrite Hent, Hr. done. }
  destruct (ToolRegistry.get_manifest _ _) as [m|].
  2: { cbv beta iota zeta in H |- *. apply (Hfin _ _ _ _ _ _ _ _ H); done. }
  destruct (negb (EmptinessWindow.check_allowed _ _)).
  { cbv beta iota zeta in H |- *. apply (Hfin _ _ _ _ _ _ _ _ H); done. }
  destruct (EmergencyGate.is_active _ && _).
  { cbv beta iota zeta in H |- *. apply (Hfin _ _ _ _ _ _ _ _ H); done. }
  match type of H with (if ?b then _ else _) _ = _ => destruct b end.
  { cbv beta iota zeta in H |- *. apply (Hfin _ _ _ _ _ _ _ _ H); done. }
  unfold FitSecRuntime.execute_policy, mbind, Py_bind in H |- *.
  change (FitSecRuntime.policy (with_executors ex rt))
    with (FitSecRuntime.policy rt).
  destruct (PolicyEngine.evaluate _ _ _ _ w) as [[d p'] w1].
  cbv beta iota zeta in H |- *.
  destruct (PolicyDecision.decision d).
  - change (FitSecRuntime.set_policy p' (with_executors ex rt))
      with (with_executors ex (FitSecRuntime.set_policy p' rt)).
    apply (Hfin _ _ _ _ _ _ _ _ H); [| reflexivity].
    intros v Hv. injection Hv as <-. reflexivity.
  - change (FitSecRuntime.set_policy p' (with_executors ex rt))
      with (with_executors ex (FitSecRuntime.set_policy p' rt)).
    apply (Hfin _ _ _ _ _ _ _ _ H); done.
  - change (FitSecRuntime.set_emptiness
              (EmptinessWindow.record_blocked_call
                 (FitSecRuntime.emptiness
                    (FitSecRuntime.set_policy p' (with_executors ex rt)))
                 call)
              (FitSecRuntime.set_policy p' (with_executors ex rt)))
      with (with_executors ex
              (FitSecRuntime.set_emptiness
                 (EmptinessWindow.record_blocked_call
                    (FitSecRuntime.emptiness (FitSecRuntime.set_policy p' rt))
                    call)
                 (FitSecRuntime.set_policy p' rt))).
    apply (Hfin _ _ _ _ _ _ _ _ H); done.
Qed.

(** ** More of the secure registry facade *)

(** X27. How the facade classifies a tool at registration: an explicit
    [omega_level] wins; otherwise the facade's mapping for the tool's name;
    otherwise Omega1. The mapping of a facade built with custom mappings is
    the custom one where it has the name and the default table elsewhere.
    The manifest registered with the runtime carries that level and asks
    for approval exactly at Omega2, and the tool itself is stored in the
    native registry. *)
Theorem facade_register_level (s : SecureToolRegistry.t) (tool : Tool.t)
    (override : option OmegaLevel.t) (native : NativeToolRegistry.t)
    (workspace audit_path : option string) (strict : bool)
    (custom : option (gmap string OmegaLevel.t)) :
  (exists m,
     ToolRegistry.get_manifest
       (FitSecRuntime.registry
          (SecureToolRegistry._runtime
             (SecureToolRegistry.register s tool override)))
       (Tool.name tool) = Some m
     /\ ToolManifest.omega_level m
        = match override with
          | Some l => l
          | None =>
              match SecureToolRegistry._omega_mappings s !! Tool.name tool with
              | Some l => l
              | None => OmegaLevel.OMEGA_1
              end
          end
     /\ ToolManifest.requires_approval m
        = bool_decide (ToolManifest.omega_level m = OmegaLevel.OMEGA_2)
     /\ NativeToolRegistry._tools
          (SecureToolRegistry._registry
             (SecureToolRegistry.register s tool override))
        !! Tool.name tool = Some tool)
  /\ SecureToolRegistry._omega_mappings
       (SecureToolRegistry.init native workspace strict custom audit_path)
     !! Tool.name tool
     = match default ∅ custom !! Tool.name tool with
       | Some l => Some l
       | None => DEFAULT_OMEGA_MAPPINGS !! Tool.name tool
       end.
Proof.
  split.
  - eexists. split.
    + cbn. unfold ToolRegistry.get_manifest. cbn. apply lookup_insert_eq.
    + cbn. split; [| split; [reflexivity | apply lookup_insert_eq]].
      destruct override; [reflexivity |].
      destruct (SecureToolRegistry._omega_mappings s !! Tool.name tool);
        reflexivity.
  - unfold SecureToolRegistry.init.
    cbn [SecureToolRegistry._omega_mappings]. rewrite lookup_union.
    destruct (default ∅ custom !! Tool.name tool);
      destruct (DEFAULT_OMEGA_MAPPINGS !! Tool.name tool); reflexivity.
Qed.

(** X28. A tool name the runtime has no manifest for is refused by the
    facade with PolicyDenied ("Tool not registered (no manifest)"), not
    with ToolNotRegistered, in every state of the emptiness window and the
    gates; the native registry is not called and nothing is audited or
    buffered. *)
Theorem facade_unknown_tool_is_policy_denied (s s' : SecureToolRegistry.t)
    (name : string) (params : gmap string PyVal) (w w' : World.t)
    (out : Outcome PyVal) :
  ToolRegistry.get_manifest
    (FitSecRuntime.registry (SecureToolRegistry._runtime s)) name = None ->
  SecureToolRegistry.execute s name params w = (out, s', w') ->
  out = Raise (PolicyDeniedError "Tool not registered (no manifest)")
  /\ World.native_calls w' = World.native_calls w
  /\ facade_entries s' = facade_entries s
  /\ FitSecRuntime.emptiness (SecureToolRegistry._runtime s')
     = FitSecRuntime.emptiness (SecureToolRegistry._runtime s)
  /\ FitSecRuntime.policy (SecureToolRegistry._runtime s')
     = FitSecRuntime.policy (SecureToolRegistry._runtime s).
Proof.
  intros Hm H. unfold SecureToolRegistry.execute in H. py_unfold.
  cbv beta iota zeta in H. rewrite Hm in H.
  unfold SecureToolRegistry.execute_gate, SecureToolRegistry.execute_policy,
    PolicyEngine.evaluate in H.
  py_unfold. cbn in H. injection H as <- <- <-. done.
Qed.

(** X29. The facade's version of the emptiness block: while the window is
    active, a call to a registered tool that is not at Omega0 raises
    EmptinessActive with a message naming the tool and its level, and the
    call (the tool's name, the action "execute", the parameters) joins the
    buffer; the native registry is not called, the policy is not evaluated
    and nothing is audited. *)
Theorem facade_emptiness_blocks (s s' : SecureToolRegistry.t)
    (name : string) (params : gmap string PyVal) (m : ToolManifest.t)
    (w w' : World.t) (out : Outcome PyVal) :
  ToolRegistry.get_manifest
    (FitSecRuntime.registry (SecureToolRegistry._runtime s)) name = Some m ->
  ToolManifest.omega_level m <> OmegaLevel.OMEGA_0 ->
  EmptinessWindow.is_active
    (FitSecRuntime.emptiness (SecureToolRegistry._runtime s)) = true ->
  SecureToolRegistry.execute s name params w = (out, s', w') ->
  out = Raise (EmptinessActiveError
                 ("Emptiness Window active: " +:+ name +:+ " (O"
                    +:+ pretty (OmegaLevel.value (ToolManifest.omega_level m))
                    +:+ ") blocked"))
  /\ (exists call,
        EmptinessWindow._blocked_calls
          (FitSecRuntime.emptiness (SecureToolRegistry._runtime s'))
        = (EmptinessWindow._blocked_calls
             (FitSecRuntime.emptiness (SecureToolRegistry._runtime s))
             ++ [call])%list
        /\ ToolCall.tool_id call = name
        /\ ToolCall.action call = "execute"
        /\ ToolCall.args call = params)
  /\ World.native_calls w' = World.native_calls w
  /\ facade_entries s' = facade_entries s
  /\ FitSecRuntime.policy (SecureToolRegistry._runtime s')
     = FitSecRuntime.policy (SecureToolRegistry._runtime s).
Proof.
  intros Hm Ho Ha H. unfold SecureToolRegistry.execute in H. py_unfold.
  cbv beta iota zeta in H. rewrite Hm, Ha in H.
  unfold EmptinessWindow.is_active in Ha. apply bool_decide_eq_true in Ha.
  unfold EmptinessWindow.check_allowed in H. rewrite Ha in H.
  rewrite bool_decide_eq_false_2 in H by done. cbn [negb andb] in H.
  injection H as <- <- <-. split; [reflexivity |]. split.
  - eexists. cbn. unfold EmptinessWindow.record_blocked_call. rewrite Ha.
    cbn. done.
  - done.
Qed.

Lemma log_then_raise (rt rt' : FitSecRuntime.t) (c : ToolCall.t)
    (m : option ToolManifest.t) (d : PolicyDecision.t) (ex : bool)
    (r : option PyVal) (err : option string) (e : Exc) (out : Outcome PyVal)
    (w w' : World.t) :
  FitSecRuntime.log_then rt c m d ex r err (Raise e) w = (out, rt', w') ->
  exists e', out = Raise e'.
Proof.
  intros H. log_step H. destruct Hout as [-> | [msg ->]]; eauto.
Qed.

Lemma facade_native_return (s s' : SecureToolRegistry.t) (call : ToolCall.t)
    (m : option ToolManifest.t) (d : PolicyDecision.t) (name : string)
    (params : gmap string PyVal) (w w' : World.t) (v : PyVal) :
  SecureToolRegistry.execute_native s call m d name params w
  = (Return v, s', w') ->
  exists e,
    facade_entries s' = (facade_entries s ++ [e])%list
    /\ AuditEntry.tool_call e = call
    /\ AuditEntry.policy_decision e = d
    /\ AuditEntry.executed e = true
    /\ AuditEntry.result e = Some v
    /\ AuditEntry.error e = None.
Proof.
  unfold SecureToolRegistry.execute_native, SecureToolRegistry.execute_try,
    mbind, mret, Py_bind, Py_ret.
  intros H.
  destruct (NativeToolRegistry.execute _ _ _ w) as [[result|e] w1].
  - destruct (log_then_run (SecureToolRegistry._runtime s) call m d true
                (Some result) None (Return result) w1)
      as (o & rt1 & w2 & E & Hout & _ & He & _).
    rewrite E in H. destruct Hout as [-> | [msg ->]].
    + injection H as <- <- <-. cbn. eauto 10.
    + cbn [is_Exception] in H.
      destruct (FitSecRuntime.log_then _ _ _ _ _ _ _ _ w2)
        as [[o2 rt2] w3] eqn:E2.
      apply log_then_raise in E2 as [e' ->]. discriminate.
  - destruct e; cbn [is_Exception] in H; try discriminate.
    all: destruct (FitSecRuntime.log_then _ _ _ _ _ _ _ _ w1)
           as [[o2 rt2] w3] eqn:E2;
      apply log_then_raise in E2 as [e' ->]; discriminate.
Qed.

(** X30. When the facade returns a value, the call was audited: exactly one
    entry was appended, for the call (the tool's name, the action
    "execute", the parameters), marked executed, holding the returned value
    as its result and no error, under a decision that is not Deny. *)
Theorem facade_return_is_audited (s s' : SecureToolRegistry.t)
    (name : string) (params : gmap string PyVal) (w w' : World.t)
    (v : PyVal) :
  SecureToolRegistry.execute s name params w = (Return v, s', w') ->
  exists e,
    facade_entries s' = (facade_entries s ++ [e])%list
    /\ ToolCall.tool_id (AuditEntry.tool_call e) = name
    /\ ToolCall.action (AuditEntry.tool_call e) = "execute"
    /\ ToolCall.args (AuditEntry.tool_call e) = params
    /\ PolicyDecision.decision (AuditEntry.policy_decision e) <> Decision.DENY
    /\ AuditEntry.executed e = true
    /\ AuditEntry.result e = Some v
    /\ AuditEntry.error e = None.
Proof.
  intros H. unfold SecureToolRegistry.execute in H. py_unfold.
  cbv beta iota zeta in H.
  set (call := ToolCall.mk name "execute" params ∅
                 (World.clock w (World.clock_reads w))) in *.
  assert (Hpol : forall mm gs w0,
            SecureToolRegistry.execute_policy s call mm gs name params w0
            = (Return v, s', w') ->
            exists e,
              facade_entries s' = (facade_entries s ++ [e])%list
              /\ AuditEntry.tool_call e = call
              /\ PolicyDecision.decision (AuditEntry.policy_decision e)
                 <> Decision.DENY
              /\ AuditEntry.executed e = true
              /\ AuditEntry.result e = Some v
              /\ AuditEntry.error e = None).
  { intros mm gs w0 E.
    unfold SecureToolRegistry.execute_policy, mbind, mret, Py_bind, Py_ret in E.
    destruct (PolicyEngine.evaluate _ _ _ _ w0) as [[d p'] w1].
    destruct (PolicyDecision.decision d) eqn:Hd; [| discriminate |].
    all: apply facade_native_return in E
           as (e & He & Hc & Hp & Hx & Hr & Herr).
    all: exists e; cbn in He; rewrite Hp, Hd; done. }
  assert (Hgate : forall mm w0,
            SecureToolRegistry.execute_gate s call mm name params w0
            = (Return v, s', w') ->
            exists e,
              facade_entries s' = (facade_entries s ++ [e])%list
              /\ AuditEntry.tool_call e = call
              /\ PolicyDecision.decision (AuditEntry.policy_decision e)
                 <> Decision.DENY
              /\ AuditEntry.executed e = true
              /\ AuditEntry.result e = Some v
              /\ AuditEntry.error e = None).
  { intros mm w0 E. unfold SecureToolRegistry.execute_gate in E.
    destruct mm as [m0|]; [| eapply Hpol, E].
    destruct (bool_decide _); [| eapply Hpol, E].
    destruct (negb _); [| eapply Hpol, E].
    py_unfold. discriminate. }
  assert (He : exists e,
              facade_entries s' = (facade_entries s ++ [e])%list
              /\ AuditEntry.tool_call e = call
              /\ PolicyDecision.decision (AuditEntry.policy_decision e)
                 <> Decision.DENY
              /\ AuditEntry.executed e = true
              /\ AuditEntry.result e = Some v
              /\ AuditEntry.error e = None).
  { destruct (ToolRegistry.get_manifest _ _) as [m|]; [| eapply Hgate, H].
    destruct (EmptinessWindow.is_active _ && _); [discriminate |].
    eapply Hgate, H. }
  destruct He as (e & A & B & C & D & E & F). exists e. rewrite B. done.
Qed.

(** ** The added properties, on inputs *)

(** X8, on an input: a gate whose stored metrics have NaN for the rate, the
    coverage and the lead-time mean. *)
Lemma check_passes_without_numbers_witness :
  MonitorabilityGate.check
    (MonitorabilityGate.update_metrics MonitorabilityGate.init nan_metrics)
    None = GateStatus.PASS.
Proof.
  apply (check_passes_without_numbers _ None nan_metrics);
    vm_compute; reflexivity.
Defined.

(** X11, on an input: a second [activate] on the window of scenario S3, one
    call buffered. *)
Lemma activate_when_active_keeps_window_witness :
  EmptinessWindow.activate (FitSecRuntime.emptiness drill_runtime_blocked)
    "again" late_world
  = (FitSecRuntime.emptiness drill_runtime_blocked, late_world).
Proof.
  apply activate_when_active_keeps_window. vm_compute. reflexivity.
Defined.

(** X12, on an input: the window of scenario S3 left with
    [require_review=False]: no packet. *)
Lemma deactivate_packet_iff_witness :
  exists p e' w',
    EmptinessWindow.deactivate (FitSecRuntime.emptiness drill_runtime_blocked)
      false late_world = (p, e', w')
    /\ ~ is_Some p
    /\ EmptinessWindow.is_active e' = false.
Proof.
  destruct (EmptinessWindow.deactivate
              (FitSecRuntime.emptiness drill_runtime_blocked) false late_world)
    as [[p e'] w'] eqn:E.
  destruct (deactivate_packet_iff _ _ _ _ _ _ E) as (Hiff & Ha & _).
  exists p, e', w'. split; [reflexivity |]. split; [| exact Ha].
  intros Hp. apply Hiff in Hp as (_ & Hr & _). discriminate Hr.
Defined.

(** X14, on an input: a new controller, activated, two calls recorded,
    deactivated with review. *)
Lemma window_round_trip_witness :
  exists p e' w' pk,
    EmptinessWindow.deactivate
      (foldl EmptinessWindow.record_blocked_call
         (fst (EmptinessWindow.activate EmptinessWindow.init "drill"
                 sample_world))
         [write_call; exec_call]) true late_world = (p, e', w')
    /\ p = Some pk
    /\ ReviewPacket.blocked_calls pk = [write_call; exec_call].
Proof.
  destruct (EmptinessWindow.deactivate
              (foldl EmptinessWindow.record_blocked_call
                 (fst (EmptinessWindow.activate EmptinessWindow.init "drill"
                         sample_world))
                 [write_call; exec_call]) true late_world)
    as [[p e'] w'] eqn:E.
  destruct (window_round_trip EmptinessWindow.init
              (fst (EmptinessWindow.activate EmptinessWindow.init "drill"
                      sample_world))
              e' "drill" [write_call; exec_call] sample_world
              (World.tick sample_world) late_world w' p)
    as (pk & Hp & Hb & _).
  - reflexivity.
  - discriminate.
  - reflexivity.
  - exact E.
  - exists p, e', w', pk. split; [reflexivity |]. split; [exact Hp | exact Hb].
Defined.

(** X15, on an input: one entry logged by a logger that mirrors to
    "audit.jsonl", in a world where the write succeeds; the record in the
    file names the type of the result, not the result. *)
Lemma log_sinks_witness :
  exists lr a' w' e,
    AuditLogger.log durable_logger read_call (Some read_file_manifest)
      allow_decision true (Some (VStr "ok")) None sample_world = (lr, a', w')
    /\ lr = Return e
    /\ AuditLogger._entries a' = [e]
    /\ World.files w' !! "audit.jsonl"
       = Some [AuditLogger._entry_to_dict sample_world e]
    /\ AuditEntry.result e = Some (VStr "ok")
    /\ match AuditLogger._entry_to_dict sample_world e with
       | VDict record =>
           record !! "result_type" = Some (VStr "str")
           /\ record !! "result" = None
       | _ => False
       end.
Proof.
  destruct (AuditLogger.log durable_logger read_call (Some read_file_manifest)
              allow_decision true (Some (VStr "ok")) None sample_world)
    as [[lr a'] w'] eqn:E.
  destruct (log_sinks _ _ _ _ _ _ _ _ _ _ _ E) as (e & He & Hargs & Hf).
  cbn in Hf. destruct Hf as (Hlr & Hfile & _).
  exists lr, a', w', e. split; [reflexivity |]. split; [exact Hlr |].
  split; [exact He |]. split; [exact Hfile |].
  injection Hargs as _ _ _ _ Hr _. split; [exact Hr |].
  unfold AuditLogger._entry_to_dict. rewrite Hr.
  split; [by_compute_lookup | by_compute_lookup].
Defined.

(** X18, on an input: the log left by the denied [exec] call. *)
Lemma get_summary_counts_add_up_witness :
  exists total by_omega,
    AuditLogger.get_summary denied_log !! "total" = Some (SCount total)
    /\ AuditLogger.get_summary denied_log !! "by_omega_level"
       = Some (SByOmega by_omega)
    /\ default 0 (by_omega !! "OMEGA_0") + default 0 (by_omega !! "OMEGA_1")
       + default 0 (by_omega !! "OMEGA_2") + default 0 (by_omega !! "UNKNOWN")
       = total.
Proof.
  assert (Hne : AuditLogger._entries denied_log <> [])
    by (vm_compute; discriminate).
  destruct (get_summary_counts_add_up denied_log Hne)
    as (total & allowed & denied & by_omega & Ht & _ & _ & Hb & Hs & _).
  exists total, by_omega. split; [exact Ht |]. split; [exact Hb | exact Hs].
Defined.

(** X19, on an input: [read_file] (O0) on a runtime with the window open,
    the emergency gate active and a failing gate. *)
Lemma execute_omega0_bypasses_witness :
  EmptinessWindow.is_active (FitSecRuntime.emptiness locked_down_runtime) = true
  /\ EmergencyGate.is_active (FitSecRuntime.emergency_gate locked_down_runtime)
     = true
  /\ MonitorabilityGate.check (FitSecRuntime.gate locked_down_runtime) None
     = GateStatus.FAIL_FPR
  /\ exists rt' w' e,
       FitSecRuntime.execute locked_down_runtime read_call false sample_world
       = (Return (VStr "[sync:read_file]"), rt', w')
       /\ entries_of rt' = (entries_of locked_down_runtime ++ [e])%list
       /\ AuditEntry.executed e = true.
Proof.
  split; [vm_compute; reflexivity |]. split; [reflexivity |].
  split; [vm_compute; reflexivity |].
  destruct (FitSecRuntime.execute locked_down_runtime read_call false
              sample_world) as [[out rt'] w'] eqn:E.
  destruct (execute_omega0_bypasses locked_down_runtime rt' read_call
              read_file_manifest (echo "[sync:read_file]") sample_world
              (World.tick sample_world) w' (Return (VStr "[sync:read_file]"))
              out)
    as (-> & (e & He & _ & Hx) & _).
  - vm_compute. reflexivity.
  - reflexivity.
  - by_compute_notin.
  - vm_compute. reflexivity.
  - reflexivity.
  - reflexivity.
  - exact E.
  - exists rt', w', e. split; [reflexivity |]. split; [exact He | exact Hx].
Defined.

(** X20, on an input: scenario S6, [write_file] (O1) after
    [emergency_stop("incident")]. *)
Lemma execute_emergency_blocks_witness :
  exists rt' w',
    FitSecRuntime.execute incident_runtime write_call false sample_world
    = (Raise (GateFailedError "Emergency gate is active"), rt', w').
Proof.
  destruct (FitSecRuntime.execute incident_runtime write_call false
              sample_world) as [[out rt'] w'] eqn:E.
  destruct (execute_emergency_blocks incident_runtime rt' write_call
              write_file_manifest false sample_world w' out)
    as (-> & _).
  - vm_compute. reflexivity.
  - discriminate.
  - vm_compute. reflexivity.
  - reflexivity.
  - reflexivity.
  - exact E.
  - exists rt', w'. reflexivity.
Defined.

(** X21, on an input: scenario S4, [write_file] (O1) on the strict runtime
    with [fpr] over its target. *)
Lemma execute_strict_gate_failure_witness :
  exists out rt' w' msg,
    FitSecRuntime.execute failing_gate_runtime write_call false sample_world
    = (out, rt', w')
    /\ out = Raise (GateFailedError msg).
Proof.
  destruct (FitSecRuntime.execute failing_gate_runtime write_call false
              sample_world) as [[out rt'] w'] eqn:E.
  destruct (execute_strict_gate_failure failing_gate_runtime rt' write_call
              write_file_manifest false sample_world w' out)
    as ((msg & Hout) & _).
  - vm_compute. reflexivity.
  - left. reflexivity.
  - vm_compute. reflexivity.
  - reflexivity.
  - reflexivity.
  - vm_compute. reflexivity.
  - reflexivity.
  - exact E.
  - exists out, rt', w', msg. split; [reflexivity | exact Hout].
Defined.

(** X22, on an input: the same metrics on a non-strict runtime. *)
Lemma execute_lenient_gate_failure_omega1_witness :
  exists out rt' w' msg,
    FitSecRuntime.execute lenient_failing_runtime write_call false sample_world
    = (out, rt', w')
    /\ out = Raise (PolicyDeniedError msg).
Proof.
  destruct (FitSecRuntime.execute lenient_failing_runtime write_call false
              sample_world) as [[out rt'] w'] eqn:E.
  destruct (execute_lenient_gate_failure_omega1 lenient_failing_runtime rt'
              write_call write_file_manifest false sample_world w' out)
    as ((msg & Hout) & _).
  - vm_compute. reflexivity.
  - reflexivity.
  - vm_compute. reflexivity.
  - reflexivity.
  - reflexivity.
  - vm_compute. reflexivity.
  - reflexivity.
  - exact E.
  - exists out, rt', w', msg. split; [reflexivity | exact Hout].
Defined.

(** X23, on an input: the denied [exec] call on the sample runtime, window
    closed. *)
Lemma execute_buffers_only_emptiness_denials_witness :
  exists out rt' w',
    FitSecRuntime.execute sample_runtime exec_call false sample_world
    = (out, rt', w')
    /\ FitSecRuntime.emptiness rt' = FitSecRuntime.emptiness sample_runtime.
Proof.
  destruct (FitSecRuntime.execute sample_runtime exec_call false sample_world)
    as [[out rt'] w'] eqn:E.
  exists out, rt', w'. split; [reflexivity |].
  destruct (execute_buffers_only_emptiness_denials sample_runtime rt'
              exec_call false sample_world w' out eq_refl E)
    as [H | (Ha & _)]; [exact H |].
  vm_compute in Ha. discriminate Ha.
Defined.

(** X24, on an input: the denied [exec] call on the sample runtime. *)
Lemma execute_keeps_configuration_witness :
  exists out rt' w',
    FitSecRuntime.execute sample_runtime exec_call false sample_world
    = (out, rt', w')
    /\ FitSecRuntime.registry rt' = FitSecRuntime.registry sample_runtime
    /\ FitSecRuntime.gate rt' = FitSecRuntime.gate sample_runtime.
Proof.
  destruct (FitSecRuntime.execute sample_runtime exec_call false sample_world)
    as [[out rt'] w'] eqn:E.
  destruct (execute_keeps_configuration _ _ _ _ _ _ _ E) as (Hr & Hg & _).
  exists out, rt', w'. split; [reflexivity |]. split; [exact Hr | exact Hg].
Defined.

(** X25, on an input: three calls submitted in a row to the sample runtime,
    whose audit log is kept in memory. *)
Lemma run_calls_audit_in_order_witness :
  exists outs rt' w' new,
    run_calls sample_runtime [read_call; exec_call; write_call] sample_world
    = (outs, rt', w')
    /\ length outs = 3
    /\ entries_of rt' = (entries_of sample_runtime ++ new)%list
    /\ AuditEntry.tool_call <$> new = [read_call; exec_call; write_call].
Proof.
  destruct (run_calls sample_runtime [read_call; exec_call; write_call]
              sample_world) as [[outs rt'] w'] eqn:E.
  destruct (run_calls_audit_in_order [read_call; exec_call; write_call]
              sample_runtime rt' sample_world w' outs)
    as (Hl & new & Hn & Hm & _).
  - reflexivity.
  - repeat constructor; intros ex w Hex; vm_compute in Hex;
      injection Hex as <-; reflexivity.
  - exact E.
  - exists outs, rt', w', new. split; [reflexivity |]. split; [exact Hl |].
    split; [exact Hn | exact Hm].
Defined.

(** X26, on an input: a dry run of [write_file], with the executors and with
    none. *)
Lemma dry_run_never_calls_executor_witness :
  exists out rt' w',
    FitSecRuntime.execute sample_runtime write_call true sample_world
    = (out, rt', w')
    /\ FitSecRuntime.execute (with_executors ∅ sample_runtime) write_call true
         sample_world = (out, with_executors ∅ rt', w').
Proof.
  destruct (FitSecRuntime.execute sample_runtime write_call true sample_world)
    as [[out rt'] w'] eqn:E.
  exists out, rt', w'. split; [reflexivity |].
  exact (proj1 (dry_run_never_calls_executor ∅ _ _ _ _ _ _ E)).
Defined.

(** X28, on an input: the unregistered name "ghost", submitted while the
    window is open. *)
Lemma facade_unknown_tool_is_policy_denied_witness :
  exists s' w',
    SecureToolRegistry.execute drill_registry "ghost" ∅ sample_world
    = (Raise (PolicyDeniedError "Tool not registered (no manifest)"), s', w').
Proof.
  destruct (SecureToolRegistry.execute drill_registry "ghost" ∅ sample_world)
    as [[out s'] w'] eqn:E.
  destruct (facade_unknown_tool_is_policy_denied drill_registry s' "ghost" ∅
              sample_world w' out) as (-> & _).
  - vm_compute. reflexivity.
  - exact E.
  - exists s', w'. reflexivity.
Defined.

(** X29, on an input: [write_file] (O1) on the facade while the window is
    open. *)
Lemma facade_emptiness_blocks_witness :
  exists s' w',
    SecureToolRegistry.execute drill_registry "write_file" ∅ late_world
    = (Raise (EmptinessActiveError
                "Emptiness Window active: write_file (O1) blocked"), s', w')
    /\ facade_entries s' = facade_entries drill_registry.
Proof.
  destruct (SecureToolRegistry.execute drill_registry "write_file" ∅
              late_world) as [[out s'] w'] eqn:E.
  destruct (facade_emptiness_blocks drill_registry s' "write_file" ∅
              write_file_manifest late_world w' out)
    as (-> & _ & _ & He & _).
  - vm_compute. reflexivity.
  - discriminate.
  - vm_compute. reflexivity.
  - exact E.
  - exists s', w'. split; [vm_compute; reflexivity | exact He].
Defined.

(** X30, on an input: [read_file] on the sample facade. *)
Lemma facade_return_is_audited_witness :
  exists s' w' e,
    SecureToolRegistry.execute sample_registry "read_file" ∅ sample_world
    = (Return (VStr "[read_file] executed"), s', w')
    /\ facade_entries s' = (facade_entries sample_registry ++ [e])%list
    /\ AuditEntry.executed e = true
    /\ AuditEntry.result e = Some (VStr "[read_file] executed").
Proof.
  destruct (SecureToolRegistry.execute sample_registry "read_file" ∅
              sample_world) as [[out s'] w'] eqn:E.
  assert (Ho : out = Return (VStr "[read_file] executed")).
  { apply (f_equal (fun x => fst (fst x))) in E. vm_compute in E.
    symmetry. exact E. }
  subst out.
  destruct (facade_return_is_audited _ _ _ _ _ _ _ E)
    as (e & He & _ & _ & _ & _ & Hx & Hr & _).
  exists s', w', e. split; [reflexivity |]. split; [exact He |].
  split; [exact Hx | exact Hr].
Defined.
